(** * Descriptor normaliser and formatter of app/strategy/service.py

    A shallow embedding of [_coerce_to_dict] and
    [format_query_from_strat_name], together with the Python run-time
    operations they rely on ([str], [repr], truthiness, [dict.get],
    [str.strip], [str.rstrip], [str.lower], [str.replace], [str.join]).

    Python text is modelled as [string]: every [ascii] stands for one code
    point below 256.  The two library parsers [json.loads] and
    [ast.literal_eval] are parameters of the embedding; a reference model of
    both, for a documented fragment of their input languages, is given at
    the end of the definitions and is used for the closed examples.

    The services of the same file that work on the database
    ([save_strategy_service], the two paginated listings,
    [get_strategy_service] and [run_script]) are embedded over the three
    tables of app/database/models.py, each a list of rows; what depends on
    the database product or on the world outside the program is a
    parameter ([Store.Sql], [Store.World]).  The environment defaults of
    run.py close the definitions. *)

From Stdlib Require Import String Ascii List ZArith NArith Bool Lia.
From Stdlib Require Import DecimalString.
From Stdlib Require Import Permutation.
Import ListNotations.

Local Open Scope list_scope.
Local Open Scope string_scope.

(** ** Text operations *)

Module Text.

Definition code (c : ascii) : N := N_of_ascii c.

(** The double quote character. *)
Definition dquote : ascii := ascii_of_N 34.

Definition in_range (lo hi : N) (c : ascii) : bool :=
  (lo <=? code c)%N && (code c <=? hi)%N.

(** [str.isspace] on one code point below 256: TAB..CR, FS..US, SPACE,
    NEL (0x85) and NBSP (0xA0). *)
Definition is_space (c : ascii) : bool :=
  in_range 9 13 c || in_range 28 32 c || (code c =? 133)%N || (code c =? 160)%N.

Fixpoint mem (c : ascii) (chars : string) : bool :=
  match chars with
  | EmptyString => false
  | String d rest => Ascii.eqb c d || mem c rest
  end.

(** [s.lstrip(...)]: drop the longest prefix of characters satisfying [p]. *)
Fixpoint lstrip_by (p : ascii -> bool) (s : string) : string :=
  match s with
  | EmptyString => EmptyString
  | String c rest => if p c then lstrip_by p rest else s
  end.

(** [s.rstrip(...)]: drop the longest suffix of characters satisfying [p]. *)
Fixpoint rstrip_by (p : ascii -> bool) (s : string) : string :=
  match s with
  | EmptyString => EmptyString
  | String c rest =>
      match rstrip_by p rest with
      | EmptyString => if p c then EmptyString else String c EmptyString
      | kept => String c kept
      end
  end.

(** [s.strip()], [s.rstrip()] and [s.rstrip(chars)].  The argument of
    [rstrip] is a set of characters, not a suffix. *)
Definition strip (s : string) : string := lstrip_by is_space (rstrip_by is_space s).
Definition rstrip (s : string) : string := rstrip_by is_space s.
Definition rstrip_chars (chars s : string) : string := rstrip_by (fun c => mem c chars) s.

Fixpoint map_chars (f : ascii -> ascii) (s : string) : string :=
  match s with
  | EmptyString => EmptyString
  | String c rest => String (f c) (map_chars f rest)
  end.

(** [str.lower] on one code point below 256. *)
Definition lower_char (c : ascii) : ascii :=
  if in_range 65 90 c || (in_range 192 222 c && negb (code c =? 215)%N)
  then ascii_of_N (code c + 32)
  else c.

Definition lower (s : string) : string := map_chars lower_char s.

(** [s.replace(old, new)] for one-character [old] and [new]. *)
Definition replace_char (old new : ascii) (s : string) : string :=
  map_chars (fun c => if Ascii.eqb c old then new else c) s.

(** A text written with a backquote for every double quote in it. *)
Definition dq (s : string) : string := replace_char "`" dquote s.

(** [sep.join(parts)] *)
Fixpoint join (sep : string) (parts : list string) : string :=
  match parts with
  | [] => EmptyString
  | [p] => p
  | p :: rest => p ++ sep ++ join sep rest
  end.

Fixpoint has_char (c : ascii) (s : string) : bool :=
  match s with
  | EmptyString => false
  | String d rest => Ascii.eqb d c || has_char c rest
  end.

(** [s.endswith(suffix)] *)
Fixpoint ends_with (suffix s : string) : bool :=
  String.eqb s suffix ||
  match s with
  | EmptyString => false
  | String _ rest => ends_with suffix rest
  end.

Definition hex_digit (n : N) : ascii :=
  if (n <? 10)%N then ascii_of_N (48 + n) else ascii_of_N (87 + n).

End Text.

(** ** Python values *)

Set Warnings "-register-all".

(** The values [json.loads] can return, and tuples, which only
    [ast.literal_eval] produces.  A float is identified with its [repr]
    text: the formatter observes a float through [str] and truthiness
    only.  A dict is its list of items in insertion order. *)
Inductive pyval : Type :=
| PNone
| PBool (b : bool)
| PInt (z : Z)
| PFloat (repr : string)
| PStr (s : string)
| PList (items : list pyval)
| PTuple (items : list pyval)
| PDict (items : list (pyval * pyval)).

Definition is_str (v : pyval) : bool := match v with PStr _ => true | _ => false end.
Definition is_dict (v : pyval) : bool := match v with PDict _ => true | _ => false end.
Definition is_list (v : pyval) : bool := match v with PList _ => true | _ => false end.

(** [bool(v)] *)
Definition truthy (v : pyval) : bool :=
  match v with
  | PNone => false
  | PBool b => b
  | PInt z => negb (z =? 0)%Z
  | PFloat r => negb (String.eqb r "0.0" || String.eqb r "-0.0")
  | PStr s => negb (String.eqb s "")
  | PList l | PTuple l => match l with [] => false | _ => true end
  | PDict d => match d with [] => false | _ => true end
  end.

(** [type(v).__name__] *)
Definition type_name (v : pyval) : string :=
  match v with
  | PNone => "NoneType"
  | PBool _ => "bool"
  | PInt _ => "int"
  | PFloat _ => "float"
  | PStr _ => "str"
  | PList _ => "list"
  | PTuple _ => "tuple"
  | PDict _ => "dict"
  end.

(** [a or b] on already evaluated operands. *)
Definition py_or (a b : pyval) : pyval := if truthy a then a else b.

Definition str_of_Z (z : Z) : string := NilZero.string_of_int (Z.to_int z).

Module Repr.
Import Text.

(** [repr] of a [str]: single quotes unless the text holds a single quote
    and no double quote; backslash, the chosen quote, TAB, LF and CR are
    escaped, the other unprintable code points are written [\xhh]. *)
Definition printable (c : ascii) : bool :=
  negb (in_range 0 31 c || in_range 127 160 c || (code c =? 173)%N).

Definition escape_char (quote c : ascii) : string :=
  if Ascii.eqb c quote || Ascii.eqb c "\"%char then String "\"%char (String c EmptyString)
  else if (code c =? 9)%N then "\t"
  else if (code c =? 10)%N then "\n"
  else if (code c =? 13)%N then "\r"
  else if printable c then String c EmptyString
  else String "\"%char (String "x"%char
         (String (hex_digit (code c / 16)) (String (hex_digit (code c mod 16)) EmptyString))).

Fixpoint escape (quote : ascii) (s : string) : string :=
  match s with
  | EmptyString => EmptyString
  | String c rest => escape_char quote c ++ escape quote rest
  end.

Definition repr_str (s : string) : string :=
  let quote := if has_char "'"%char s && negb (has_char dquote s)
               then dquote else "'"%char in
  String quote (escape quote s ++ String quote EmptyString).

Definition repr_tuple (parts : list string) : string :=
  match parts with
  | [p] => "(" ++ p ++ ",)"
  | _ => "(" ++ join ", " parts ++ ")"
  end.

(** [repr(v)] *)
Fixpoint repr (v : pyval) : string :=
  match v with
  | PNone => "None"
  | PBool true => "True"
  | PBool false => "False"
  | PInt z => str_of_Z z
  | PFloat r => r
  | PStr s => repr_str s
  | PList l => "[" ++ join ", " (map repr l) ++ "]"
  | PTuple l => repr_tuple (map repr l)
  | PDict d =>
      "{" ++ join ", " (map (fun kv : pyval * pyval => let (k, x) := kv in repr k ++ ": " ++ repr x) d) ++ "}"
  end.

End Repr.

(** The text of [str(v)], which is also what an f-string placeholder
    [{v}] renders, when the conversion returns; [py_str] below tells when
    it does. *)
Definition str_text (v : pyval) : string :=
  match v with
  | PStr s => s
  | _ => Repr.repr v
  end.

(** ** Exceptions, results and the trace of library calls *)

(** An instance of [Exception]: its class name and [str(e)]. *)
Inductive exn : Type := Exn (cls msg : string).

Definition exn_str (e : exn) : string := let (_, msg) := e in msg.

Inductive result (A : Type) : Type :=
| Ok (a : A)
| Raise (e : exn).
Arguments Ok {A} a.
Arguments Raise {A} e.

Definition bind_result {A B} (m : result A) (k : A -> result B) : result B :=
  match m with
  | Ok a => k a
  | Raise e => Raise e
  end.

(** The two library parsers are the only calls the formatter makes outside
    the language core; a computation records them in call order. *)
Inductive call : Type :=
| JsonLoads (arg : pyval)
| LiteralEval (arg : pyval).

Definition traced (A : Type) : Type := (list call * result A)%type.

Definition ret {A} (a : A) : traced A := ([], Ok a).

Definition bind {A B} (m : traced A) (k : A -> traced B) : traced B :=
  match m with
  | (calls, Ok a) => let (calls', r) := k a in ((calls ++ calls')%list, r)
  | (calls, Raise e) => (calls, Raise e)
  end.

(** [try: m  except Exception as e: handler e] *)
Definition try_except {A} (m : traced A) (handler : exn -> traced A) : traced A :=
  match m with
  | (calls, Ok a) => (calls, Ok a)
  | (calls, Raise e) => let (calls', r) := handler e in ((calls ++ calls')%list, r)
  end.

Definition lift {A} (r : result A) : traced A := ([], r).

Declare Scope py_scope.
Delimit Scope py_scope with py.
Notation "x <- m ;; k" := (bind_result m (fun x => k))
  (at level 61, m at next level, right associativity) : py_scope.
Notation "x <~ m ;; k" := (bind m (fun x => k))
  (at level 61, m at next level, right associativity) : py_scope.
Local Open Scope py_scope.

(** ** Conversion to text *)

(** CPython converts an integer to decimal text only if it has at most
    [sys.int_info.default_max_str_digits] digits, the sign not counted;
    [str], [repr] and [format] of a longer one raise a [ValueError].  The
    two parsers refuse a decimal literal of that length, but
    [ast.literal_eval] reads a hexadecimal, octal or binary literal of any
    length. *)
Definition max_str_digits : nat := 4300.

Definition int_converts (z : Z) : bool :=
  (String.length (str_of_Z (Z.abs z)) <=? max_str_digits)%nat.

(** [str(v)] returns: no integer inside [v] is too long.  The [repr] of a
    container is built from the [repr] of its elements, keys and values. *)
Fixpoint converts (v : pyval) : bool :=
  match v with
  | PInt z => int_converts z
  | PList l | PTuple l => forallb converts l
  | PDict d => forallb (fun kv : pyval * pyval => let (k, x) := kv in converts k && converts x) d
  | _ => true
  end.

Definition int_too_long : exn :=
  Exn "ValueError"
      "Exceeds the limit (4300 digits) for integer string conversion; use sys.set_int_max_str_digits() to increase the limit".

(** [str(v)], and [format(v, '')] of an f-string placeholder [{v}]. *)
Definition py_str (v : pyval) : result string :=
  if converts v then Ok (str_text v) else Raise int_too_long.

(** ** Dictionaries *)

(** The value stored under the text key [key], if any.  Only a [str] key
    compares equal to a [str]. *)
Fixpoint dict_lookup (key : string) (items : list (pyval * pyval)) : option pyval :=
  match items with
  | [] => None
  | (PStr k, v) :: rest => if String.eqb k key then Some v else dict_lookup key rest
  | _ :: rest => dict_lookup key rest
  end.

(** The exception of [obj.get] on an object that is not a dict. *)
Definition no_get_attribute (obj : pyval) : exn :=
  Exn "AttributeError" ("'" ++ type_name obj ++ "' object has no attribute 'get'").

(** [obj.get(key, default)] *)
Definition py_get (obj : pyval) (key : string) (default : pyval) : result pyval :=
  match obj with
  | PDict items =>
      match dict_lookup key items with
      | Some v => Ok v
      | None => Ok default
      end
  | _ => Raise (no_get_attribute obj)
  end.

(** [first or rest], where [rest] is evaluated only when [first] is falsy. *)
Definition or_else (first : pyval) (rest : result pyval) : result pyval :=
  if truthy first then Ok first else rest.

(** ** The formatter (service.py, lines 25-152) *)

(** [sign_map], lines 111-118. *)
Definition sign_map : list (string * string) :=
  [("gt", ">"); ("gte", ">="); ("lt", "<"); ("lte", "<="); ("eq", "="); ("ne", "!=")].

Fixpoint sign_map_get (key : string) (table : list (string * string)) : option string :=
  match table with
  | [] => None
  | (k, v) :: rest => if String.eqb k key then Some v else sign_map_get key rest
  end.

(** The value of [sign_map.get(str(sign).lower(), sign)], line 139, when
    [str(sign)] returns. *)
Definition sign_symbol (sign : pyval) : pyval :=
  match sign_map_get (Text.lower (str_text sign)) sign_map with
  | Some symbol => PStr symbol
  | None => sign
  end.

(** [sign_map.get(str(sign).lower(), sign)], line 139. *)
Definition readable_sign (sign : pyval) : result pyval :=
  key <- py_str sign ;;
  match sign_map_get (Text.lower key) sign_map with
  | Some symbol => Ok (PStr symbol)
  | None => Ok sign
  end.

(** The text of lines 134-137 when every [str] returns. *)
Definition threshold_text (threshold : pyval) : string :=
  match threshold with
  | PList items | PTuple items => Text.join "," (map str_text items)
  | _ => str_text threshold
  end.

(** [map(str, items)], consumed from left to right by [join]. *)
Fixpoint map_str (items : list pyval) : result (list string) :=
  match items with
  | [] => Ok []
  | item :: rest =>
      text <- py_str item ;;
      texts <- map_str rest ;;
      Ok (text :: texts)
  end.

(** Lines 134-137. *)
Definition threshold_str (threshold : pyval) : result string :=
  match threshold with
  | PList items | PTuple items => texts <- map_str items ;; Ok (Text.join "," texts)
  | _ => py_str threshold
  end.

(** The clause of lines 140-142 when every conversion returns. *)
Definition clause_text (param_name period sign threshold operator : pyval) : string :=
  let clause :=
    Text.strip (str_text param_name ++ " " ++ str_text period ++ " Years "
                ++ str_text (sign_symbol sign) ++ " " ++ threshold_text threshold) in
  match operator with
  | PStr op =>
      if truthy operator && truthy (PStr (Text.strip op))
      then clause ++ " " ++ Text.strip op
      else clause
  | _ => clause
  end.

(** Lines 134-142: the threshold text, the symbol, then the placeholders of
    the f-string from left to right, and the operator. *)
Definition build_clause (param_name period sign threshold operator : pyval)
  : result string :=
  threshold_str <- threshold_str threshold ;;
  readable_sign <- readable_sign sign ;;
  name_text <- py_str param_name ;;
  period_text <- py_str period ;;
  symbol_text <- py_str readable_sign ;;
  let clause :=
    Text.strip (name_text ++ " " ++ period_text ++ " Years "
                ++ symbol_text ++ " " ++ threshold_str) in
  match operator with
  | PStr op =>
      if truthy operator && truthy (PStr (Text.strip op))
      then Ok (clause ++ " " ++ Text.strip op)
      else Ok clause
  | _ => Ok clause
  end.

(** The body of the loop, lines 122-143: [None] for [continue], [Some] for
    the clause appended to [formatted_filters]. *)
Definition render_filter (filter_item : pyval) : result (option string) :=
  if negb (is_dict filter_item) then Ok None else
  data <- (d <- py_get filter_item "Data" PNone ;;
           or_else d (d' <- py_get filter_item "data" PNone ;; or_else d' (Ok (PDict [])))) ;;
  operator <- (o <- py_get filter_item "Operator" PNone ;;
               or_else o (o' <- py_get filter_item "operator" PNone ;; or_else o' (Ok (PStr "")))) ;;
  param <- (p <- py_get data "param" PNone ;; or_else p (Ok (PDict []))) ;;
  name <- (n <- py_get param "name" PNone ;;
                 or_else n (n' <- py_get param "field" PNone ;; or_else n' (Ok (PStr "Unknown")))) ;;
  sign <- (s <- py_get data "sign" PNone ;;
           or_else s (s' <- py_get data "op" PNone ;; or_else s' (Ok (PStr "=")))) ;;
  threshold <- py_get data "threshold" PNone ;;
  period <- py_get data "period" (PInt 1) ;;
  clause <- build_clause name period sign threshold operator ;;
  Ok (Some clause).

(** The loop, lines 120-143, started with [formatted_filters = []]. *)
Fixpoint render_filters (filters : list pyval) (formatted_filters : list string)
  : result (list string) :=
  match filters with
  | [] => Ok formatted_filters
  | filter_item :: rest =>
      clause <- render_filter filter_item ;;
      match clause with
      | None => render_filters rest formatted_filters
      | Some c => render_filters rest (formatted_filters ++ [c])%list
      end
  end.

(** Line 147: [' '.join(formatted_filters).rstrip().rstrip('AND').rstrip()]. *)
Definition join_clauses (formatted_filters : list string) : string :=
  Text.rstrip (Text.rstrip_chars "AND" (Text.rstrip (Text.join " " formatted_filters))).

(** Lines 107-149, on the working mapping. *)
Definition format_filters (query_data : pyval) : result string :=
  filters <- py_get query_data "filters" PNone ;;
  match filters with
  | PList items =>
      if (length items =? 0)%nat then Ok "No filters defined" else
      formatted_filters <- render_filters items [] ;;
      match formatted_filters with
      | [] => Ok "No valid filters found"
      | _ => Ok (join_clauses formatted_filters)
      end
  | _ => Ok "No filters defined"
  end.

(** Lines 151-152: what the outer [try] statement returns. *)
Definition outcome_text (outcome : result string) : string :=
  match outcome with
  | Ok text => text
  | Raise e => "Query parsing error: " ++ exn_str e
  end.

(** The right-hand sides of lines 124-131 on the items of a dict: [.get]
    with its default, and the values the [or] chains select. *)
Definition dict_get (items : list (pyval * pyval)) (key : string) (default : pyval) : pyval :=
  match dict_lookup key items with
  | Some v => v
  | None => default
  end.

Definition entry_data (entry : list (pyval * pyval)) : pyval :=
  py_or (dict_get entry "Data" PNone) (py_or (dict_get entry "data" PNone) (PDict [])).

Definition entry_operator (entry : list (pyval * pyval)) : pyval :=
  py_or (dict_get entry "Operator" PNone) (py_or (dict_get entry "operator" PNone) (PStr "")).

Definition data_param (data : list (pyval * pyval)) : pyval :=
  py_or (dict_get data "param" PNone) (PDict []).

Definition param_name (param : list (pyval * pyval)) : pyval :=
  py_or (dict_get param "name" PNone) (py_or (dict_get param "field" PNone) (PStr "Unknown")).

Definition data_sign (data : list (pyval * pyval)) : pyval :=
  py_or (dict_get data "sign" PNone) (py_or (dict_get data "op" PNone) (PStr "=")).

(** The clause of a mapping entry whose selected [Data] and [param] are the
    mappings [data] and [param], when every conversion returns. *)
Definition entry_clause (entry data param : list (pyval * pyval)) : string :=
  clause_text (param_name param) (dict_get data "period" (PInt 1)) (data_sign data)
               (dict_get data "threshold" PNone) (entry_operator entry).

(** A mapping entry whose selected [Data] is not a mapping, or whose
    selected [param] is not a mapping.  The selected value is the first
    truthy operand or the empty dict, so it fails to be a mapping only when
    it is truthy. *)
Definition bad_entry (filter_item : pyval) : bool :=
  match filter_item with
  | PDict entry =>
      match entry_data entry with
      | PDict data => negb (is_dict (data_param data))
      | _ => true
      end
  | _ => false
  end.

(** The values of a mapping entry that lines 134-140 convert to text. *)
Definition rendered_values (data param : list (pyval * pyval)) : list pyval :=
  [dict_get data "threshold" PNone; data_sign data; param_name param;
   dict_get data "period" (PInt 1)].

(** A mapping entry with mappings for [Data] and [param] one of whose
    rendered values is, or holds, an integer too long for [str]. *)
Definition long_int_entry (filter_item : pyval) : bool :=
  match filter_item with
  | PDict entry =>
      match entry_data entry with
      | PDict data =>
          match data_param data with
          | PDict param => negb (forallb converts (rendered_values data param))
          | _ => false
          end
      | _ => false
      end
  | _ => false
  end.

Section Formatter.

(** [json.loads] and [ast.literal_eval]: each returns a value or raises. *)
Variable json_loads : pyval -> result pyval.
Variable literal_eval : pyval -> result pyval.

Definition json_call (x : pyval) : traced pyval := ([JsonLoads x], json_loads x).
Definition literal_call (x : pyval) : traced pyval := ([LiteralEval x], literal_eval x).

(** [if isinstance(v, dict): return v]: [Some] when the function returns. *)
Definition return_if_dict (v : pyval) : option pyval :=
  if is_dict v then Some v else None.

(** Run a block that may execute [return]; continue with [rest] if it did not. *)
Definition or_continue (block : traced (option pyval)) (rest : traced pyval) : traced pyval :=
  returned <~ block ;;
  match returned with
  | Some v => ret v
  | None => rest
  end.

(** Lines 25-69.  The result is a dict or [None]. *)
Definition _coerce_to_dict (possibly_json : pyval) : traced pyval :=
  if negb (truthy possibly_json) || negb (is_str possibly_json) then ret PNone else
  (* Fast path: proper JSON *)
  or_continue
    (try_except
       (parsed <~ json_call possibly_json ;; ret (return_if_dict parsed))
       (fun _ => ret None))
  (* Python literal style *)
  (or_continue
    (try_except
       (parsed <~ literal_call possibly_json ;;
        if is_dict parsed then ret (Some parsed)
        else if is_str parsed then
          try_except
            (nested <~ json_call parsed ;; ret (return_if_dict nested))
            (fun _ =>
               try_except
                 (nested2 <~ literal_call parsed ;; ret (return_if_dict nested2))
                 (fun _ => ret None))
        else ret None)
       (fun _ => ret None))
  (* Last resort: naive replacements *)
  (or_continue
    (try_except
       (let sanitized := PStr (Text.replace_char "'" Text.dquote (str_text possibly_json)) in
        parsed <~ json_call sanitized ;; ret (return_if_dict parsed))
       (fun _ => ret None))
    (ret PNone))).

(** Lines 97-105: the single-level unwrap of a [query] key. *)
Definition unwrap_query (query_data : pyval) : traced pyval :=
  match query_data with
  | PDict items =>
      match dict_lookup "query" items with
      | Some (PStr q) =>
          inner_parsed <~ _coerce_to_dict (PStr q) ;;
          if is_dict inner_parsed then ret inner_parsed else ret query_data
      | Some (PDict inner) => ret (PDict inner)
      | _ => ret query_data
      end
  | _ => ret query_data
  end.

(** Lines 89-92: direct JSON, else the tolerant coercion. *)
Definition parse_descriptor (strat_name : pyval) : traced pyval :=
  try_except (json_call strat_name) (fun _ => _coerce_to_dict strat_name).

(** Lines 83-149: the body of the outer [try]. *)
Definition format_query_body (strat_name : pyval) : traced string :=
  if negb (truthy strat_name) then ret "No query available" else
  query_data <~ parse_descriptor strat_name ;;
  if negb (is_dict query_data) then ret "Invalid query format" else
  query_data <~ unwrap_query query_data ;;
  lift (format_filters query_data).

(** Lines 82-152, with the library calls made on the way. *)
Definition format_query_traced (strat_name : pyval) : list call * string :=
  let (calls, outcome) := format_query_body strat_name in (calls, outcome_text outcome).

Definition format_query_from_strat_name (strat_name : pyval) : string :=
  snd (format_query_traced strat_name).

Definition library_calls (strat_name : pyval) : list call :=
  fst (format_query_traced strat_name).

End Formatter.

(** ** Reference model of the two library parsers

    [json.loads] and [ast.literal_eval] are library code.  The closed
    examples below run the formatter on a model of both that covers a
    fragment of their input languages:
    - JSON: objects, arrays, double-quoted strings with the one-letter
      escapes, integers, decimal fractions of at most 15 significant digits
      that [repr] prints in positional notation, [true], [false], [null],
      [NaN], [Infinity] and [-Infinity];
    - Python literals: dict, list and tuple displays with optional trailing
      comma, dict keys that are strings, strings in single or double quotes
      with the escapes for backslash, quotes, [n], [r] and [t], the same
      numbers, [True], [False] and [None].
    On a text outside the fragment the model answers [Unsupported]; it never
    answers [Invalid] for a text the library accepts. *)

Module Reference.
Import Text.

Inductive dialect : Type := Json | PyLiteral.

Inductive parse (A : Type) : Type :=
| Parsed (a : A) (rest : string)
| Invalid
| Unsupported.
Arguments Parsed {A} a rest.
Arguments Invalid {A}.
Arguments Unsupported {A}.

Definition parse_map {A B} (f : A -> B) (p : parse A) : parse B :=
  match p with
  | Parsed a rest => Parsed (f a) rest
  | Invalid => Invalid
  | Unsupported => Unsupported
  end.

(** A token the JSON grammar rejects; for Python text the model does not
    decide. *)
Definition unexpected {A} (d : dialect) : parse A :=
  match d with
  | Json => Invalid
  | PyLiteral => Unsupported
  end.

Definition is_py (d : dialect) : bool :=
  match d with PyLiteral => true | Json => false end.

Definition is_digit (c : ascii) : bool := in_range 48 57 c.
Definition is_zero (c : ascii) : bool := Ascii.eqb c "0".

Definition is_ident_char (c : ascii) : bool :=
  is_digit c || in_range 65 90 c || in_range 97 122 c || Ascii.eqb c "_"
  || in_range 128 255 c.

Definition is_ws (d : dialect) (c : ascii) : bool :=
  match d with
  | Json => mem c (String " " (String (ascii_of_N 9) (String (ascii_of_N 10)
                    (String (ascii_of_N 13) EmptyString))))
  | PyLiteral => mem c (String " " (String (ascii_of_N 9) (String (ascii_of_N 10)
                    (String (ascii_of_N 12) (String (ascii_of_N 13) EmptyString)))))
  end.

Definition skip_ws (d : dialect) (s : string) : string := lstrip_by (is_ws d) s.

Fixpoint span (p : ascii -> bool) (s : string) : string * string :=
  match s with
  | EmptyString => (EmptyString, EmptyString)
  | String c rest =>
      if p c then let (taken, left) := span p rest in (String c taken, left)
      else (EmptyString, s)
  end.

Fixpoint drop (n : nat) (s : string) : string :=
  match n, s with
  | S m, String _ rest => drop m rest
  | _, _ => s
  end.

Definition starts_with (pre s : string) : bool := String.prefix pre s.

Fixpoint Z_of_digits (ds : string) (acc : Z) : Z :=
  match ds with
  | EmptyString => acc
  | String c rest => Z_of_digits rest (10 * acc + Z.of_N (code c - 48))
  end.

(** The float written [int_part.frac], as its [repr]. *)
Definition float_value (neg : bool) (int_part frac rest : string) : parse pyval :=
  let frac' := rstrip_by is_zero frac in
  let zero_int := String.eqb int_part "0" in
  let digits := if zero_int then lstrip_by is_zero frac' else int_part ++ frac' in
  let tiny := zero_int && (3 <? String.length frac' - String.length (lstrip_by is_zero frac'))%nat in
  if (15 <? String.length digits)%nat || tiny then Unsupported
  else Parsed (PFloat ((if neg then "-" else "") ++ int_part ++ "."
                       ++ (if String.eqb frac' "" then "0" else frac'))) rest.

(** What follows the digits of a number decides whether the model covers it. *)
Definition number_tail_ok (d : dialect) (rest : string) : bool :=
  match rest with
  | EmptyString => true
  | String c _ =>
      negb (Ascii.eqb c "e" || Ascii.eqb c "E"
            || (is_py d && (is_ident_char c || Ascii.eqb c ".")))
  end.

Definition parse_number (d : dialect) (s : string) : parse pyval :=
  let (neg, body) := match s with
                     | String "-" rest => (true, rest)
                     | _ => (false, s)
                     end in
  let (all_digits, after_all) := span is_digit body in
  let leading_zero := starts_with "0" all_digits && (1 <? String.length all_digits)%nat in
  let (int_part, after_int) :=
    if leading_zero then ("0", drop 1 body) else (all_digits, after_all) in
  let int_value := PInt (if neg then - Z_of_digits int_part 0 else Z_of_digits int_part 0) in
  if String.eqb all_digits "" then
    if is_py d then Unsupported
    else if neg && starts_with "Infinity" body then Parsed (PFloat "-inf") (drop 8 body)
    else Invalid
  else if (leading_zero && is_py d) || (4300 <? String.length int_part)%nat then Unsupported
  else
    match after_int with
    | String "." after_dot =>
        let (frac, rest) := span is_digit after_dot in
        if String.eqb frac "" then
          if is_py d then Unsupported else Parsed int_value after_int
        else if number_tail_ok d rest then float_value neg int_part frac rest
        else Unsupported
    | _ => if number_tail_ok d after_int then Parsed int_value after_int else Unsupported
    end.

(** The character an escape letter stands for. *)
Definition unescape (d : dialect) (e : ascii) : parse ascii :=
  if Ascii.eqb e "\" || Ascii.eqb e dquote then Parsed e EmptyString
  else if Ascii.eqb e "n" then Parsed (ascii_of_N 10) EmptyString
  else if Ascii.eqb e "r" then Parsed (ascii_of_N 13) EmptyString
  else if Ascii.eqb e "t" then Parsed (ascii_of_N 9) EmptyString
  else match d with
       | Json =>
           if Ascii.eqb e "/" then Parsed e EmptyString
           else if Ascii.eqb e "b" then Parsed (ascii_of_N 8) EmptyString
           else if Ascii.eqb e "f" then Parsed (ascii_of_N 12) EmptyString
           else if Ascii.eqb e "u" then Unsupported
           else Invalid
       | PyLiteral =>
           if Ascii.eqb e "'" then Parsed e EmptyString else Unsupported
       end.

(** A character that may not occur unescaped inside a string literal. *)
Definition forbidden_in_string (d : dialect) (c : ascii) : bool :=
  match d with
  | Json => in_range 0 31 c
  | PyLiteral => (code c =? 0)%N || (code c =? 10)%N || (code c =? 13)%N
  end.

(** The text of a string literal, read after its opening quote. *)
Fixpoint parse_string (d : dialect) (quote : ascii) (s : string) : parse string :=
  match s with
  | EmptyString => Invalid
  | String c rest =>
      if Ascii.eqb c quote then Parsed EmptyString rest
      else if Ascii.eqb c "\" then
        match rest with
        | EmptyString => Invalid
        | String e rest' =>
            match unescape d e with
            | Parsed ch _ => parse_map (String ch) (parse_string d quote rest')
            | Invalid => Invalid
            | Unsupported => Unsupported
            end
        end
      else if forbidden_in_string d c then Invalid
      else parse_map (String c) (parse_string d quote rest)
  end.

Definition parse_keyword (d : dialect) (s : string) : parse pyval :=
  match d with
  | Json =>
      if starts_with "true" s then Parsed (PBool true) (drop 4 s)
      else if starts_with "false" s then Parsed (PBool false) (drop 5 s)
      else if starts_with "null" s then Parsed PNone (drop 4 s)
      else if starts_with "NaN" s then Parsed (PFloat "nan") (drop 3 s)
      else if starts_with "Infinity" s then Parsed (PFloat "inf") (drop 8 s)
      else Invalid
  | PyLiteral =>
      let (name, rest) := span is_ident_char s in
      if String.eqb name "" then Unsupported
      else if String.eqb name "True" then Parsed (PBool true) rest
      else if String.eqb name "False" then Parsed (PBool false) rest
      else if String.eqb name "None" then Parsed PNone rest
      else if starts_with "'" rest || starts_with (String dquote EmptyString) rest
              || starts_with "(" (skip_ws d rest) then Unsupported
      else Invalid
  end.

(** [d[key] = v] on the items of a dict. *)
Fixpoint dict_set (key : string) (v : pyval) (items : list (pyval * pyval))
  : list (pyval * pyval) :=
  match items with
  | [] => [(PStr key, v)]
  | (PStr k, v0) :: rest =>
      if String.eqb k key then (PStr k, v) :: rest
      else (PStr k, v0) :: dict_set key v rest
  | kv :: rest => kv :: dict_set key v rest
  end.

(** The model covers texts whose brackets nest to this depth at most;
    CPython refuses to tokenize more than 200 open brackets, and its
    recursion limit bounds the nesting that [json.loads] reads. *)
Definition max_nesting : nat := 100.

(** Recursive descent.  [parse_items] and [parse_members] start, after white
    space, at an element or at the closing bracket; [comma] tells whether a
    comma has just been read; [depth] is the number of brackets that may
    still be opened. *)
Fixpoint parse_value (d : dialect) (depth fuel : nat) (s : string) {struct fuel}
  : parse pyval :=
  match fuel with
  | O => Unsupported
  | S fuel' =>
      match s with
      | EmptyString => Invalid
      | String c rest =>
          if Ascii.eqb c "{" || Ascii.eqb c "[" || (Ascii.eqb c "(" && is_py d) then
            match depth with
            | O => Unsupported
            | S inner =>
                if Ascii.eqb c "{" then
                  parse_map PDict (parse_members d inner fuel' (skip_ws d rest) [] false)
                else if Ascii.eqb c "[" then
                  parse_map (fun r => PList (fst r))
                            (parse_items d inner fuel' "]" (skip_ws d rest) [] false)
                else
                  parse_map (fun r : list pyval * bool =>
                               match r with
                               | ([v], false) => v
                               | (items, _) => PTuple items
                               end)
                            (parse_items d inner fuel' ")" (skip_ws d rest) [] false)
            end
          else if Ascii.eqb c dquote || (Ascii.eqb c "'" && is_py d) then
            if is_py d && starts_with (String c (String c EmptyString)) rest
            then Unsupported
            else parse_map PStr (parse_string d c rest)
          else if is_digit c || Ascii.eqb c "-" then parse_number d s
          else parse_keyword d s
      end
  end
with parse_items (d : dialect) (depth fuel : nat) (close : ascii) (s : string)
                 (acc : list pyval) (comma : bool) {struct fuel}
  : parse (list pyval * bool) :=
  match fuel with
  | O => Unsupported
  | S fuel' =>
      match s with
      | EmptyString => Invalid
      | String c rest =>
          if Ascii.eqb c close then
            if comma && negb (is_py d) then Invalid else Parsed (acc, comma) rest
          else
            match parse_value d depth fuel' s with
            | Parsed v after =>
                match skip_ws d after with
                | EmptyString => Invalid
                | String c' rest' =>
                    if Ascii.eqb c' "," then
                      parse_items d depth fuel' close (skip_ws d rest') (acc ++ [v])%list true
                    else if Ascii.eqb c' close then Parsed ((acc ++ [v])%list, comma) rest'
                    else unexpected d
                end
            | Invalid => Invalid
            | Unsupported => Unsupported
            end
      end
  end
with parse_members (d : dialect) (depth fuel : nat) (s : string)
                   (acc : list (pyval * pyval)) (comma : bool) {struct fuel}
  : parse (list (pyval * pyval)) :=
  match fuel with
  | O => Unsupported
  | S fuel' =>
      match s with
      | EmptyString => Invalid
      | String c rest =>
          if Ascii.eqb c "}" then
            if comma && negb (is_py d) then Invalid else Parsed acc rest
          else if negb (is_py d) && negb (Ascii.eqb c dquote) then Invalid
          else
            match parse_value d depth fuel' s with
            | Parsed (PStr key) after_key =>
                match skip_ws d after_key with
                | EmptyString => Invalid
                | String colon after_colon =>
                    if negb (Ascii.eqb colon ":") then unexpected d
                    else
                      match parse_value d depth fuel' (skip_ws d after_colon) with
                      | Parsed v after =>
                          match skip_ws d after with
                          | EmptyString => Invalid
                          | String c' rest' =>
                              if Ascii.eqb c' "," then
                                parse_members d depth fuel' (skip_ws d rest') (dict_set key v acc) true
                              else if Ascii.eqb c' "}" then Parsed (dict_set key v acc) rest'
                              else unexpected d
                          end
                      | Invalid => Invalid
                      | Unsupported => Unsupported
                      end
                end
            | Parsed _ _ => Unsupported
            | Invalid => Invalid
            | Unsupported => Unsupported
            end
      end
  end.

(** A whole text: one value between optional white space. *)
Definition parse_text (d : dialect) (s : string) : parse pyval :=
  let start :=
    match d with
    | Json => skip_ws d s
    | PyLiteral => lstrip_by (fun c => Ascii.eqb c " " || (code c =? 9)%N) s
    end in
  match parse_value d max_nesting (2 * String.length s + 2) start with
  | Parsed v rest =>
      match skip_ws d rest with
      | EmptyString => Parsed v EmptyString
      | _ => unexpected d
      end
  | Invalid => Invalid
  | Unsupported => Unsupported
  end.

Definition outside_fragment : exn :=
  Exn "NotImplementedError" "text outside the modelled fragment".

(** The exception of a rejected text.  Its class and message depend on the
    position and kind of the error and are not modelled: every handler
    around a parser call is [except Exception] and ignores the exception. *)
Definition parse_error : exn := Exn "Exception" "".

(** [json.loads(x)] *)
Definition json_loads (x : pyval) : result pyval :=
  match x with
  | PStr s =>
      match parse_text Json s with
      | Parsed v _ => Ok v
      | Invalid => Raise parse_error
      | Unsupported => Raise outside_fragment
      end
  | _ => Raise (Exn "TypeError"
                  ("the JSON object must be str, bytes or bytearray, not " ++ type_name x))
  end.

(** [ast.literal_eval(x)] *)
Definition literal_eval (x : pyval) : result pyval :=
  match x with
  | PStr s =>
      match parse_text PyLiteral s with
      | Parsed v _ => Ok v
      | Invalid => Raise parse_error
      | Unsupported => Raise outside_fragment
      end
  | _ => Raise (Exn "ValueError" ("malformed node or string: " ++ Repr.repr x))
  end.

(** Whether the model covers the argument of a library call. *)
Definition covered (c : call) : bool :=
  match c with
  | JsonLoads (PStr s) =>
      match parse_text Json s with Unsupported => false | _ => true end
  | LiteralEval (PStr s) =>
      match parse_text PyLiteral s with Unsupported => false | _ => true end
  | _ => true
  end.

End Reference.

(** The formatter run on the reference parsers. *)
Definition format_ref (strat_name : pyval) : string :=
  format_query_from_strat_name Reference.json_loads Reference.literal_eval strat_name.

Definition calls_ref (strat_name : pyval) : list call :=
  library_calls Reference.json_loads Reference.literal_eval strat_name.

(** ** The notions of the specification *)

Module Spec.
Import Text.

(** [s] without the literal suffix [suffix], when [s] ends with it. *)
Fixpoint remove_suffix (suffix s : string) : string :=
  if String.eqb s suffix then EmptyString
  else match s with
       | EmptyString => EmptyString
       | String c rest => String c (remove_suffix suffix rest)
       end.

(** The final step of the formatter as specified: strip trailing white
    space, strip a trailing literal ["AND"], strip trailing white space. *)
Definition join_clauses (clauses : list string) : string :=
  rstrip (remove_suffix "AND" (rstrip (join " " clauses))).

(** A list or a tuple, the sequences of line 134. *)
Definition is_sequence (v : pyval) : bool :=
  match v with
  | PList _ | PTuple _ => true
  | _ => false
  end.

Definition sequence_items (v : pyval) : list pyval :=
  match v with
  | PList items | PTuple items => items
  | _ => []
  end.

Section Chain.

Variable json_loads : pyval -> result pyval.
Variable literal_eval : pyval -> result pyval.

(** A strategy yields a mapping or nothing. *)
Definition as_mapping (r : result pyval) : option pyval :=
  match r with
  | Ok (PDict items) => Some (PDict items)
  | _ => None
  end.

Definition strict_parse (text : string) : option pyval :=
  as_mapping (json_loads (PStr text)).

Definition literal_parse (text : string) : option pyval :=
  as_mapping (literal_eval (PStr text)).

(** One level of unwrapping of a text that is the literal of a string:
    strict parse of the inner text and, when that parse fails, its literal
    parse. *)
Definition nested_unwrap (text : string) : option pyval :=
  match literal_eval (PStr text) with
  | Ok (PStr inner) =>
      match json_loads (PStr inner) with
      | Ok v => as_mapping (Ok v)
      | Raise _ => as_mapping (literal_eval (PStr inner))
      end
  | _ => None
  end.

Definition sanitized_parse (text : string) : option pyval :=
  as_mapping (json_loads (PStr (replace_char "'" dquote text))).

(** The first strategy that yields a mapping decides; the ones after it
    are not consulted. *)
Fixpoint first_success (strategies : list (string -> option pyval)) (text : string)
  : option pyval :=
  match strategies with
  | [] => None
  | strategy :: rest =>
      match strategy text with
      | Some mapping => Some mapping
      | None => first_success rest text
      end
  end.

(** The library calls of the four strategies, in their order, on a text
    whose literal parse is the text [inner]; the sanitized parse comes
    after them. *)
Definition attempt_order (text inner : string) : list call :=
  [JsonLoads (PStr text); LiteralEval (PStr text);
   JsonLoads (PStr inner); LiteralEval (PStr inner)].

Definition sanitized_attempt (text : string) : call :=
  JsonLoads (PStr (replace_char "'" dquote text)).

(** The Coercion Step of the specification, on a text. *)
Definition coerce (text : string) : pyval :=
  if String.eqb text "" then PNone
  else match first_success [strict_parse; literal_parse; nested_unwrap; sanitized_parse] text with
       | Some mapping => mapping
       | None => PNone
       end.

End Chain.

End Spec.

(** ** Descriptors of the closed examples *)

Module Examples.
Import Text.

(** The descriptor of the round-trip property, as strict JSON text, and the
    mapping it denotes. *)
Definition roe_text : string := Eval cbv in
  dq "{`filters`: [{`Data`: {`param`: {`name`: `ROE`}, `sign`: `gt`, `threshold`: 0.15, `period`: 5}, `Operator`: `AND`}]}".

Definition roe_entries : list pyval :=
  [PDict [(PStr "Data",
           PDict [(PStr "param", PDict [(PStr "name", PStr "ROE")]);
                  (PStr "sign", PStr "gt");
                  (PStr "threshold", PFloat "0.15");
                  (PStr "period", PInt 5)]);
          (PStr "Operator", PStr "AND")]].

Definition roe_mapping : list (pyval * pyval) := [(PStr "filters", PList roe_entries)].

(** Two filters whose clauses both end in the connector. *)
Definition two_filters_text : string := Eval cbv in
  dq "{`filters`: [{`Data`: {`param`: {`name`: `ROE`}, `sign`: `gt`, `threshold`: 0.1}, `Operator`: `AND`}, {`Data`: {`param`: {`name`: `PE`}, `sign`: `lt`, `threshold`: 20}, `Operator`: `AND`}]}".

(** One filter whose operator is NAND, and its clause. *)
Definition nand_text : string := Eval cbv in
  dq "{`filters`: [{`Data`: {`param`: {`name`: `ROE`}, `sign`: `gt`, `threshold`: 0.1}, `Operator`: `NAND`}]}".

Definition nand_entries : list pyval :=
  [PDict [(PStr "Data",
           PDict [(PStr "param", PDict [(PStr "name", PStr "ROE")]);
                  (PStr "sign", PStr "gt");
                  (PStr "threshold", PFloat "0.1")]);
          (PStr "Operator", PStr "NAND")]].

Definition nand_clause : string := "ROE 1 Years > 0.1 NAND".

(** A text no strategy can parse: the key is not quoted. *)
Definition unquoted_key_text : string := "{filters: []}".

(** Python-literal text whose [filters] value is a tuple of one entry. *)
Definition tuple_text : string :=
  "{'filters': ({'Data': {'param': {'name': 'ROE'}, 'sign': 'gt', 'threshold': 1}},)}".

Definition tuple_entry : pyval :=
  PDict [(PStr "Data", PDict [(PStr "param", PDict [(PStr "name", PStr "ROE")]);
                              (PStr "sign", PStr "gt");
                              (PStr "threshold", PInt 1)])].

Definition tuple_mapping : list (pyval * pyval) := [(PStr "filters", PTuple [tuple_entry])].

(** A mapping entry whose [Data] is a text. *)
Definition text_data_text : string := Eval cbv in dq "{`filters`: [{`Data`: `x`}]}".

Definition text_data_entries : list pyval := [PDict [(PStr "Data", PStr "x")]].

Definition text_data_mapping : list (pyval * pyval) :=
  [(PStr "filters", PList text_data_entries)].

(** A renderable entry followed by one whose [param] is a text. *)
Definition text_param_text : string := Eval cbv in
  dq "{`filters`: [{`Data`: {`param`: {`name`: `ROE`}}}, {`Data`: {`param`: `PE`}}]}".

Definition text_param_entries : list pyval :=
  [PDict [(PStr "Data", PDict [(PStr "param", PDict [(PStr "name", PStr "ROE")])])];
   PDict [(PStr "Data", PDict [(PStr "param", PStr "PE")])]].

Definition text_param_mapping : list (pyval * pyval) :=
  [(PStr "filters", PList text_param_entries)].

(** A mapping whose [query] key holds JSON text; the mapping inside has a
    [query] key of its own. *)
Definition nested_inner_text : string := Eval cbv in
  dq "{`filters`: [{`Data`: {`param`: {`field`: `PE`}, `op`: `LT`, `threshold`: [1, 2]}}], `query`: {`filters`: []}}".

Definition nested_text : string := Eval cbv in
  dq "{`query`: `{\`filters\`: [{\`Data\`: {\`param\`: {\`field\`: \`PE\`}, \`op\`: \`LT\`, \`threshold\`: [1, 2]}}], \`query\`: {\`filters\`: []}}`, `filters`: []}".

Definition nested_outer : list (pyval * pyval) :=
  [(PStr "query", PStr nested_inner_text); (PStr "filters", PList [])].

Definition nested_inner : list (pyval * pyval) :=
  [(PStr "filters",
    PList [PDict [(PStr "Data",
                   PDict [(PStr "param", PDict [(PStr "field", PStr "PE")]);
                          (PStr "op", PStr "LT");
                          (PStr "threshold", PList [PInt 1; PInt 2])])]]);
   (PStr "query", PDict [(PStr "filters", PList [])])].

(** Mapping and non-mapping entries side by side. *)
Definition mixed_text : string := Eval cbv in
  dq "{`filters`: [1, {`Data`: {`param`: {`name`: `ROE`}, `sign`: `gt`, `threshold`: 0.1}, `Operator`: `AND`}, `x`, {`data`: {`param`: {`field`: `PE`}, `op`: `LTE`, `threshold`: [10, 20]}, `operator`: ` or `}]}".

Definition mixed_entries : list pyval :=
  [PInt 1;
   PDict [(PStr "Data",
           PDict [(PStr "param", PDict [(PStr "name", PStr "ROE")]);
                  (PStr "sign", PStr "gt");
                  (PStr "threshold", PFloat "0.1")]);
          (PStr "Operator", PStr "AND")];
   PStr "x";
   PDict [(PStr "data",
           PDict [(PStr "param", PDict [(PStr "field", PStr "PE")]);
                  (PStr "op", PStr "LTE");
                  (PStr "threshold", PList [PInt 10; PInt 20])]);
          (PStr "operator", PStr " or ")]].

Definition mixed_mapping : list (pyval * pyval) := [(PStr "filters", PList mixed_entries)].

Definition no_mapping_text : string := Eval cbv in dq "{`filters`: [1, `x`]}".

Definition empty_filters_text : string := Eval cbv in dq "{`filters`: []}".

Definition empty_filters_mapping : list (pyval * pyval) := [(PStr "filters", PList [])].

(** A sign token outside the table. *)
Definition approx_text : string := Eval cbv in
  dq "{`filters`: [{`Data`: {`param`: {`name`: `ROE`}, `sign`: `approx`, `threshold`: 3}}]}".

(** Python-literal text with single quotes and an unquoted [None]. *)
Definition literal_none_text : string :=
  "{'filters': [{'Data': {'param': {'name': 'ROE'}, 'sign': 'GTE', 'threshold': None}}]}".

Definition all_texts : list string :=
  [roe_text; two_filters_text; nand_text; unquoted_key_text; tuple_text; text_data_text;
   text_param_text; nested_text; mixed_text; no_mapping_text; empty_filters_text;
   approx_text; literal_none_text].

End Examples.

(** ** The store and the services of service.py, lines 154-418 and 474-613 *)

Module Store.

(** One ORM object: the values of its mapped attributes, [None] for NULL. *)
Definition row : Type := list (string * pyval).

Fixpoint getattr (r : row) (name : string) : pyval :=
  match r with
  | [] => PNone
  | (a, v) :: rest => if String.eqb a name then v else getattr rest name
  end.

Fixpoint setattr (r : row) (name : string) (v : pyval) : row :=
  match r with
  | [] => [(name, v)]
  | (a, w) :: rest =>
      if String.eqb a name then (a, v) :: rest else (a, w) :: setattr rest name v
  end.

(** The three tables of models.py, each with its rows in the order in
    which the database returns them. *)
Record Session : Type := {
  portfolio_investment_rules : list row;
  investment_rules_statistics : list row;
  cal_year : list row
}.

(** What depends on the database behind the session and on its driver:
    the equality of two texts (its collation), the equality of a text
    column with an integer parameter, the rows a statement with OFFSET and
    LIMIT returns, ORDER BY year ASC, and the integers the driver refuses
    to bind as the value of a parameter or of a column, with the exception
    it raises.  Every driver binds 0 and 1. *)
Record Sql : Type := {
  text_eq : string -> string -> bool;
  text_eq_int : string -> Z -> bool;
  offset_limit : Z -> Z -> list row -> list row;
  order_by_year : list row -> list row;
  refuses_integer : Z -> option exn;
  binds_flags : forall z : Z, (0 <= z <= 1)%Z -> refuses_integer z = None
}.

(** OFFSET and LIMIT as standard SQL defines them for values that are not
    negative: an assumption on the database and its driver, which the
    theorems about pages state. *)
Definition standard_offset_limit (sql : Sql) : Prop :=
  forall (offset limit : Z) (rows : list row),
    (0 <= offset)%Z -> (0 <= limit)%Z ->
    offset_limit sql offset limit rows
    = firstn (Z.to_nat limit) (skipn (Z.to_nat offset) rows).

Section Queries.

Variable sql : Sql.

(** [column == value] in a filter: true when the comparison is TRUE. *)
Definition sql_eq (column value : pyval) : bool :=
  match column, value with
  | PInt a, PInt b => (a =? b)%Z
  | PStr a, PStr b => text_eq sql a b
  | PStr a, PInt b => text_eq_int sql a b
  | _, _ => false
  end.

(** [column != value] in a filter; a NULL column gives NULL, not TRUE. *)
Definition sql_ne (column value : pyval) : bool :=
  match column with
  | PNone => false
  | _ => negb (sql_eq column value)
  end.

(** [column.isnot(None)] *)
Definition is_not_null (column : pyval) : bool :=
  match column with
  | PNone => false
  | _ => true
  end.

(** [.first()] and the write of the object it returned at [commit]. *)
Definition first (p : row -> bool) (rows : list row) : option row := find p rows.

Fixpoint update_first (p : row -> bool) (f : row -> row) (rows : list row) : list row :=
  match rows with
  | [] => []
  | r :: rest => if p r then f r :: rest else r :: update_first p f rest
  end.

End Queries.

(** A handler that returns, raises [HTTPException], or lets another
    exception pass to its caller. *)
Inductive reply (A : Type) : Type :=
| Return (a : A)
| HTTPException (status_code : Z) (detail : string)
| Uncaught (e : exn).
Arguments Return {A} a.
Arguments HTTPException {A} status_code detail.
Arguments Uncaught {A} e.

(** schemas.py, lines 27-30. *)
Record SaveStrategyRequest : Type := {
  session_id : string;
  strat_name_alias : string;
  isPublic : Z
}.

Definition with_portfolios (db : Session) (rows : list row) : Session :=
  {| portfolio_investment_rules := rows;
     investment_rules_statistics := investment_rules_statistics db;
     cal_year := cal_year db |}.

(** The attributes [y_1997] .. [y_2024] of class [InputPortfolio]
    (models.py, lines 35-62), and [hasattr(InputPortfolio, name)] for a
    name of that form. *)
Definition year_attribute (year : Z) : string := "y_" ++ str_of_Z year.

Definition has_year_attribute (name : string) : bool :=
  existsb (fun n => String.eqb name (year_attribute (1997 + Z.of_nat n))) (seq 0 28).

(** [range(1999, 2025)] *)
Definition composition_years : list Z := map (fun n => (1999 + Z.of_nat n)%Z) (seq 0 26).

(** What [run_script] (lines 154-287) reads from outside the program:
    the environment ([None] for a variable that is not set),
    [os.path.exists], [sys.executable], [json.dumps], and [subprocess.run]
    with [capture_output] and [text], which gives the return code and the
    standard error of the child, or raises, and leaves the database as the
    child wrote it. *)
Record World : Type := {
  getenv : string -> pyval;
  path_exists : pyval -> result bool;
  executable : string;
  json_dumps : pyval -> result string;
  subprocess_run : list pyval -> Session -> result (Z * string) * Session
}.

Section Services.

Variable sql : Sql.
Variable json_loads : pyval -> result pyval.
Variable literal_eval : pyval -> result pyval.

(** The filter of lines 176-178, 202-204, 303, 523-525 and 532-534. *)
Definition same_uuid (uuid : string) (r : row) : bool :=
  sql_eq sql (getattr r "strat_uuid") (PStr uuid).

(** Lines 307-308. *)
Definition assign (request : SaveStrategyRequest) (portfolio_entry : row) : row :=
  setattr (setattr portfolio_entry "strat_name_alias" (PStr (strat_name_alias request)))
          "isPublic" (PInt (isPublic request)).

(** Lines 289-311.  The session after the call is the second component;
    nothing is committed when an exception is raised.  [db.commit()] sends
    the new alias and the new flag to the database and raises when the
    driver refuses the flag. *)
Definition save_strategy_service (request : SaveStrategyRequest) (db : Session)
  : reply pyval * Session :=
  match first (same_uuid (session_id request)) (portfolio_investment_rules db) with
  | None => (HTTPException 404 "Strategy not found", db)
  | Some _ =>
      match refuses_integer sql (isPublic request) with
      | Some e => (Uncaught e, db)
      | None =>
          (Return (PDict [(PStr "message", PStr "Strategy updated successfully")]),
           with_portfolios db (update_first (same_uuid (session_id request)) (assign request)
                                            (portfolio_investment_rules db)))
      end
  end.

(** One element of [strategies_list], lines 345-353 and 400-408. *)
Definition strategy_item (strategy : row) : pyval :=
  PDict [(PStr "strategy", getattr strategy "strat_name");
         (PStr "name", getattr strategy "strat_name_alias");
         (PStr "strategy_id", getattr strategy "strat_uuid");
         (PStr "formatted_query",
          PStr (format_query_from_strat_name json_loads literal_eval
                  (getattr strategy "strat_name")))].

(** [a // b] on integers. *)
Definition floordiv (a b : Z) : result Z :=
  if (b =? 0)%Z then Raise (Exn "ZeroDivisionError" "integer division or modulo by zero")
  else Ok (a / b)%Z.

(** The body shared by the two listings: the count query, the page query,
    the list of items and the returned dict. *)
Definition list_page (selected : row -> bool) (page page_size : Z) (db : Session)
  : result pyval :=
  let offset := ((page - 1) * page_size)%Z in
  let total_count := Z.of_nat (length (filter selected (portfolio_investment_rules db))) in
  let strategies :=
    offset_limit sql offset page_size (filter selected (portfolio_investment_rules db)) in
  let strategies_list := map strategy_item strategies in
  total_pages <- floordiv (total_count + page_size - 1) page_size ;;
  Ok (PDict [(PStr "strategies", PList strategies_list);
             (PStr "pagination",
              PDict [(PStr "total", PInt total_count);
                     (PStr "page", PInt page);
                     (PStr "page_size", PInt page_size);
                     (PStr "total_pages", PInt total_pages)])]).

(** The filter of lines 330-333 and 340-343. *)
Definition of_user (user_id : Z) (r : row) : bool :=
  sql_eq sql (getattr r "user_id") (PInt user_id)
  && is_not_null (getattr r "strat_name_alias").

(** The filter of lines 382-386 and 393-397. *)
Definition public_with_alias (r : row) : bool :=
  sql_eq sql (getattr r "isPublic") (PInt 1)
  && is_not_null (getattr r "strat_name_alias")
  && sql_ne sql (getattr r "strat_name_alias") (PStr EmptyString).

(** Lines 313-363.  The count query is the first to bind [user_id]. *)
Definition get_all_strategies_user_service (user_id page page_size : Z) (db : Session)
  : result pyval :=
  match refuses_integer sql user_id with
  | Some e => Raise e
  | None => list_page (of_user user_id) page page_size db
  end.

(** Lines 365-418. *)
Definition get_all_strategies_service_old (page page_size : Z) (db : Session)
  : result pyval :=
  list_page public_with_alias page page_size db.

(** Lines 550-586 and 590-597: the dict built for one row. *)
Definition metrics (stat : row) : pyval :=
  PDict (map (fun kc : string * string => (PStr (fst kc), getattr stat (snd kc)))
    [("nyears", "nyears"); ("cagr_mean", "mean"); ("cagr_median", "median");
     ("cagr_std", "std"); ("sharpe_ratio", "sharpe"); ("cagr_dwn_std", "dwn_std_dev");
     ("index_mean", "index_mean"); ("index_median", "index_median");
     ("index_std", "index_std"); ("index_SR", "index_sharpe");
     ("index_dwn_std", "indx_dwn_std_dev");
     ("highest_pcagr", "highest_pcagr"); ("lowest_pcagr", "lowest_pcagr");
     ("highest_index", "highest_index"); ("lowest_index", "lowest_index");
     ("alpha_mean", "alpha_mean"); ("alpha_median", "alpha_median");
     ("alpha_std", "alpha_std"); ("alpha_sharpe", "alpha_sharpe");
     ("highest_alpha", "highest_alpha"); ("lowest_alpha", "lowest_alpha");
     ("ndatapoints", "ndatapoints"); ("mod_list_pct", "mod_list_pct"); ("id", "id");
     ("strat_name", "strat_name")]).

Definition yearly_perf (data : row) : pyval :=
  PDict [(PStr "year", getattr data "year");
         (PStr "portfolio_cagr", getattr data "portfolio_cagr");
         (PStr "index_cagr", getattr data "index_cagr")].

(** Lines 541-546. *)
Definition portfolio_composition (strategy : row) : list (pyval * pyval) :=
  flat_map (fun year =>
              let column_name := year_attribute year in
              if has_year_attribute column_name
              then [(PStr column_name, getattr strategy column_name)]
              else [])
           composition_years.

(** Lines 474-613. *)
Definition get_strategy_service (strategy_id : string) (db : Session) : reply pyval :=
  match first (same_uuid strategy_id) (portfolio_investment_rules db) with
  | None => HTTPException 404 ("Strategy with ID " ++ strategy_id ++ " not found")
  | Some strategy =>
      let stats := filter (same_uuid strategy_id) (investment_rules_statistics db) in
      let yearly_data :=
        order_by_year sql
          (filter (fun r => sql_eq sql (getattr r "session_id") (PStr strategy_id))
                  (cal_year db)) in
      Return
        (PDict [(PStr "ippf",
                 PDict ([(PStr "strat_uuid", getattr strategy "strat_uuid");
                         (PStr "user_id", getattr strategy "user_id");
                         (PStr "insert_time", getattr strategy "insert_time");
                         (PStr "strat_name", getattr strategy "strat_name");
                         (PStr "strat_name_alias", getattr strategy "strat_name_alias");
                         (PStr "isPublic", getattr strategy "isPublic")]
                        ++ portfolio_composition strategy)%list);
                (PStr "pfst", PList (map metrics stats));
                (PStr "calyears", PList (map yearly_perf yearly_data))])
  end.

(** Lines 184-197 of [run_script]. *)
Definition ippf_data (input_portfolio : row) : list (pyval * pyval) :=
  ([(PStr "strat_uuid", getattr input_portfolio "strat_uuid");
    (PStr "user_id", getattr input_portfolio "user_id");
    (PStr "insert_time", getattr input_portfolio "insert_time");
    (PStr "strat_name", getattr input_portfolio "strat_name");
    (PStr "id", PStr (str_text (getattr input_portfolio "id")));  (* str of the primary key *)
    (PStr "strat_name_alias", getattr input_portfolio "strat_name_alias")]
   ++ flat_map (fun year =>
                  let year_col := year_attribute year in
                  if has_year_attribute year_col
                  then [(PStr (str_of_Z year), getattr input_portfolio year_col)]
                  else [])
               composition_years)%list.

(** Lines 207-234. *)
Definition stat_dict (stat : row) : pyval :=
  PDict (map (fun kc : string * string => (PStr (fst kc), getattr stat (snd kc)))
    [("nyears", "nyears"); ("cagr_mean", "mean"); ("cagr_median", "median");
     ("cagr_std", "std"); ("sharpe_ratio", "sharpe"); ("ndatapoints", "ndatapoints");
     ("index_mean", "index_mean"); ("index_median", "index_median");
     ("index_std", "index_std"); ("index_SR", "index_sharpe");
     ("cagr_dwn_std", "dwn_std_dev"); ("index_dwn_std", "indx_dwn_std_dev");
     ("highest_pcagr", "highest_pcagr"); ("lowest_pcagr", "lowest_pcagr");
     ("highest_index", "highest_index"); ("lowest_index", "lowest_index");
     ("id", "id"); ("mod_list_pct", "mod_list_pct"); ("strat_name", "strat_name")]).

(** Lines 242-251. *)
Definition cal_dict (cal_year : row) : pyval :=
  PDict [(PStr "session_id", getattr cal_year "session_id");
         (PStr "user_id", getattr cal_year "user_id");
         (PStr "year", getattr cal_year "year");
         (PStr "portfolio_cagr", getattr cal_year "portfolio_cagr");
         (PStr "index_cagr", getattr cal_year "index_cagr");
         (PStr "id", getattr cal_year "id")].

(** The handler of lines 286-287. *)
Definition failure (e : exn) : pyval :=
  PDict [(PStr "status", PStr "Failure"); (PStr "error", PStr (exn_str e))].

(** Lines 154-287.  The second component is the database after the call:
    the function itself writes nothing, the script it starts does. *)
Definition run_script (w : World) (session_id user_token : string) (payload : pyval)
  (db : Session) : pyval * Session :=
  let script_path := getenv w "SCRIPT_PATH" in
  match path_exists w script_path with
  | Raise e => (failure e, db)
  | Ok false =>
      (PDict [(PStr "status", PStr "Failure"); (PStr "error", PStr "Script file not found")],
       db)
  | Ok true =>
      match json_dumps w payload with
      | Raise e => (failure e, db)
      | Ok text =>
          let cmd := [PStr (executable w); script_path; PStr session_id; PStr user_token;
                      PStr text] in
          match subprocess_run w cmd db with
          | (Raise e, db_session) => (failure e, db_session)
          | (Ok (returncode, stderr), db_session) =>
              if negb (returncode =? 0)%Z
              then (failure (Exn "Exception" ("Script execution failed: " ++ stderr)),
                    db_session)
              else
                match first (same_uuid session_id) (portfolio_investment_rules db_session) with
                | None =>
                    (failure (Exn "Exception" "No input portfolio found for the session"),
                     db_session)
                | Some input_portfolio =>
                    let portfolio_stats :=
                      filter (same_uuid session_id) (investment_rules_statistics db_session) in
                    let cal_years :=
                      filter (fun r => sql_eq sql (getattr r "session_id") (PStr session_id))
                             (cal_year db_session) in
                    let output :=
                      PDict [(PStr "ippf", PDict (ippf_data input_portfolio));
                             (PStr "pfst", PList (map stat_dict portfolio_stats));
                             (PStr "calyears", PList (map cal_dict cal_years))] in
                    (PDict [(PStr "status", PStr "Success");
                            (PStr "output", output);
                            (PStr "strategy_id", PStr session_id)],
                     db_session)
                end
          end
      end
  end.

End Services.

(** Reading a returned dict. *)
Definition field (key : string) (v : pyval) : pyval :=
  match v with
  | PDict items => dict_get items key PNone
  | _ => PNone
  end.

Definition items (v : pyval) : list (pyval * pyval) :=
  match v with
  | PDict entries => entries
  | _ => []
  end.

Definition elements (v : pyval) : list pyval :=
  match v with
  | PList l => l
  | _ => []
  end.

Definition strategies_of (r : result pyval) : list pyval :=
  match r with
  | Ok v => match field "strategies" v with PList items => items | _ => [] end
  | Raise _ => []
  end.

(** The integer under [key] of the [pagination] dict of a listing. *)
Definition pagination_of (key : string) (r : result pyval) : option Z :=
  match r with
  | Ok v => match field key (field "pagination" v) with PInt z => Some z | _ => None end
  | Raise _ => None
  end.

(** SQLite, the database of the default DATABASE_URL of run.py, for the
    closed examples: binary text comparison, an integer parameter compared
    with a text column as its decimal text, a negative OFFSET read as zero
    and a negative LIMIT as no limit, NULL years first; the driver binds
    the integers of 64 bits. *)
Definition sqlite_integer (z : Z) : option exn :=
  if (-9223372036854775808 <=? z)%Z && (z <=? 9223372036854775807)%Z then None
  else Some (Exn "OverflowError" "Python int too large to convert to SQLite INTEGER").

Definition sqlite_binds_flags (z : Z) : (0 <= z <= 1)%Z -> sqlite_integer z = None.
Proof.
  intros [Hlow Hhigh]. unfold sqlite_integer.
  destruct (Z.leb_spec (-9223372036854775808) z); [| lia].
  destruct (Z.leb_spec z 9223372036854775807); [reflexivity | lia].
Defined.

Definition year_leb (r r' : row) : bool :=
  match getattr r "year", getattr r' "year" with
  | PInt a, PInt b => (a <=? b)%Z
  | PInt _, _ => false
  | _, _ => true
  end.

Fixpoint insert_by_year (r : row) (sorted : list row) : list row :=
  match sorted with
  | [] => [r]
  | r' :: rest => if year_leb r' r then r' :: insert_by_year r rest else r :: sorted
  end.

Definition sqlite : Sql :=
  {| text_eq := String.eqb;
     text_eq_int := fun s z => String.eqb s (str_of_Z z);
     offset_limit := fun offset limit rows =>
       let skipped := if (offset <? 0)%Z then rows else skipn (Z.to_nat offset) rows in
       if (limit <? 0)%Z then skipped else firstn (Z.to_nat limit) skipped;
     order_by_year := fun rows => fold_left (fun sorted r => insert_by_year r sorted) rows [];
     refuses_integer := sqlite_integer;
     binds_flags := sqlite_binds_flags |}.

(** A table of three strategies, the second and third with the same
    [strat_uuid], and requests on it. *)
Definition portfolio (id : Z) (uuid user : string) (alias : pyval) (public : Z) : row :=
  [("id", PInt id); ("y_1998", PStr "A"); ("y_1999", PStr "B"); ("y_2024", PNone);
   ("insert_time", PStr "2024-01-01"); ("strat_name", PStr Examples.roe_text);
   ("strat_uuid", PStr uuid); ("user_id", PStr user);
   ("strat_name_alias", alias); ("isPublic", PInt public)].

Definition sample_db : Session :=
  {| portfolio_investment_rules :=
       [portfolio 1 "s-1" "7" (PStr "first") 1;
        portfolio 2 "s-2" "7" PNone 0;
        portfolio 3 "s-2" "8" (PStr "third") 1];
     investment_rules_statistics :=
       [[("id", PInt 10); ("strat_uuid", PStr "s-2"); ("nyears", PInt 5);
         ("mean", PFloat "0.12")]];
     cal_year :=
       [[("id", PInt 20); ("session_id", PStr "s-2"); ("year", PInt 2001);
         ("portfolio_cagr", PFloat "0.1"); ("index_cagr", PFloat "0.05")];
        [("id", PInt 21); ("session_id", PStr "s-2"); ("year", PInt 2000);
         ("portfolio_cagr", PFloat "0.2"); ("index_cagr", PFloat "0.07")]] |}.

Definition publish_s2 : SaveStrategyRequest :=
  {| session_id := "s-2"; strat_name_alias := "second"; isPublic := 1 |}.

Definition rename_s2 : SaveStrategyRequest :=
  {| session_id := "s-2"; strat_name_alias := "renamed"; isPublic := 0 |}.

Definition unknown_request : SaveStrategyRequest :=
  {| session_id := "s-9"; strat_name_alias := "x"; isPublic := 1 |}.

(** A flag that SQLite cannot store. *)
Definition overflow_s2 : SaveStrategyRequest :=
  {| session_id := "s-2"; strat_name_alias := "big"; isPublic := 9223372036854775808 |}.

(** A world in which the script is installed and, called with a session
    id, inserts a portfolio and one row of statistics for it. *)
Definition script_world : World :=
  {| getenv := fun name => if String.eqb name "SCRIPT_PATH" then PStr "/srv/script.py" else PNone;
     path_exists := fun path =>
       match path with
       | PStr p => Ok (String.eqb p "/srv/script.py")
       | _ => Raise (Exn "TypeError" "stat: path should be string, bytes, os.PathLike or integer, not NoneType")
       end;
     executable := "/usr/bin/python3";
     json_dumps := fun payload =>
       match payload with
       | PDict [] => Ok "{}"
       | _ => Raise (Exn "TypeError" "Object is not JSON serializable")
       end;
     subprocess_run := fun cmd db =>
       match cmd with
       | [_; _; PStr session; PStr user; _] =>
           (Ok (0%Z, EmptyString),
            {| portfolio_investment_rules :=
                 (portfolio_investment_rules db ++ [portfolio 4 session user PNone 0])%list;
               investment_rules_statistics :=
                 (investment_rules_statistics db
                  ++ [[("id", PInt 11); ("strat_uuid", PStr session); ("nyears", PInt 3);
                       ("mean", PFloat "0.08"); ("alpha_mean", PFloat "0.01")]])%list;
               cal_year :=
                 (cal_year db
                  ++ [[("id", PInt 22); ("session_id", PStr session); ("user_id", PStr user);
                       ("year", PInt 2003); ("portfolio_cagr", PFloat "0.3");
                       ("index_cagr", PFloat "0.1")];
                      [("id", PInt 23); ("session_id", PStr session); ("user_id", PStr user);
                       ("year", PInt 2002); ("portfolio_cagr", PFloat "0.2");
                       ("index_cagr", PFloat "0.1")]])%list |})
       | _ => (Ok (2%Z, "usage: script session token payload"), db)
       end |}.

End Store.

(** ** The environment defaults of run.py, lines 14-24 *)

Module Run.

(** [os.environ], and what the module printed. *)
Definition environ : Type := list (string * string).

Fixpoint getenv (env : environ) (key : string) : pyval :=
  match env with
  | [] => PNone
  | (k, v) :: rest => if String.eqb k key then PStr v else getenv rest key
  end.

Fixpoint setenv (env : environ) (key value : string) : environ :=
  match env with
  | [] => [(key, value)]
  | (k, v) :: rest =>
      if String.eqb k key then (k, value) :: rest else (k, v) :: setenv rest key value
  end.

(** One [if not os.getenv(key): os.environ[key] = value; print(...)]. *)
Definition default (key value : string) (message : list string)
  (state : environ * list string) : environ * list string :=
  let (env, printed) := state in
  if negb (truthy (getenv env key))
  then (setenv env key value, (printed ++ message)%list)
  else (env, printed).

(** Lines 14-24, on the environment as [load_dotenv] left it. *)
Definition defaults (env : environ) : environ * list string :=
  default "ALGORITHM" "HS256" []
    (default "SECRET_KEY" "dev-secret-key-change-in-production"
             ["Using default SECRET_KEY (change in production)"]
       (default "DATABASE_URL" "sqlite:///./ffpu.db"
                ["Using default SQLite database: ./ffpu.db"]
          (env, []))).

Definition defaulted : list string := ["DATABASE_URL"; "SECRET_KEY"; "ALGORITHM"].

Definition production_env : environ :=
  [("SECRET_KEY", EmptyString); ("DATABASE_URL", "mysql://db/ffpu"); ("PORT", "8005")].

End Run.

(** ** Ends of a text *)

Module Ends.

Definition first_char (s : string) : option ascii :=
  match s with
  | EmptyString => None
  | String c _ => Some c
  end.

Fixpoint last_char (s : string) : option ascii :=
  match s with
  | EmptyString => None
  | String c EmptyString => Some c
  | String _ rest => last_char rest
  end.

(** Every character of [s] satisfies [p]. *)
Fixpoint all_chars (p : ascii -> bool) (s : string) : bool :=
  match s with
  | EmptyString => true
  | String c rest => p c && all_chars p rest
  end.

(** The characters line 147 can remove: white space and the letters of
    the argument of [rstrip]. *)
Definition strippable (c : ascii) : bool := Text.is_space c || Text.mem c "AND".

(** Neither end of [s] is white space. *)
Definition trimmed (s : string) : Prop :=
  (forall c, first_char s = Some c -> Text.is_space c = false)
  /\ (forall c, last_char s = Some c -> Text.is_space c = false).

End Ends.

(** ** Further examples *)

Module MoreExamples.
Import Text.

(** A descriptor encoded twice: JSON text of a text that is JSON. *)
Definition twice_encoded_inner : string := Eval cbv in dq "{`filters`: []}".

Definition twice_encoded_text : string := Eval cbv in dq "`{\`filters\`: []}`".

(** [mixed_mapping] without its entries that are no mappings. *)
Definition mappings_only : list (pyval * pyval) :=
  [(PStr "filters", PList (filter is_dict Examples.mixed_entries))].


(** The parts of the only entry of [approx_text]. *)
Definition approx_param : list (pyval * pyval) := [(PStr "name", PStr "ROE")].

Definition approx_data : list (pyval * pyval) :=
  [(PStr "param", PDict approx_param); (PStr "sign", PStr "approx");
   (PStr "threshold", PInt 3)].

Definition approx_entry : list (pyval * pyval) := [(PStr "Data", PDict approx_data)].

Definition approx_mapping : list (pyval * pyval) :=
  [(PStr "filters", PList [PDict approx_entry])].

(** An entry whose threshold is the integer of the literal [0x1] followed
    by 3600 zeros, which has 4335 decimal digits. *)
Definition long_int : Z := Eval vm_compute in (16 ^ 3600)%Z.

Definition long_int_entries : list pyval :=
  [PDict [(PStr "Data", PDict [(PStr "param", PDict [(PStr "name", PStr "ROE")]);
                               (PStr "threshold", PInt long_int)])];
   PDict [(PStr "Data", PStr "x")]].

(** [text] inside [n] pairs of parentheses. *)
Fixpoint nest (n : nat) (text : string) : string :=
  match n with
  | O => text
  | S m => "(" ++ nest m text ++ ")"
  end.

(** One run of the script on the sample table. *)
Definition script_run : pyval * Store.Session :=
  Store.run_script Store.sqlite Store.script_world "s-5" "9" (PDict []) Store.sample_db.

End MoreExamples.

(** * Properties *)

(** ** Python values and text *)

Example py_str_samples :
  py_str (PFloat "0.15") = Ok "0.15" /\ py_str (PInt (-20)) = Ok "-20"
  /\ py_str PNone = Ok "None"
  /\ py_str (PList [PStr "a'b"; PInt 0; PTuple [PBool true]])
     = Ok (Text.dq "[`a'b`, 0, (True,)]")
  /\ py_str (PDict [(PStr "k", PStr (String (ascii_of_N 10) "x"))]) = Ok "{'k': '\nx'}".
Proof. repeat split; reflexivity. Qed.

(** The limit of the conversion: 4300 digits convert, 4301 do not, with or
    without a sign and inside a container. *)
Example int_limit_samples :
  converts (PInt (10 ^ 4300 - 1)) = true /\ converts (PInt (- (10 ^ 4300 - 1))) = true
  /\ py_str (PInt (10 ^ 4300)) = Raise int_too_long
  /\ py_str (PInt (- 10 ^ 4300)) = Raise int_too_long
  /\ py_str (PList [PInt 1; PDict [(PStr "k", PInt (10 ^ 4300))]]) = Raise int_too_long.
Proof.
  split; [vm_compute; reflexivity |]. split; [vm_compute; reflexivity |].
  split; [vm_compute; reflexivity |]. split; vm_compute; reflexivity.
Qed.

Section TracedFacts.

Context {A B : Type}.

Lemma snd_bind (m : traced A) (k : A -> traced B) :
  snd (bind m k) = match snd m with
                   | Ok a => snd (k a)
                   | Raise e => Raise e
                   end.
Proof. destruct m as [calls [a | e]]; simpl; [destruct (k a) |]; reflexivity. Qed.

Lemma fst_bind (m : traced A) (k : A -> traced B) :
  fst (bind m k) = match snd m with
                   | Ok a => (fst m ++ fst (k a))%list
                   | Raise e => fst m
                   end.
Proof. destruct m as [calls [a | e]]; simpl; [destruct (k a) |]; reflexivity. Qed.

Lemma snd_try_except (m : traced A) (handler : exn -> traced A) :
  snd (try_except m handler) = match snd m with
                               | Ok a => Ok a
                               | Raise e => snd (handler e)
                               end.
Proof. destruct m as [calls [a | e]]; simpl; [| destruct (handler e)]; reflexivity. Qed.

End TracedFacts.

(** ** Characters that stripping keeps *)

Section KeptChars.
Import Text.

Lemma append_empty_r (s : string) : (s ++ EmptyString)%string = s.
Proof. induction s as [| c s IH]; simpl; [| rewrite IH]; reflexivity. Qed.

Lemma has_char_app (c : ascii) (s t : string) :
  has_char c (s ++ t) = has_char c s || has_char c t.
Proof.
  induction s as [| d s IH]; simpl; [reflexivity |].
  rewrite IH. apply orb_assoc.
Qed.

Lemma has_char_lstrip_by (p : ascii -> bool) (c : ascii) (s : string) :
  p c = false -> has_char c s = true -> has_char c (lstrip_by p s) = true.
Proof.
  intros Hp. induction s as [| d s IH]; simpl; [trivial |].
  destruct (p d) eqn:Hd; [| trivial].
  destruct (Ascii.eqb_spec d c) as [-> |]; [congruence | exact IH].
Qed.

Lemma has_char_rstrip_by (p : ascii -> bool) (c : ascii) (s : string) :
  p c = false -> has_char c s = true -> has_char c (rstrip_by p s) = true.
Proof.
  intros Hp. induction s as [| d s IH]; simpl; [trivial |].
  intros H. apply orb_true_iff in H.
  destruct (rstrip_by p s) as [| e kept] eqn:Hkept.
  - destruct H as [H | H]; [| specialize (IH H); discriminate].
    apply Ascii.eqb_eq in H. subst d. rewrite Hp. simpl. now rewrite Ascii.eqb_refl.
  - change (has_char c (String d (String e kept))) with
      (Ascii.eqb d c || has_char c (String e kept)).
    destruct H as [-> | H]; [reflexivity |]. rewrite (IH H). apply orb_true_r.
Qed.

Lemma has_char_join_head (c : ascii) (sep first : string) (rest : list string) :
  has_char c first = true -> has_char c (join sep (first :: rest)) = true.
Proof.
  intros H. destruct rest; simpl; [exact H |].
  rewrite has_char_app, H. reflexivity.
Qed.

End KeptChars.

(** ** The final strip of line 147 *)

Section FinalStrip.
Import Text.

Lemma append_assoc (s t u : string) : ((s ++ t) ++ u)%string = (s ++ (t ++ u))%string.
Proof. induction s as [| c s IH]; simpl; [| rewrite IH]; reflexivity. Qed.

Lemma length_append (s t : string) :
  String.length (s ++ t) = (String.length s + String.length t)%nat.
Proof. induction s as [| c s IH]; simpl; [| rewrite IH]; reflexivity. Qed.

(** Stripping stops at the last character outside the set. *)
Lemma rstrip_by_stops (p : ascii -> bool) (s : string) (c : ascii) (t : string) :
  p c = false -> rstrip_by p (s ++ String c t) = (s ++ String c (rstrip_by p t))%string.
Proof.
  intros Hc. induction s as [| d s IH]; simpl.
  - rewrite Hc. destruct (rstrip_by p t); reflexivity.
  - rewrite IH. destruct s; reflexivity.
Qed.

Lemma remove_suffix_append (s suffix : string) :
  Spec.remove_suffix suffix (s ++ suffix) = s.
Proof.
  induction s as [| c s IH].
  - destruct suffix; simpl; [reflexivity |].
    now rewrite Ascii.eqb_refl, String.eqb_refl.
  - cbn [append Spec.remove_suffix].
    destruct (String.eqb_spec (String c (s ++ suffix)) suffix) as [Heq | _].
    + apply (f_equal String.length) in Heq. cbn [String.length] in Heq.
      rewrite length_append in Heq. lia.
    + now rewrite IH.
Qed.

(** X28: where line 147 does what the specification says: when the joined
    clauses end in the literal AND and the character before it is none of
    A, N, D, the code removes that suffix and nothing else of it. *)
Lemma join_clauses_agrees_with_spec (clauses : list string) (body : string) (c : ascii) :
  mem c "AND" = false ->
  rstrip (join " " clauses) = (body ++ String c "AND")%string ->
  join_clauses clauses = Spec.join_clauses clauses
  /\ join_clauses clauses = rstrip (body ++ String c EmptyString).
Proof.
  intros Hc Hjoin. unfold join_clauses, Spec.join_clauses, rstrip_chars.
  rewrite Hjoin, (rstrip_by_stops _ body c "AND" Hc).
  replace (body ++ String c "AND")%string
    with ((body ++ String c EmptyString) ++ "AND")%string
    by (rewrite append_assoc; reflexivity).
  rewrite remove_suffix_append. split; reflexivity.
Qed.

End FinalStrip.

(** ** Rendering of the filter entries *)

Lemma py_get_dict (items : list (pyval * pyval)) (key : string) (default : pyval) :
  py_get (PDict items) key default = Ok (dict_get items key default).
Proof. unfold py_get, dict_get. destruct (dict_lookup key items); reflexivity. Qed.

Lemma or_else_ok (a b : pyval) : or_else a (Ok b) = Ok (py_or a b).
Proof. unfold or_else, py_or. destruct (truthy a); reflexivity. Qed.

Lemma render_filter_skip (filter_item : pyval) :
  is_dict filter_item = false -> render_filter filter_item = Ok None.
Proof. intros H. unfold render_filter. rewrite H. reflexivity. Qed.

Lemma py_str_converts (v : pyval) : converts v = true -> py_str v = Ok (str_text v).
Proof. intros H. unfold py_str. now rewrite H. Qed.

Lemma map_str_spec (items : list pyval) :
  map_str items
  = if forallb converts items then Ok (map str_text items) else Raise int_too_long.
Proof.
  induction items as [| item items IH]; [reflexivity |].
  cbn [map_str forallb map]. unfold py_str.
  destruct (converts item); cbn [bind_result andb]; [| reflexivity].
  rewrite IH. destruct (forallb converts items); reflexivity.
Qed.

Lemma threshold_str_spec (threshold : pyval) :
  threshold_str threshold
  = if converts threshold then Ok (threshold_text threshold) else Raise int_too_long.
Proof.
  destruct threshold as [ | | | | | items | items | ]; try reflexivity.
  - unfold threshold_str. rewrite map_str_spec.
    change (converts (PList items)) with (forallb converts items).
    destruct (forallb converts items); reflexivity.
  - unfold threshold_str. rewrite map_str_spec.
    change (converts (PTuple items)) with (forallb converts items).
    destruct (forallb converts items); reflexivity.
Qed.

Lemma readable_sign_spec (sign : pyval) :
  readable_sign sign = if converts sign then Ok (sign_symbol sign) else Raise int_too_long.
Proof.
  unfold readable_sign, sign_symbol, py_str.
  destruct (converts sign); cbn [bind_result]; [| reflexivity].
  destruct (sign_map_get _ sign_map); reflexivity.
Qed.

Lemma converts_sign_symbol (sign : pyval) :
  converts sign = true -> converts (sign_symbol sign) = true.
Proof. intros H. unfold sign_symbol. now destruct (sign_map_get _ sign_map). Qed.

(** Lines 134-142 raise exactly when one of the four values does not
    convert, and otherwise give the clause. *)
Lemma build_clause_spec (name period sign threshold operator : pyval) :
  build_clause name period sign threshold operator
  = if forallb converts [threshold; sign; name; period]
    then Ok (clause_text name period sign threshold operator)
    else Raise int_too_long.
Proof.
  unfold build_clause. rewrite threshold_str_spec, readable_sign_spec. cbn [forallb].
  destruct (converts threshold); cbn [bind_result andb]; [| reflexivity].
  destruct (converts sign) eqn:Hsign; cbn [bind_result andb]; [| reflexivity].
  unfold py_str at 1. destruct (converts name); cbn [bind_result andb]; [| reflexivity].
  unfold py_str at 1. destruct (converts period); cbn [bind_result andb]; [| reflexivity].
  rewrite (py_str_converts _ (converts_sign_symbol _ Hsign)). cbn [bind_result].
  unfold clause_text.
  destruct operator as [ | | | | op | | | ]; try reflexivity.
  destruct (truthy (PStr op) && truthy (PStr (Text.strip op))); reflexivity.
Qed.

(** The loop body on a mapping entry, through the selected operands. *)
Lemma render_filter_dict (entry : list (pyval * pyval)) :
  render_filter (PDict entry) =
  match entry_data entry with
  | PDict data =>
      match data_param data with
      | PDict param =>
          if forallb converts (rendered_values data param)
          then Ok (Some (entry_clause entry data param))
          else Raise int_too_long
      | other => Raise (no_get_attribute other)
      end
  | other => Raise (no_get_attribute other)
  end.
Proof.
  unfold render_filter. cbn [is_dict negb].
  repeat (rewrite ?py_get_dict, ?or_else_ok; cbn [bind_result]).
  fold (entry_data entry). fold (entry_operator entry).
  destruct (entry_data entry) as [ | | | | | | | data]; try reflexivity.
  repeat (rewrite ?py_get_dict, ?or_else_ok; cbn [bind_result]).
  fold (data_param data).
  destruct (data_param data) as [ | | | | | | | param]; try reflexivity.
  repeat (rewrite ?py_get_dict, ?or_else_ok; cbn [bind_result]).
  fold (param_name param). fold (data_sign data).
  rewrite build_clause_spec. fold (rendered_values data param).
  unfold entry_clause.
  destruct (forallb converts (rendered_values data param)); reflexivity.
Qed.

Lemma render_filter_good (entry : list (pyval * pyval)) :
  bad_entry (PDict entry) = false ->
  long_int_entry (PDict entry) = false ->
  exists data param,
    entry_data entry = PDict data /\ data_param data = PDict param /\
    render_filter (PDict entry) = Ok (Some (entry_clause entry data param)).
Proof.
  rewrite render_filter_dict. unfold bad_entry, long_int_entry.
  destruct (entry_data entry) as [ | | | | | | | data]; intros H; try discriminate H.
  destruct (data_param data) as [ | | | | | | | param] eqn:Hparam; try discriminate H.
  intros Hlong. apply negb_false_iff in Hlong.
  exists data, param. rewrite Hparam, Hlong. repeat split; reflexivity.
Qed.

(** An entry with mappings for [Data] and [param] and a value that does
    not convert raises the error of the conversion. *)
Lemma render_filter_long (filter_item : pyval) :
  long_int_entry filter_item = true -> render_filter filter_item = Raise int_too_long.
Proof.
  destruct filter_item as [ | | | | | | | entry]; try discriminate.
  rewrite render_filter_dict. unfold long_int_entry.
  destruct (entry_data entry) as [ | | | | | | | data]; try discriminate.
  destruct (data_param data) as [ | | | | | | | param]; try discriminate.
  intros H. apply negb_true_iff in H. now rewrite H.
Qed.

Lemma long_int_entry_not_bad (filter_item : pyval) :
  long_int_entry filter_item = true -> bad_entry filter_item = false.
Proof.
  destruct filter_item as [ | | | | | | | entry]; try discriminate.
  unfold long_int_entry, bad_entry.
  destruct (entry_data entry) as [ | | | | | | | data]; try discriminate.
  destruct (data_param data) as [ | | | | | | | param]; try discriminate. reflexivity.
Qed.

Lemma py_or_default_dict (a : pyval) :
  is_dict (py_or a (PDict [])) = false -> truthy (py_or a (PDict [])) = true.
Proof. unfold py_or. destruct (truthy a) eqn:H; [trivial | discriminate]. Qed.

(** The selected [Data] of an entry is a mapping unless it is truthy. *)
Lemma entry_data_truthy (entry : list (pyval * pyval)) :
  is_dict (entry_data entry) = false -> truthy (entry_data entry) = true.
Proof.
  unfold entry_data, py_or.
  destruct (truthy (dict_get entry "Data" PNone)) eqn:H1; [trivial |].
  destruct (truthy (dict_get entry "data" PNone)) eqn:H2; [trivial | discriminate].
Qed.

Lemma render_filter_bad (entry : list (pyval * pyval)) :
  bad_entry (PDict entry) = true ->
  exists other,
    truthy other = true /\ is_dict other = false /\
    render_filter (PDict entry) = Raise (no_get_attribute other).
Proof.
  rewrite render_filter_dict. unfold bad_entry.
  destruct (entry_data entry) as [ | | | | | | | data] eqn:Hdata.
  1-7: intros _; eexists; split; [| split; [| reflexivity]];
       [rewrite <- Hdata; apply entry_data_truthy; rewrite Hdata |]; reflexivity.
  destruct (data_param data) as [ | | | | | | | param] eqn:Hparam;
    [ | | | | | | | intros H; discriminate H].
  1-7: intros _; eexists; split; [| split; [| reflexivity]];
       [rewrite <- Hparam; apply py_or_default_dict; fold (data_param data);
        rewrite Hparam |]; reflexivity.
Qed.

Lemma bad_entry_is_dict (filter_item : pyval) :
  bad_entry filter_item = true -> is_dict filter_item = true.
Proof. destruct filter_item; simpl; congruence. Qed.

(** The ways an entry is bad, by the keys of the entry: the value under
    [Data] is truthy and no mapping; or it is falsy and the value under
    [data] is truthy and no mapping; or the selected [Data] is a mapping
    whose value under [param] is truthy and no mapping. *)
Lemma bad_entry_cases (entry : list (pyval * pyval)) :
  bad_entry (PDict entry) = true <->
  (truthy (dict_get entry "Data" PNone) = true
   /\ is_dict (dict_get entry "Data" PNone) = false)
  \/ (truthy (dict_get entry "Data" PNone) = false
      /\ truthy (dict_get entry "data" PNone) = true
      /\ is_dict (dict_get entry "data" PNone) = false)
  \/ (exists data,
        entry_data entry = PDict data
        /\ truthy (dict_get data "param" PNone) = true
        /\ is_dict (dict_get data "param" PNone) = false).
Proof.
  unfold bad_entry, entry_data, data_param, py_or.
  destruct (truthy (dict_get entry "Data" PNone)) eqn:H1;
    [| destruct (truthy (dict_get entry "data" PNone)) eqn:H2].
  - destruct (dict_get entry "Data" PNone) as [ | | | | | | | data]; cbn [is_dict];
      try (split; [intros _; left; split; reflexivity | reflexivity]).
    destruct (truthy (dict_get data "param" PNone)) eqn:H3.
    + destruct (is_dict (dict_get data "param" PNone)) eqn:H4; cbn [negb]; split;
        try discriminate; try reflexivity.
      * intros [[_ H] | [[H _] | (data' & Heq & _ & H)]]; try discriminate H.
        injection Heq as <-. congruence.
      * intros _. right. right. exists data. auto.
    + cbn. split; [discriminate |].
      intros [[_ H] | [[H _] | (data' & Heq & H & _)]]; try discriminate H.
      injection Heq as <-. congruence.
  - destruct (dict_get entry "data" PNone) as [ | | | | | | | data]; cbn [is_dict];
      try (split; [intros _; right; left; repeat split; reflexivity | reflexivity]).
    destruct (truthy (dict_get data "param" PNone)) eqn:H3.
    + destruct (is_dict (dict_get data "param" PNone)) eqn:H4; cbn [negb]; split;
        try discriminate; try reflexivity.
      * intros [[H _] | [(_ & _ & H) | (data' & Heq & _ & H)]]; try discriminate H.
        injection Heq as <-. congruence.
      * intros _. right. right. exists data. auto.
    + cbn. split; [discriminate |].
      intros [[H _] | [(_ & _ & H) | (data' & Heq & H & _)]]; try discriminate H.
      injection Heq as <-. congruence.
  - cbn. split; [discriminate |].
    intros [[H _] | [(_ & H & _) | (data' & Heq & H & _)]]; try discriminate H.
    injection Heq as <-. cbn in H. discriminate H.
Qed.

(** Every clause holds the letter [Y] of [Years]; no sentinel does. *)
Definition has_Y (text : string) : bool := Text.has_char "Y" text.

Lemma clause_text_has_Y (name period sign threshold operator : pyval) :
  has_Y (clause_text name period sign threshold operator) = true.
Proof.
  unfold clause_text, has_Y.
  set (body := (str_text name ++ _)%string).
  assert (Hclause : Text.has_char "Y" (Text.strip body) = true).
  { unfold Text.strip.
    apply has_char_lstrip_by; [reflexivity |].
    apply has_char_rstrip_by; [reflexivity |].
    unfold body. repeat rewrite has_char_app. cbn. now rewrite !orb_true_r. }
  destruct operator; try exact Hclause.
  destruct (truthy (PStr s) && truthy (PStr (Text.strip s))); [| exact Hclause].
  rewrite has_char_app, Hclause. reflexivity.
Qed.

Lemma render_filter_has_Y (filter_item : pyval) (clause : string) :
  render_filter filter_item = Ok (Some clause) -> has_Y clause = true.
Proof.
  destruct filter_item as [ | | | | | | | entry];
    try (rewrite render_filter_skip by reflexivity; discriminate).
  rewrite render_filter_dict.
  destruct (entry_data entry) as [ | | | | | | | data]; try discriminate.
  destruct (data_param data) as [ | | | | | | | param]; try discriminate.
  destruct (forallb converts (rendered_values data param)); try discriminate.
  intros H. injection H as <-. apply clause_text_has_Y.
Qed.

(** The loop appends to [formatted_filters] and keeps what was there. *)
Lemma render_filters_good (entries : list pyval) (formatted : list string) :
  Forall (fun e => bad_entry e = false) entries ->
  Forall (fun e => long_int_entry e = false) entries ->
  exists clauses,
    render_filters entries formatted = Ok (formatted ++ clauses)%list /\
    Forall2 (fun e c => render_filter e = Ok (Some c)) (filter is_dict entries) clauses.
Proof.
  intros Hgood. revert formatted.
  induction Hgood as [| e entries He _ IH]; intros formatted Hshort.
  - exists []. simpl. rewrite app_nil_r. auto.
  - inversion Hshort as [| e' entries' Hlong Hshort']; subst.
    destruct e as [ | | | | | | | entry];
      try (destruct (IH formatted Hshort') as (clauses & Hrun & Hall);
           exists clauses; cbn [render_filters filter is_dict];
           rewrite render_filter_skip by reflexivity; cbn [bind_result];
           split; assumption).
    destruct (render_filter_good entry He Hlong) as (data & param & _ & _ & Hclause).
    destruct (IH (formatted ++ [entry_clause entry data param])%list Hshort')
      as (clauses & Hrun & Hall).
    exists (entry_clause entry data param :: clauses).
    cbn [render_filters filter is_dict]. rewrite Hclause. cbn [bind_result].
    rewrite Hrun, <- app_assoc. auto.
Qed.

(** The loop stops at the first entry that raises: the entries before it
    are skipped or rendered. *)
Lemma render_filters_stops (before after : list pyval) (item : pyval)
      (formatted : list string) (e : exn) :
  Forall (fun e => bad_entry e = false) before ->
  Forall (fun e => long_int_entry e = false) before ->
  render_filter item = Raise e ->
  render_filters (before ++ item :: after) formatted = Raise e.
Proof.
  intros Hgood. revert formatted.
  induction Hgood as [| b before Hb _ IH]; intros formatted Hshort Hitem.
  - cbn [app render_filters]. now rewrite Hitem.
  - inversion Hshort as [| b' before' Hlong Hshort']; subst.
    cbn [app render_filters].
    destruct b as [ | | | | | | | entry];
      try (rewrite render_filter_skip by reflexivity; cbn [bind_result];
           exact (IH formatted Hshort' Hitem)).
    destruct (render_filter_good entry Hb Hlong) as (data & param & _ & _ & Hclause).
    rewrite Hclause. cbn [bind_result]. exact (IH _ Hshort' Hitem).
Qed.

(** With a bad entry in the list the loop raises: the error of the first
    entry that is bad or holds a value that does not convert. *)
Lemma render_filters_bad (entries : list pyval) (formatted : list string) :
  Exists (fun e => bad_entry e = true) entries ->
  exists e,
    render_filters entries formatted = Raise e
    /\ ((e = int_too_long /\ Exists (fun e => long_int_entry e = true) entries)
        \/ exists other, truthy other = true /\ is_dict other = false
                         /\ e = no_get_attribute other).
Proof.
  intros Hbad. revert formatted.
  induction entries as [| item entries IH]; intros formatted; [inversion Hbad |].
  cbn [render_filters].
  destruct (bad_entry item) eqn:He.
  - destruct item as [ | | | | | | | entry]; try discriminate He.
    destruct (render_filter_bad entry He) as (other & Ht & Hd & Hraise).
    exists (no_get_attribute other). rewrite Hraise. split; [reflexivity |].
    right. exists other. auto.
  - assert (Hrest : Exists (fun e => bad_entry e = true) entries).
    { inversion Hbad; subst; [congruence | assumption]. }
    destruct (long_int_entry item) eqn:Hlong.
    + exists int_too_long. rewrite (render_filter_long _ Hlong). split; [reflexivity |].
      left. split; [reflexivity |]. now constructor.
    + assert (Hnext : forall formatted',
                 exists e,
                   render_filters entries formatted' = Raise e
                   /\ ((e = int_too_long
                        /\ Exists (fun e => long_int_entry e = true) (item :: entries))
                       \/ exists other, truthy other = true /\ is_dict other = false
                                        /\ e = no_get_attribute other)).
      { intros formatted'. destruct (IH Hrest formatted') as (e & Hrun & Hkind).
        exists e. split; [exact Hrun |].
        destruct Hkind as [[-> Hex] | Hother]; [left; split; [reflexivity |] | now right].
        now apply Exists_cons_tl. }
      destruct item as [ | | | | | | | entry];
        try (rewrite render_filter_skip by reflexivity; cbn [bind_result]; apply Hnext).
      destruct (render_filter_good entry He Hlong) as (data & param & _ & _ & Hclause).
      rewrite Hclause. cbn [bind_result]. apply Hnext.
Qed.

(** Without a bad entry, a value that does not convert is the only fault. *)
Lemma render_filters_long (entries : list pyval) (formatted : list string) :
  Forall (fun e => bad_entry e = false) entries ->
  Exists (fun e => long_int_entry e = true) entries ->
  render_filters entries formatted = Raise int_too_long.
Proof.
  intros Hgood. revert formatted.
  induction Hgood as [| item entries He _ IH]; intros formatted Hlong; [inversion Hlong |].
  cbn [render_filters].
  destruct (long_int_entry item) eqn:Hitem.
  - now rewrite (render_filter_long _ Hitem).
  - assert (Hrest : Exists (fun e => long_int_entry e = true) entries).
    { inversion Hlong; subst; [congruence | assumption]. }
    destruct item as [ | | | | | | | entry];
      try (rewrite render_filter_skip by reflexivity; cbn [bind_result]; apply IH, Hrest).
    destruct (render_filter_good entry He Hitem) as (data & param & _ & _ & Hclause).
    rewrite Hclause. cbn [bind_result]. apply IH, Hrest.
Qed.

Lemma render_filters_has_Y (entries : list pyval) (formatted out : list string) :
  render_filters entries formatted = Ok out ->
  Forall (fun c => has_Y c = true) formatted ->
  Forall (fun c => has_Y c = true) out.
Proof.
  revert formatted. induction entries as [| e entries IH]; intros formatted; simpl.
  - intros H. injection H as <-. trivial.
  - destruct (render_filter e) as [[c |] |] eqn:He; simpl; try discriminate.
    + intros Hrun Hall. apply (IH _ Hrun).
      apply Forall_app. split; [exact Hall |].
      constructor; [exact (render_filter_has_Y _ _ He) | constructor].
    + apply IH.
Qed.

Lemma join_clauses_has_Y (first : string) (rest : list string) :
  has_Y first = true -> has_Y (join_clauses (first :: rest)) = true.
Proof.
  intros H. unfold join_clauses, has_Y, Text.rstrip, Text.rstrip_chars.
  apply has_char_rstrip_by; [reflexivity |].
  apply has_char_rstrip_by; [reflexivity |].
  apply has_char_rstrip_by; [reflexivity |].
  apply has_char_join_head, H.
Qed.

(** ** The coercion step *)

Section FormatterFacts.

Variable json_loads : pyval -> result pyval.
Variable literal_eval : pyval -> result pyval.

Ltac run_calls :=
  repeat (cbn;
          match goal with
          | |- context [json_loads ?x] => destruct (json_loads x) as [[]|] eqn:?
          | |- context [literal_eval ?x] => destruct (literal_eval x) as [[]|] eqn:?
          end);
  cbn.

Ltac unfold_coerce :=
  unfold _coerce_to_dict, or_continue, try_except, bind, json_call, literal_call,
    ret, return_if_dict.

(** The coercion step returns, and what it returns is a dict or [None]. *)
Lemma coerce_returns (x : pyval) :
  exists calls v, _coerce_to_dict json_loads literal_eval x = (calls, Ok v)
                  /\ (v = PNone \/ is_dict v = true).
Proof.
  unfold_coerce.
  destruct (negb (truthy x) || negb (is_str x)); [eauto |].
  run_calls; eauto.
Qed.

Lemma coerce_chain (s : string) :
  snd (_coerce_to_dict json_loads literal_eval (PStr s))
  = Ok (Spec.coerce json_loads literal_eval s).
Proof.
  unfold_coerce.
  unfold Spec.coerce, Spec.first_success, Spec.strict_parse, Spec.literal_parse,
    Spec.nested_unwrap, Spec.sanitized_parse, Spec.as_mapping.
  cbn [truthy is_str negb orb str_text].
  destruct (String.eqb s ""); [reflexivity |].
  run_calls; reflexivity.
Qed.

(** The calls of the coercion step are an initial part of the attempts in
    their order, followed by the sanitized parse when no earlier strategy
    has returned. *)
Lemma coerce_calls_in_order (s : string) :
  s <> EmptyString ->
  exists n inner,
    (1 <= n)%nat /\
    (fst (_coerce_to_dict json_loads literal_eval (PStr s))
     = firstn n (Spec.attempt_order s inner)
     \/ fst (_coerce_to_dict json_loads literal_eval (PStr s))
        = (firstn n (Spec.attempt_order s inner) ++ [Spec.sanitized_attempt s])%list).
Proof.
  intros Hs. unfold_coerce. unfold Spec.attempt_order, Spec.sanitized_attempt.
  cbn [truthy is_str negb orb str_text].
  destruct (String.eqb_spec s EmptyString) as [-> | _]; [now destruct Hs |].
  run_calls;
    first [ exists 1%nat, EmptyString; split; [lia | (left + right); reflexivity]
          | exists 2%nat, EmptyString; split; [lia | (left + right); reflexivity]
          | exists 3%nat; eexists; split; [lia | (left + right); reflexivity]
          | exists 4%nat; eexists; split; [lia | (left + right); reflexivity] ].
Qed.

(** ** The formatter *)

Lemma parse_descriptor_value (x : pyval) :
  snd (parse_descriptor json_loads literal_eval x) =
  match json_loads x with
  | Ok v => Ok v
  | Raise _ => snd (_coerce_to_dict json_loads literal_eval x)
  end.
Proof.
  unfold parse_descriptor. rewrite snd_try_except. unfold json_call. simpl.
  destruct (json_loads x); reflexivity.
Qed.

Lemma parse_descriptor_returns (x : pyval) :
  exists v, snd (parse_descriptor json_loads literal_eval x) = Ok v.
Proof.
  rewrite parse_descriptor_value.
  destruct (json_loads x) as [v | e]; [eauto |].
  destruct (coerce_returns x) as (calls & v & -> & _). simpl. eauto.
Qed.

Lemma unwrap_query_value (items : list (pyval * pyval)) :
  snd (unwrap_query json_loads literal_eval (PDict items)) =
  match dict_lookup "query" items with
  | Some (PStr q) =>
      match snd (_coerce_to_dict json_loads literal_eval (PStr q)) with
      | Ok (PDict inner) => Ok (PDict inner)
      | _ => Ok (PDict items)
      end
  | Some (PDict inner) => Ok (PDict inner)
  | _ => Ok (PDict items)
  end.
Proof.
  unfold unwrap_query.
  destruct (dict_lookup "query" items) as [[ | | | | q | | | inner] |]; try reflexivity.
  rewrite snd_bind.
  destruct (coerce_returns (PStr q)) as (calls & v & -> & [-> | Hv]); simpl.
  - reflexivity.
  - destruct v; try discriminate Hv. reflexivity.
Qed.

Lemma unwrap_query_returns (items : list (pyval * pyval)) :
  exists working, snd (unwrap_query json_loads literal_eval (PDict items)) = Ok (PDict working).
Proof.
  rewrite unwrap_query_value.
  destruct (dict_lookup "query" items) as [[ | | | | q | | | inner] |]; eauto.
  destruct (snd (_coerce_to_dict json_loads literal_eval (PStr q)))
    as [[ | | | | | | | inner] | e]; eauto.
Qed.

Lemma format_query_output (x : pyval) :
  format_query_from_strat_name json_loads literal_eval x =
  outcome_text (snd (format_query_body json_loads literal_eval x)).
Proof.
  unfold format_query_from_strat_name, format_query_traced.
  destruct (format_query_body json_loads literal_eval x). reflexivity.
Qed.

Lemma format_query_falsy (x : pyval) :
  truthy x = false ->
  format_query_traced json_loads literal_eval x = ([], "No query available").
Proof.
  intros H. unfold format_query_traced, format_query_body. rewrite H. reflexivity.
Qed.

Lemma format_query_not_mapping (x v : pyval) :
  truthy x = true ->
  snd (parse_descriptor json_loads literal_eval x) = Ok v ->
  is_dict v = false ->
  format_query_from_strat_name json_loads literal_eval x = "Invalid query format".
Proof.
  intros Hx Hparse Hv. rewrite format_query_output.
  unfold format_query_body. rewrite Hx. cbn [negb].
  rewrite snd_bind, Hparse, Hv. reflexivity.
Qed.

(** Past parsing and unwrapping the output is that of lines 107-152 on the
    working mapping. *)
Lemma format_query_on_mapping (x : pyval) (items working : list (pyval * pyval)) :
  truthy x = true ->
  snd (parse_descriptor json_loads literal_eval x) = Ok (PDict items) ->
  snd (unwrap_query json_loads literal_eval (PDict items)) = Ok (PDict working) ->
  format_query_from_strat_name json_loads literal_eval x
  = outcome_text (format_filters (PDict working)).
Proof.
  intros Hx Hparse Hunwrap. rewrite format_query_output.
  unfold format_query_body. rewrite Hx. cbn [negb].
  rewrite snd_bind, Hparse. cbn [is_dict negb].
  rewrite snd_bind, Hunwrap. reflexivity.
Qed.

Lemma format_filters_on_list (working : list (pyval * pyval)) (e : pyval) (entries : list pyval) :
  dict_lookup "filters" working = Some (PList (e :: entries)) ->
  format_filters (PDict working) =
  bind_result (render_filters (e :: entries) [])
    (fun formatted => match formatted with
                      | [] => Ok "No valid filters found"
                      | _ => Ok (join_clauses formatted)
                      end).
Proof.
  intros H. unfold format_filters. rewrite py_get_dict. unfold dict_get. rewrite H.
  reflexivity.
Qed.

Lemma format_filters_no_list (working : list (pyval * pyval)) :
  match dict_lookup "filters" working with
  | Some (PList (_ :: _)) => False
  | _ => True
  end ->
  format_filters (PDict working) = Ok "No filters defined".
Proof.
  unfold format_filters. rewrite py_get_dict. unfold dict_get.
  destruct (dict_lookup "filters" working) as [[ | | | | | [| e entries] | | ] |];
    intros H; try reflexivity.
  destruct H.
Qed.

(** ** Properties that hold for every behaviour of the parsers *)

(** C4: the coercion step runs its four strategies in strict order (its
    library calls are an initial part of: strict parse, literal parse,
    strict then literal parse of the inner text, with the parse of the
    sanitized text last), a strategy that raises or yields no mapping hands
    over to the next one, and the step returns the mapping of the first
    strategy that yields one.  On a non-empty text whose strict JSON parse
    is a mapping it returns exactly that mapping, and that parse is its only
    library call: neither the literal parse nor the quote replacement is
    applied. *)
Theorem c4_coerce_strict_parse_first (s : string) :
  s <> EmptyString ->
  snd (_coerce_to_dict json_loads literal_eval (PStr s))
  = Ok (Spec.coerce json_loads literal_eval s)
  /\ (exists n inner,
        (1 <= n)%nat /\
        (fst (_coerce_to_dict json_loads literal_eval (PStr s))
         = firstn n (Spec.attempt_order s inner)
         \/ fst (_coerce_to_dict json_loads literal_eval (PStr s))
            = (firstn n (Spec.attempt_order s inner) ++ [Spec.sanitized_attempt s])%list))
  /\ forall mapping,
       json_loads (PStr s) = Ok (PDict mapping) ->
       _coerce_to_dict json_loads literal_eval (PStr s)
       = ([JsonLoads (PStr s)], Ok (PDict mapping)).
Proof.
  intros Hs. split; [apply coerce_chain |]. split; [apply coerce_calls_in_order, Hs |].
  intros mapping Hjson. unfold_coerce.
  cbn [truthy is_str negb orb].
  destruct (String.eqb_spec s EmptyString) as [-> | _]; [now destruct Hs |].
  cbn. rewrite Hjson. reflexivity.
Qed.

(** Every way the formatter can end, with its cause. *)
Lemma format_query_outcomes (x : pyval) :
  let out := format_query_from_strat_name json_loads literal_eval x in
  (truthy x = false /\ out = "No query available")
  \/ (exists v,
        snd (parse_descriptor json_loads literal_eval x) = Ok v /\ is_dict v = false
        /\ out = "Invalid query format")
  \/ (exists items working,
        snd (parse_descriptor json_loads literal_eval x) = Ok (PDict items) /\
        snd (unwrap_query json_loads literal_eval (PDict items)) = Ok (PDict working) /\
        (out = "No filters defined"
         \/ out = "No valid filters found"
         \/ (exists e, format_filters (PDict working) = Raise e
                       /\ out = "Query parsing error: " ++ exn_str e)
         \/ (exists entries clauses,
               dict_lookup "filters" working = Some (PList entries) /\
               clauses <> [] /\ render_filters entries [] = Ok clauses /\
               out = join_clauses clauses))).
Proof.
  cbv zeta. destruct (truthy x) eqn:Hx.
  2: { left. split; [reflexivity |]. unfold format_query_from_strat_name.
       now rewrite (format_query_falsy x Hx). }
  right. destruct (parse_descriptor_returns x) as [v Hv].
  destruct (is_dict v) eqn:Hd.
  2: { left. exists v. split; [exact Hv |]. split; [exact Hd |].
       exact (format_query_not_mapping x v Hx Hv Hd). }
  right. destruct v as [ | | | | | | | items]; try discriminate Hd.
  destruct (unwrap_query_returns items) as [working Hw].
  exists items, working. split; [exact Hv |]. split; [exact Hw |].
  rewrite (format_query_on_mapping x items working Hx Hv Hw).
  destruct (dict_lookup "filters" working)
    as [[ | | | | | [| e entries] | | ] |] eqn:Hf;
    try (left; rewrite format_filters_no_list by (rewrite Hf; exact I); reflexivity).
  rewrite (format_filters_on_list _ _ _ Hf).
  destruct (render_filters (e :: entries) []) as [[| c cs] | err] eqn:Hrun;
    cbn [bind_result outcome_text].
  - right. left. reflexivity.
  - right. right. right. exists (e :: entries), (c :: cs). repeat split; auto.
    discriminate.
  - right. right. left. exists err. split; reflexivity.
Qed.


Lemma library_calls_truthy (x : pyval) :
  truthy x = true ->
  exists rest, library_calls json_loads literal_eval x = JsonLoads x :: rest.
Proof.
  intros Hx. unfold library_calls, format_query_traced, format_query_body.
  rewrite Hx. cbn [negb]. unfold parse_descriptor.
  match goal with
  | |- context [bind ?m ?k] =>
      assert (H : exists rest, fst (bind m k) = JsonLoads x :: rest)
  end.
  { rewrite fst_bind. unfold try_except, json_call.
    destruct (json_loads x) as [v | e]; cbn [fst snd].
    - destruct v; cbn; eauto.
    - destruct (coerce_returns x) as (calls & v & -> & _). cbn [fst snd app].
      destruct (is_dict v); cbn; eauto. }
  destruct H as [rest H].
  match goal with
  | |- context [bind ?m ?k] => destruct (bind m k) as [calls outcome]
  end.
  exists rest. exact H.
Qed.

(** C3, amended: the formatter returns a text on every input, and that text
    is "No query available" (falsy input), "Invalid query format" (parsing
    returned something that is no mapping; an exception of a parse attempt
    ends there too, since parsing itself always returns), or, for a working
    mapping, "No filters defined", "No valid filters found", the rendered
    query, or "Query parsing error: " followed by the message of the
    exception that the rendering of the working mapping raised. *)
Theorem c3_output_is_query_or_sentinel (x : pyval) :
  let out := format_query_from_strat_name json_loads literal_eval x in
  (truthy x = false /\ out = "No query available")
  \/ (exists v,
        snd (parse_descriptor json_loads literal_eval x) = Ok v /\ is_dict v = false
        /\ out = "Invalid query format")
  \/ (exists items working,
        snd (parse_descriptor json_loads literal_eval x) = Ok (PDict items) /\
        snd (unwrap_query json_loads literal_eval (PDict items)) = Ok (PDict working) /\
        (out = "No filters defined"
         \/ out = "No valid filters found"
         \/ (exists e, format_filters (PDict working) = Raise e
                       /\ out = "Query parsing error: " ++ exn_str e)
         \/ (exists entries clauses,
               dict_lookup "filters" working = Some (PList entries) /\
               clauses <> [] /\ render_filters entries [] = Ok clauses /\
               out = join_clauses clauses))).
Proof. exact (format_query_outcomes x). Qed.

(** C9, amended: on every falsy input (the empty text, [None], zero, an
    empty container) the formatter returns "No query available" and makes no
    library call; every truthy input, text or not, is handed to the strict
    parser first and never ends in "No query available". *)
Theorem c9_falsy_input_no_query (x : pyval) :
  (truthy x = false ->
   format_query_from_strat_name json_loads literal_eval x = "No query available"
   /\ library_calls json_loads literal_eval x = [])
  /\ (truthy x = true ->
      format_query_from_strat_name json_loads literal_eval x <> "No query available"
      /\ exists rest, library_calls json_loads literal_eval x = JsonLoads x :: rest).
Proof.
  split.
  - intros H. unfold format_query_from_strat_name, library_calls.
    rewrite (format_query_falsy x H). split; reflexivity.
  - intros Hx. split; [| exact (library_calls_truthy x Hx)].
    destruct (format_query_outcomes x)
      as [[H _] | [(v & _ & _ & ->) | (items & working & _ & _ & Hout)]];
      [congruence | discriminate |].
    destruct Hout as [-> | [-> | [(e & _ & ->) | (entries & clauses & _ & Hne & Hrun & ->)]]];
      try discriminate.
    intros H. apply (f_equal has_Y) in H.
    pose proof (render_filters_has_Y _ _ _ Hrun (Forall_nil _)) as Hall.
    destruct clauses as [| c cs]; [now destruct Hne |].
    rewrite join_clauses_has_Y in H; [discriminate H | now inversion Hall].
Qed.

(** C5: when the parsed mapping has a [query] key holding a text, the
    coercion step is run on that text and the mapping it yields becomes the
    working mapping, the parsed mapping staying in place when it yields
    none; a [query] key holding a mapping makes that mapping the working
    one; any other [query] value, or none, leaves the parsed mapping.  The
    working mapping goes to lines 107-149 whatever [query] key it has
    itself. *)
Theorem c5_query_key_unwrapped_once (x : pyval) (items : list (pyval * pyval)) :
  truthy x = true ->
  snd (parse_descriptor json_loads literal_eval x) = Ok (PDict items) ->
  format_query_from_strat_name json_loads literal_eval x =
  outcome_text
    (format_filters
       match dict_lookup "query" items with
       | Some (PStr q) =>
           match snd (_coerce_to_dict json_loads literal_eval (PStr q)) with
           | Ok (PDict inner) => PDict inner
           | _ => PDict items
           end
       | Some (PDict inner) => PDict inner
       | _ => PDict items
       end).
Proof.
  intros Hx Hparse.
  destruct (unwrap_query_returns items) as [working Hw].
  rewrite (format_query_on_mapping x items working Hx Hparse Hw).
  rewrite unwrap_query_value in Hw.
  destruct (dict_lookup "query" items) as [[ | | | | q | | | inner] |];
    try (injection Hw as <-; reflexivity).
  destruct (snd (_coerce_to_dict json_loads literal_eval (PStr q)))
    as [[ | | | | | | | inner] | e];
    injection Hw as <-; reflexivity.
Qed.

(** C6, amended: when the working mapping has a non-empty [filters] list in
    which every mapping entry selects a [Data] and a [param] that are
    mappings (an absent or falsy value selects the empty mapping) and none
    of the values to render (threshold, sign, name, period) is or holds an
    integer of more than 4300 digits, the loop renders exactly one clause
    per mapping entry, in input order, and skips the other entries; the
    output is the clauses joined by single spaces and passed through the
    final strip of line 147, or "No valid filters found" when no entry is a
    mapping.  With such an integer in an entry the output is the "Query
    parsing error" text of the failed conversion instead. *)
Theorem c6_one_clause_per_mapping_entry
  (x : pyval) (items working : list (pyval * pyval)) (entries : list pyval) :
  truthy x = true ->
  snd (parse_descriptor json_loads literal_eval x) = Ok (PDict items) ->
  snd (unwrap_query json_loads literal_eval (PDict items)) = Ok (PDict working) ->
  dict_lookup "filters" working = Some (PList entries) ->
  entries <> [] ->
  Forall (fun e => bad_entry e = false) entries ->
  (Forall (fun e => long_int_entry e = false) entries ->
   exists clauses,
     Forall2 (fun e c => render_filter e = Ok (Some c)) (filter is_dict entries) clauses
     /\ length clauses = length (filter is_dict entries)
     /\ format_query_from_strat_name json_loads literal_eval x
        = match clauses with
          | [] => "No valid filters found"
          | _ => join_clauses clauses
          end)
  /\ (Exists (fun e => long_int_entry e = true) entries ->
      format_query_from_strat_name json_loads literal_eval x
      = "Query parsing error: " ++ exn_str int_too_long).
Proof.
  intros Hx Hparse Hw Hf Hne Hgood.
  rewrite (format_query_on_mapping x items working Hx Hparse Hw).
  destruct entries as [| e entries]; [now destruct Hne |].
  rewrite (format_filters_on_list _ _ _ Hf). split.
  - intros Hshort.
    destruct (render_filters_good (e :: entries) [] Hgood Hshort) as (clauses & Hrun & Hall).
    exists clauses. split; [exact Hall |]. split.
    { symmetry. eapply Forall2_length, Hall. }
    rewrite Hrun. cbn [app bind_result].
    destruct clauses; reflexivity.
  - intros Hlong. now rewrite (render_filters_long (e :: entries) [] Hgood Hlong).
Qed.

(** C7, amended: past parsing and unwrapping, the formatter returns "No
    filters defined" exactly when the [filters] value of the working mapping
    is absent, is not a list, or is the empty list; every non-empty list
    goes on to the rendering loop. *)
Theorem c7_no_filters_defined_iff (x : pyval) (items working : list (pyval * pyval)) :
  truthy x = true ->
  snd (parse_descriptor json_loads literal_eval x) = Ok (PDict items) ->
  snd (unwrap_query json_loads literal_eval (PDict items)) = Ok (PDict working) ->
  (format_query_from_strat_name json_loads literal_eval x = "No filters defined"
   <-> (dict_lookup "filters" working = None
        \/ (exists v, dict_lookup "filters" working = Some v /\ is_list v = false)
        \/ dict_lookup "filters" working = Some (PList [])))
  /\ (forall e entries,
        dict_lookup "filters" working = Some (PList (e :: entries)) ->
        format_query_from_strat_name json_loads literal_eval x
        = outcome_text
            (bind_result (render_filters (e :: entries) [])
               (fun formatted => match formatted with
                                 | [] => Ok "No valid filters found"
                                 | _ => Ok (join_clauses formatted)
                                 end))).
Proof.
  intros Hx Hparse Hw.
  rewrite (format_query_on_mapping x items working Hx Hparse Hw).
  split; [| intros e entries Hf; now rewrite (format_filters_on_list _ _ _ Hf)].
  split.
  - destruct (dict_lookup "filters" working) as [v |] eqn:Hf; [| auto].
    destruct v as [ | | | | | [| e entries] | | ];
      try (intros _; right; left; eexists; split; reflexivity); auto.
    rewrite (format_filters_on_list _ _ _ Hf).
    destruct (render_filters (e :: entries) []) as [[| c cs] | err] eqn:Hrun;
      cbn [bind_result outcome_text]; try discriminate.
    intros H. apply (f_equal has_Y) in H.
    rewrite join_clauses_has_Y in H; [discriminate H |].
    pose proof (render_filters_has_Y _ _ _ Hrun (Forall_nil _)) as Hall.
    now inversion Hall.
  - intros H. rewrite format_filters_no_list; [reflexivity |].
    destruct H as [-> | [(v & -> & Hv) | ->]]; try exact I.
    destruct v; try exact I. discriminate Hv.
Qed.

(** C10: when one entry of the [filters] list is a mapping whose selected
    [Data] is truthy and no mapping, or whose selected [param] is truthy and
    no mapping, the loop raises and the whole call returns the "Query
    parsing error" text of the exception; no clause is returned, the ones
    rendered before that entry included.  The exception is the attribute
    error of [.get] on the value that is no mapping, unless an entry before
    it holds an integer too long to convert, whose error then comes
    first. *)
Theorem c10_bad_entry_aborts_all_clauses
  (x : pyval) (items working : list (pyval * pyval)) (entries : list pyval) :
  truthy x = true ->
  snd (parse_descriptor json_loads literal_eval x) = Ok (PDict items) ->
  snd (unwrap_query json_loads literal_eval (PDict items)) = Ok (PDict working) ->
  dict_lookup "filters" working = Some (PList entries) ->
  Exists (fun e => bad_entry e = true) entries ->
  (exists e,
     render_filters entries [] = Raise e
     /\ format_query_from_strat_name json_loads literal_eval x
        = "Query parsing error: " ++ exn_str e
     /\ ((e = int_too_long /\ Exists (fun e => long_int_entry e = true) entries)
         \/ exists other, truthy other = true /\ is_dict other = false
                          /\ e = no_get_attribute other))
  /\ (Forall (fun e => long_int_entry e = false) entries ->
      exists other,
        truthy other = true /\ is_dict other = false /\
        format_query_from_strat_name json_loads literal_eval x
        = "Query parsing error: '" ++ type_name other ++ "' object has no attribute 'get'").
Proof.
  intros Hx Hparse Hw Hf Hbad.
  destruct (render_filters_bad entries [] Hbad) as (e & Hrun & Hkind).
  assert (Hout : format_query_from_strat_name json_loads literal_eval x
                 = "Query parsing error: " ++ exn_str e).
  { rewrite (format_query_on_mapping x items working Hx Hparse Hw).
    destruct entries as [| item entries]; [inversion Hbad |].
    rewrite (format_filters_on_list _ _ _ Hf), Hrun. reflexivity. }
  split; [exists e; auto |].
  intros Hshort. destruct Hkind as [[_ Hlong] | (other & Ht & Hd & ->)].
  - exfalso. apply Exists_exists in Hlong as (item & Hin & Hitem).
    rewrite Forall_forall in Hshort. specialize (Hshort item Hin). congruence.
  - exists other. split; [exact Ht |]. split; [exact Hd |]. exact Hout.
Qed.

(** C2, amended: every non-empty text that strict JSON parsing maps to the
    mapping of the round-trip property formats to "ROE 5 Years > 0.15": the
    clause is "ROE 5 Years > 0.15 AND" and line 147 strips its trailing
    connector. *)
Theorem c2_roundtrip_strips_connector (text : string) :
  text <> EmptyString ->
  json_loads (PStr text) = Ok (PDict Examples.roe_mapping) ->
  render_filters Examples.roe_entries [] = Ok ["ROE 5 Years > 0.15 AND"]
  /\ format_query_from_strat_name json_loads literal_eval (PStr text)
     = "ROE 5 Years > 0.15".
Proof.
  intros Hne Hjson. split; [reflexivity |].
  assert (Hx : truthy (PStr text) = true).
  { cbn. destruct (String.eqb_spec text EmptyString); [contradiction | reflexivity]. }
  rewrite (format_query_on_mapping (PStr text) Examples.roe_mapping Examples.roe_mapping Hx).
  - reflexivity.
  - rewrite parse_descriptor_value, Hjson. reflexivity.
  - rewrite unwrap_query_value. reflexivity.
Qed.

End FormatterFacts.

(** ** The sign table *)

Lemma sign_map_get_none (key : string) :
  ~ In key ["gt"; "gte"; "lt"; "lte"; "eq"; "ne"] -> sign_map_get key sign_map = None.
Proof.
  intros H. unfold sign_map. cbn [sign_map_get].
  repeat match goal with
         | |- context [String.eqb ?k key] =>
             destruct (String.eqb_spec k key) as [Heq | _];
             [exfalso; apply H; rewrite <- Heq; cbn; tauto |]
         end.
  reflexivity.
Qed.

(** C8: the token that line 129 selects for a mapping entry ([sign], else
    [op]) is looked up in lower case in the table gt, gte, lt, lte, eq, ne,
    so the lookup ignores its case, and the symbol found, or the token as it
    stands and in its own case when its lower-case form is no key of the
    table, is what the loop body puts in the symbol position of the clause
    it renders for the entry; a descriptor whose only filter is that entry
    formats to that clause, passed through the final strip of line 147. *)
Theorem c8_sign_table_lookup
  (json_loads literal_eval : pyval -> result pyval)
  (token : string) (entry data param : list (pyval * pyval)) :
  entry_data entry = PDict data ->
  data_param data = PDict param ->
  token <> EmptyString ->
  dict_lookup "sign" data = Some (PStr token)
  \/ (truthy (dict_get data "sign" PNone) = false
      /\ dict_lookup "op" data = Some (PStr token)) ->
  forallb converts [dict_get data "threshold" PNone; param_name param;
                    dict_get data "period" (PInt 1)] = true ->
  exists symbol operator_part,
    ((Text.lower token = "gt" -> symbol = ">") /\
     (Text.lower token = "gte" -> symbol = ">=") /\
     (Text.lower token = "lt" -> symbol = "<") /\
     (Text.lower token = "lte" -> symbol = "<=") /\
     (Text.lower token = "eq" -> symbol = "=") /\
     (Text.lower token = "ne" -> symbol = "!=") /\
     (~ In (Text.lower token) ["gt"; "gte"; "lt"; "lte"; "eq"; "ne"] -> symbol = token))
    /\ (operator_part = EmptyString
        \/ exists op, entry_operator entry = PStr op
                      /\ operator_part = " " ++ Text.strip op)
    /\ (let clause :=
          Text.strip (str_text (param_name param) ++ " "
                      ++ str_text (dict_get data "period" (PInt 1)) ++ " Years "
                      ++ symbol ++ " " ++ threshold_text (dict_get data "threshold" PNone))
          ++ operator_part in
        render_filter (PDict entry) = Ok (Some clause)
        /\ forall x items working,
             truthy x = true ->
             snd (parse_descriptor json_loads literal_eval x) = Ok (PDict items) ->
             snd (unwrap_query json_loads literal_eval (PDict items)) = Ok (PDict working) ->
             dict_lookup "filters" working = Some (PList [PDict entry]) ->
             format_query_from_strat_name json_loads literal_eval x = join_clauses [clause]).
Proof.
  intros Hdata Hparam Hne Hsel Hconv.
  assert (Hsign : data_sign data = PStr token).
  { assert (Htruthy : truthy (PStr token) = true).
    { cbn. destruct (String.eqb_spec token EmptyString); [contradiction | reflexivity]. }
    unfold data_sign, py_or, dict_get in *.
    destruct Hsel as [-> | [Hs ->]]; [now rewrite Htruthy |].
    now rewrite Hs, Htruthy. }
  assert (Hrender : render_filter (PDict entry) = Ok (Some (entry_clause entry data param))).
  { rewrite render_filter_dict, Hdata, Hparam. unfold rendered_values.
    rewrite Hsign. cbn [forallb] in *. cbn [converts andb].
    apply andb_true_iff in Hconv as [Ht Hconv]. rewrite Ht, Hconv. reflexivity. }
  exists (str_text (sign_symbol (PStr token))).
  assert (Hclause : exists operator_part,
             (operator_part = EmptyString
              \/ exists op, entry_operator entry = PStr op
                            /\ operator_part = " " ++ Text.strip op)
             /\ entry_clause entry data param
                = Text.strip (str_text (param_name param) ++ " "
                              ++ str_text (dict_get data "period" (PInt 1)) ++ " Years "
                              ++ str_text (sign_symbol (PStr token)) ++ " "
                              ++ threshold_text (dict_get data "threshold" PNone))
                  ++ operator_part).
  { unfold entry_clause. rewrite Hsign. unfold clause_text.
    destruct (entry_operator entry) as [ | | | | op | | | ];
      try (exists EmptyString; rewrite append_empty_r; split; [left |]; reflexivity).
    destruct (truthy (PStr op) && truthy (PStr (Text.strip op))).
    - exists (" " ++ Text.strip op). split; [right; exists op; split |]; reflexivity.
    - exists EmptyString. rewrite append_empty_r. split; [left |]; reflexivity. }
  destruct Hclause as (operator_part & Hpart & Hclause). exists operator_part.
  split; [| split; [exact Hpart |]].
  - unfold sign_symbol. cbn [str_text].
    repeat split; try (intros ->; reflexivity).
    intros H. now rewrite (sign_map_get_none _ H).
  - cbv zeta. rewrite <- Hclause. split; [exact Hrender |].
    intros x items working Hx Hparse Hw Hf.
    rewrite (format_query_on_mapping json_loads literal_eval x items working Hx Hparse Hw).
    rewrite (format_filters_on_list _ _ _ Hf). cbn [render_filters].
    rewrite Hrender. reflexivity.
Qed.

(** ** Closed examples on the reference parsers *)

Import Examples.

(** Every library call of the examples is on a text the reference model
    covers. *)
Example reference_covers_examples :
  forallb (fun text => forallb Reference.covered (calls_ref (PStr text))) all_texts = true.
Proof. vm_compute. reflexivity. Qed.

Example reference_reads_examples :
  Reference.json_loads (PStr roe_text) = Ok (PDict roe_mapping) /\
  Reference.json_loads (PStr mixed_text) = Ok (PDict mixed_mapping) /\
  Reference.json_loads (PStr nested_text) = Ok (PDict nested_outer) /\
  Reference.json_loads (PStr nested_inner_text) = Ok (PDict nested_inner) /\
  Reference.literal_eval (PStr tuple_text) = Ok (PDict tuple_mapping).
Proof. repeat split; vm_compute; reflexivity. Qed.

(** The outputs that section 8 of the specification lists for the sentinel
    paths, the unknown sign token and the literal-syntax fallback. *)
Example specification_examples :
  format_ref (PStr empty_filters_text) = "No filters defined"
  /\ format_ref (PStr no_mapping_text) = "No valid filters found"
  /\ format_ref (PStr approx_text) = "ROE 1 Years approx 3"
  /\ format_ref (PStr literal_none_text) = "ROE 1 Years >= None"
  /\ format_ref (PStr EmptyString) = "No query available"
  /\ format_ref PNone = "No query available".
Proof. repeat split; vm_compute; reflexivity. Qed.

(** The trailing-connector example of the specification. *)
Example trailing_connector_example :
  format_ref (PStr two_filters_text) = "ROE 1 Years > 0.1 AND PE 1 Years < 20" /\
  join_clauses ["ROE 1 Years > 0.1 AND"; "PE 1 Years < 20 AND"]
  = Spec.join_clauses ["ROE 1 Years > 0.1 AND"; "PE 1 Years < 20 AND"].
Proof. split; vm_compute; reflexivity. Qed.

(** C1: the joined clauses of the NAND descriptor end in the literal "AND";
    removing that suffix alone leaves "ROE 1 Years > 0.1 N", while line 147
    removes every trailing A, N and D and returns "ROE 1 Years > 0.1". *)
Theorem c1_rstrip_removes_characters_not_suffix :
  Reference.json_loads (PStr nand_text) = Ok (PDict [(PStr "filters", PList nand_entries)])
  /\ render_filters nand_entries [] = Ok [nand_clause]
  /\ Text.ends_with "AND" (Text.rstrip (Text.join " " [nand_clause])) = true
  /\ Spec.join_clauses [nand_clause] = "ROE 1 Years > 0.1 N"
  /\ join_clauses [nand_clause] = "ROE 1 Years > 0.1"
  /\ format_ref (PStr nand_text) = "ROE 1 Years > 0.1".
Proof. repeat split; vm_compute; reflexivity. Qed.

(** C2, as stated, fails: the round-trip descriptor does not format to a
    text that keeps the connector. *)
Lemma c2_roundtrip_counterexample :
  Reference.json_loads (PStr roe_text) = Ok (PDict roe_mapping)
  /\ format_ref (PStr roe_text) <> "ROE 5 Years > 0.15 AND".
Proof. split; [vm_compute; reflexivity | vm_compute; discriminate]. Qed.

Lemma c2_roundtrip_witness :
  roe_text <> EmptyString
  /\ Reference.json_loads (PStr roe_text) = Ok (PDict roe_mapping)
  /\ render_filters roe_entries [] = Ok ["ROE 5 Years > 0.15 AND"]
  /\ format_ref (PStr roe_text) = "ROE 5 Years > 0.15".
Proof.
  assert (Hne : roe_text <> EmptyString) by discriminate.
  assert (Hjson : Reference.json_loads (PStr roe_text) = Ok (PDict roe_mapping))
    by (vm_compute; reflexivity).
  split; [exact Hne |]. split; [exact Hjson |].
  exact (c2_roundtrip_strips_connector Reference.json_loads Reference.literal_eval
           roe_text Hne Hjson).
Defined.

(** C3, as stated, fails: on a text that every parse attempt rejects, the
    exceptions of the parsers do not reach the "Query parsing error" form;
    the output is "Invalid query format". *)
Lemma c3_parse_fault_counterexample :
  Reference.json_loads (PStr unquoted_key_text) = Raise Reference.parse_error
  /\ Reference.literal_eval (PStr unquoted_key_text) = Raise Reference.parse_error
  /\ format_ref (PStr unquoted_key_text) = "Invalid query format"
  /\ ~ (exists message, format_ref (PStr unquoted_key_text) = "Query parsing error: " ++ message).
Proof.
  split; [vm_compute; reflexivity |].
  split; [vm_compute; reflexivity |].
  split; [vm_compute; reflexivity |].
  intros [message H]. vm_compute in H. discriminate H.
Qed.

Lemma c3_output_witness :
  format_ref (PStr unquoted_key_text) = "Invalid query format"
  /\ format_ref (PStr text_data_text)
     = "Query parsing error: 'str' object has no attribute 'get'".
Proof.
  split.
  - destruct (c3_output_is_query_or_sentinel Reference.json_loads Reference.literal_eval
                (PStr unquoted_key_text)) as [[H _] | [(v & _ & _ & H) | _]];
      [discriminate H | exact H | vm_compute; reflexivity].
  - vm_compute. reflexivity.
Defined.

Lemma c4_coerce_witness :
  roe_text <> EmptyString
  /\ Reference.json_loads (PStr roe_text) = Ok (PDict roe_mapping)
  /\ _coerce_to_dict Reference.json_loads Reference.literal_eval (PStr roe_text)
     = ([JsonLoads (PStr roe_text)], Ok (PDict roe_mapping)).
Proof.
  assert (Hne : roe_text <> EmptyString) by discriminate.
  assert (Hjson : Reference.json_loads (PStr roe_text) = Ok (PDict roe_mapping))
    by (vm_compute; reflexivity).
  split; [exact Hne |]. split; [exact Hjson |].
  exact (proj2 (proj2 (c4_coerce_strict_parse_first Reference.json_loads
                         Reference.literal_eval roe_text Hne)) roe_mapping Hjson).
Defined.

Lemma c5_nested_query_witness :
  truthy (PStr nested_text) = true
  /\ snd (parse_descriptor Reference.json_loads Reference.literal_eval (PStr nested_text))
     = Ok (PDict nested_outer)
  /\ dict_lookup "query" nested_outer = Some (PStr nested_inner_text)
  /\ snd (_coerce_to_dict Reference.json_loads Reference.literal_eval (PStr nested_inner_text))
     = Ok (PDict nested_inner)
  /\ format_ref (PStr nested_text) = outcome_text (format_filters (PDict nested_inner))
  /\ outcome_text (format_filters (PDict nested_inner)) = "PE 1 Years < 1,2".
Proof.
  assert (Hx : truthy (PStr nested_text) = true) by reflexivity.
  assert (Hparse : snd (parse_descriptor Reference.json_loads Reference.literal_eval
                          (PStr nested_text)) = Ok (PDict nested_outer))
    by (vm_compute; reflexivity).
  split; [exact Hx |]. split; [exact Hparse |]. split; [reflexivity |].
  split; [vm_compute; reflexivity |]. split; [| vm_compute; reflexivity].
  unfold format_ref.
  rewrite (c5_query_key_unwrapped_once Reference.json_loads Reference.literal_eval
             (PStr nested_text) nested_outer Hx Hparse).
  vm_compute. reflexivity.
Defined.

(** C6, as stated, fails: the only entry of the list is a mapping, yet no
    clause is rendered for it and the output is the error text. *)
Lemma c6_mapping_entry_counterexample :
  Reference.json_loads (PStr text_data_text) = Ok (PDict text_data_mapping)
  /\ filter is_dict text_data_entries = text_data_entries
  /\ format_ref (PStr text_data_text)
     = "Query parsing error: 'str' object has no attribute 'get'"
  /\ ~ (exists clauses,
          Forall2 (fun e c => render_filter e = Ok (Some c))
                  (filter is_dict text_data_entries) clauses
          /\ format_ref (PStr text_data_text) = join_clauses clauses).
Proof.
  split; [vm_compute; reflexivity |].
  split; [reflexivity |].
  split; [vm_compute; reflexivity |].
  intros (clauses & Hall & _). inversion Hall as [| e c es cs Hhead _]; subst.
  vm_compute in Hhead. discriminate Hhead.
Qed.

Lemma c6_mixed_entries_witness :
  truthy (PStr mixed_text) = true
  /\ snd (parse_descriptor Reference.json_loads Reference.literal_eval (PStr mixed_text))
     = Ok (PDict mixed_mapping)
  /\ snd (unwrap_query Reference.json_loads Reference.literal_eval (PDict mixed_mapping))
     = Ok (PDict mixed_mapping)
  /\ dict_lookup "filters" mixed_mapping = Some (PList mixed_entries)
  /\ mixed_entries <> []
  /\ Forall (fun e => bad_entry e = false) mixed_entries
  /\ Forall (fun e => long_int_entry e = false) mixed_entries
  /\ exists clauses,
       Forall2 (fun e c => render_filter e = Ok (Some c)) (filter is_dict mixed_entries) clauses
       /\ length clauses = length (filter is_dict mixed_entries)
       /\ format_ref (PStr mixed_text)
          = match clauses with
            | [] => "No valid filters found"
            | _ => join_clauses clauses
            end.
Proof.
  assert (Hx : truthy (PStr mixed_text) = true) by reflexivity.
  assert (Hparse : snd (parse_descriptor Reference.json_loads Reference.literal_eval
                          (PStr mixed_text)) = Ok (PDict mixed_mapping))
    by (vm_compute; reflexivity).
  assert (Hw : snd (unwrap_query Reference.json_loads Reference.literal_eval
                      (PDict mixed_mapping)) = Ok (PDict mixed_mapping))
    by reflexivity.
  assert (Hf : dict_lookup "filters" mixed_mapping = Some (PList mixed_entries))
    by reflexivity.
  assert (Hne : mixed_entries <> []) by discriminate.
  assert (Hgood : Forall (fun e => bad_entry e = false) mixed_entries)
    by (repeat constructor).
  assert (Hshort : Forall (fun e => long_int_entry e = false) mixed_entries)
    by (repeat constructor).
  repeat (split; [assumption |]).
  exact (proj1 (c6_one_clause_per_mapping_entry Reference.json_loads Reference.literal_eval
                  (PStr mixed_text) mixed_mapping mixed_mapping mixed_entries
                  Hx Hparse Hw Hf Hne Hgood) Hshort).
Defined.

(** C7, as stated, fails: the [filters] value is a tuple of one entry, a
    non-empty sequence, and the output is "No filters defined". *)
Lemma c7_tuple_counterexample :
  snd (parse_descriptor Reference.json_loads Reference.literal_eval (PStr tuple_text))
  = Ok (PDict tuple_mapping)
  /\ dict_lookup "filters" tuple_mapping = Some (PTuple [tuple_entry])
  /\ Spec.is_sequence (PTuple [tuple_entry]) = true
  /\ Spec.sequence_items (PTuple [tuple_entry]) = [tuple_entry]
  /\ format_ref (PStr tuple_text) = "No filters defined"
  /\ ~ (format_ref (PStr tuple_text) = "No filters defined" ->
        dict_lookup "filters" tuple_mapping = None
        \/ (exists v, dict_lookup "filters" tuple_mapping = Some v
                      /\ Spec.is_sequence v = false)
        \/ (exists v, dict_lookup "filters" tuple_mapping = Some v
                      /\ Spec.sequence_items v = [])).
Proof.
  split; [vm_compute; reflexivity |].
  split; [reflexivity |].
  split; [reflexivity |].
  split; [reflexivity |].
  split; [vm_compute; reflexivity |].
  intros H. destruct H as [H | [(v & H & Hv) | (v & H & Hv)]];
    [vm_compute; reflexivity | discriminate H | |];
    cbn in H; injection H as <-; discriminate Hv.
Qed.

Lemma c7_empty_list_witness :
  truthy (PStr empty_filters_text) = true
  /\ snd (parse_descriptor Reference.json_loads Reference.literal_eval (PStr empty_filters_text))
     = Ok (PDict empty_filters_mapping)
  /\ snd (unwrap_query Reference.json_loads Reference.literal_eval (PDict empty_filters_mapping))
     = Ok (PDict empty_filters_mapping)
  /\ format_ref (PStr empty_filters_text) = "No filters defined".
Proof.
  assert (Hx : truthy (PStr empty_filters_text) = true) by reflexivity.
  assert (Hparse : snd (parse_descriptor Reference.json_loads Reference.literal_eval
                          (PStr empty_filters_text)) = Ok (PDict empty_filters_mapping))
    by (vm_compute; reflexivity).
  assert (Hw : snd (unwrap_query Reference.json_loads Reference.literal_eval
                      (PDict empty_filters_mapping)) = Ok (PDict empty_filters_mapping))
    by reflexivity.
  repeat (split; [assumption |]).
  apply (proj2 (proj1 (c7_no_filters_defined_iff Reference.json_loads Reference.literal_eval
                         (PStr empty_filters_text) empty_filters_mapping
                         empty_filters_mapping Hx Hparse Hw))).
  right. right. reflexivity.
Defined.

Lemma c8_sign_table_witness :
  entry_data MoreExamples.approx_entry = PDict MoreExamples.approx_data
  /\ data_param MoreExamples.approx_data = PDict MoreExamples.approx_param
  /\ dict_lookup "sign" MoreExamples.approx_data = Some (PStr "approx")
  /\ snd (parse_descriptor Reference.json_loads Reference.literal_eval (PStr approx_text))
     = Ok (PDict MoreExamples.approx_mapping)
  /\ render_filter (PDict MoreExamples.approx_entry) = Ok (Some "ROE 1 Years approx 3")
  /\ format_ref (PStr approx_text) = "ROE 1 Years approx 3".
Proof.
  assert (Hparse : snd (parse_descriptor Reference.json_loads Reference.literal_eval
                          (PStr approx_text)) = Ok (PDict MoreExamples.approx_mapping))
    by (vm_compute; reflexivity).
  assert (Htoken : "approx" <> EmptyString) by discriminate.
  destruct (c8_sign_table_lookup Reference.json_loads Reference.literal_eval
              "approx" MoreExamples.approx_entry MoreExamples.approx_data MoreExamples.approx_param
              eq_refl eq_refl Htoken (or_introl eq_refl) eq_refl)
    as (symbol & operator_part & Hsymbol & _ & Hrender & Hformat).
  assert (Hplain : symbol = "approx").
  { apply Hsymbol. cbn. intros H. repeat (destruct H as [H | H]; [discriminate H |]). exact H. }
  subst symbol.
  assert (Hpart : operator_part = EmptyString).
  { assert (Hrun : render_filter (PDict MoreExamples.approx_entry) = Ok (Some "ROE 1 Years approx 3"))
      by reflexivity.
    rewrite Hrun in Hrender. injection Hrender as Hrender.
    change (Text.strip _) with "ROE 1 Years approx 3" in Hrender.
    destruct operator_part as [| c rest]; [reflexivity |].
    apply (f_equal String.length) in Hrender. cbn in Hrender. lia. }
  subst operator_part.
  split; [reflexivity |]. split; [reflexivity |]. split; [reflexivity |].
  split; [exact Hparse |]. split; [exact Hrender |].
  exact (Hformat (PStr approx_text) MoreExamples.approx_mapping MoreExamples.approx_mapping eq_refl Hparse
                 eq_refl eq_refl).
Defined.

(** C9, as stated, fails: a truthy input that is no text is handed to the
    strict parser and ends in "Invalid query format". *)
Lemma c9_truthy_non_text_counterexample :
  is_str (PInt 5) = false
  /\ calls_ref (PInt 5) = [JsonLoads (PInt 5)]
  /\ format_ref (PInt 5) = "Invalid query format"
  /\ format_ref (PInt 5) <> "No query available".
Proof.
  split; [reflexivity |].
  split; [vm_compute; reflexivity |].
  split; [vm_compute; reflexivity |].
  vm_compute. discriminate.
Qed.

Lemma c9_falsy_input_witness :
  truthy PNone = false
  /\ format_ref PNone = "No query available" /\ calls_ref PNone = []
  /\ format_ref (PStr EmptyString) = "No query available" /\ calls_ref (PStr EmptyString) = [].
Proof.
  split; [reflexivity |].
  pose proof (proj1 (c9_falsy_input_no_query Reference.json_loads Reference.literal_eval
                       PNone) eq_refl) as [H1 H2].
  pose proof (proj1 (c9_falsy_input_no_query Reference.json_loads Reference.literal_eval
                       (PStr EmptyString)) eq_refl) as [H3 H4].
  repeat split; assumption.
Defined.

Lemma c10_text_param_witness :
  truthy (PStr text_param_text) = true
  /\ snd (parse_descriptor Reference.json_loads Reference.literal_eval (PStr text_param_text))
     = Ok (PDict text_param_mapping)
  /\ snd (unwrap_query Reference.json_loads Reference.literal_eval (PDict text_param_mapping))
     = Ok (PDict text_param_mapping)
  /\ dict_lookup "filters" text_param_mapping = Some (PList text_param_entries)
  /\ Exists (fun e => bad_entry e = true) text_param_entries
  /\ Forall (fun e => long_int_entry e = false) text_param_entries
  /\ exists other,
       truthy other = true /\ is_dict other = false /\
       format_ref (PStr text_param_text)
       = "Query parsing error: '" ++ type_name other ++ "' object has no attribute 'get'".
Proof.
  assert (Hx : truthy (PStr text_param_text) = true) by reflexivity.
  assert (Hparse : snd (parse_descriptor Reference.json_loads Reference.literal_eval
                          (PStr text_param_text)) = Ok (PDict text_param_mapping))
    by (vm_compute; reflexivity).
  assert (Hw : snd (unwrap_query Reference.json_loads Reference.literal_eval
                      (PDict text_param_mapping)) = Ok (PDict text_param_mapping))
    by reflexivity.
  assert (Hf : dict_lookup "filters" text_param_mapping = Some (PList text_param_entries))
    by reflexivity.
  assert (Hbad : Exists (fun e => bad_entry e = true) text_param_entries)
    by (apply Exists_cons_tl, Exists_cons_hd; reflexivity).
  assert (Hshort : Forall (fun e => long_int_entry e = false) text_param_entries)
    by (repeat constructor).
  repeat (split; [assumption |]).
  exact (proj2 (c10_bad_entry_aborts_all_clauses Reference.json_loads Reference.literal_eval
                  (PStr text_param_text) text_param_mapping text_param_mapping
                  text_param_entries Hx Hparse Hw Hf Hbad) Hshort).
Defined.

(** The reference parsers decide texts whose brackets nest to
    [max_nesting] at most. *)
Example nesting_covered :
  Reference.literal_eval (PStr (MoreExamples.nest 100 "1")) = Ok (PInt 1)
  /\ Reference.covered (LiteralEval (PStr (MoreExamples.nest 101 "1"))) = false
  /\ Reference.covered (JsonLoads (PStr (MoreExamples.nest 101 "1"))) = true.
Proof.
  split; [vm_compute; reflexivity |]. split; vm_compute; reflexivity.
Qed.

(** An entry with an integer of more than 4300 digits stops the loop before
    the bad entry behind it is reached. *)
Example long_int_comes_first :
  converts (PInt MoreExamples.long_int) = false
  /\ long_int_entry (hd PNone MoreExamples.long_int_entries) = true
  /\ Exists (fun e => bad_entry e = true) MoreExamples.long_int_entries
  /\ outcome_text (format_filters (PDict [(PStr "filters",
                                           PList MoreExamples.long_int_entries)]))
     = "Query parsing error: " ++ exn_str int_too_long.
Proof.
  split; [vm_compute; reflexivity |]. split; [vm_compute; reflexivity |].
  split; [apply Exists_cons_tl, Exists_cons_hd; reflexivity |].
  vm_compute. reflexivity.
Qed.

(** * Further properties of the formatter *)

(** ** What stripping removes and what it leaves *)

Section StripFacts.
Import Text Ends.

Lemma all_chars_app (p : ascii -> bool) (s t : string) :
  all_chars p (s ++ t) = all_chars p s && all_chars p t.
Proof.
  induction s as [| c s IH]; simpl; [reflexivity |].
  rewrite IH. apply andb_assoc.
Qed.

Lemma all_chars_weaken (p q : ascii -> bool) (s : string) :
  (forall c, p c = true -> q c = true) -> all_chars p s = true -> all_chars q s = true.
Proof.
  intros Hpq. induction s as [| c s IH]; simpl; [trivial |].
  intros H. apply andb_true_iff in H as [Hc Hs].
  rewrite (Hpq c Hc), (IH Hs). reflexivity.
Qed.

(** [rstrip] returns an initial part of its argument, and what it leaves
    out holds stripped characters only. *)
Lemma rstrip_by_split (p : ascii -> bool) (s : string) :
  exists removed,
    s = (rstrip_by p s ++ removed)%string /\ all_chars p removed = true.
Proof.
  induction s as [| c s (removed & Hs & Hall)].
  - exists EmptyString. split; reflexivity.
  - cbn [rstrip_by]. destruct (rstrip_by p s) as [| d kept] eqn:Hkept.
    + destruct (p c) eqn:Hc.
      * exists (String c removed). cbn [append all_chars].
        rewrite Hc, Hall. split; [now rewrite Hs at 1 | reflexivity].
      * exists removed. cbn [append]. split; [now rewrite Hs at 1 | exact Hall].
    + exists removed. cbn [append] in *. split; [now rewrite Hs at 1 | exact Hall].
Qed.

Lemma rstrip_by_last (p : ascii -> bool) (s : string) (c : ascii) :
  last_char (rstrip_by p s) = Some c -> p c = false.
Proof.
  revert c. induction s as [| d s IH]; intros c; cbn [rstrip_by]; [discriminate |].
  destruct (rstrip_by p s) as [| e kept] eqn:Hkept.
  - destruct (p d) eqn:Hd; [discriminate |].
    cbn. intros H. now injection H as <-.
  - change (last_char (String d (String e kept))) with (last_char (String e kept)).
    apply IH.
Qed.

Lemma lstrip_by_first (p : ascii -> bool) (s : string) (c : ascii) :
  first_char (lstrip_by p s) = Some c -> p c = false.
Proof.
  induction s as [| d s IH]; cbn [lstrip_by]; [discriminate |].
  destruct (p d) eqn:Hd; [exact IH |].
  cbn. intros H. now injection H as <-.
Qed.

Lemma lstrip_by_last (p : ascii -> bool) (s : string) (c : ascii) :
  last_char s = Some c -> p c = false -> last_char (lstrip_by p s) = Some c.
Proof.
  intros Hlast Hc. induction s as [| d s IH]; [discriminate |].
  cbn [lstrip_by]. destruct (p d) eqn:Hd; [| exact Hlast].
  apply IH. destruct s as [| e s]; [| exact Hlast].
  cbn in Hlast. injection Hlast as ->. congruence.
Qed.

Lemma first_char_app (s t : string) (c : ascii) :
  first_char s = Some c -> first_char (s ++ t) = Some c.
Proof. destruct s; [discriminate | trivial]. Qed.

Lemma last_char_app (s t : string) :
  t <> EmptyString -> last_char (s ++ t) = last_char t.
Proof.
  intros Ht. induction s as [| c s IH]; [reflexivity |].
  cbn [append]. destruct (s ++ t)%string eqn:Happ.
  - destruct s; [now destruct Ht | discriminate].
  - exact IH.
Qed.

Lemma has_char_nonempty (c : ascii) (s : string) :
  has_char c s = true -> s <> EmptyString.
Proof. destruct s; [discriminate | discriminate]. Qed.

(** Stripping a text that holds an unstrippable character keeps its first
    character. *)
Lemma rstrip_by_first (p : ascii -> bool) (s : string) (c k : ascii) :
  p k = false -> has_char k s = true ->
  first_char s = Some c -> first_char (rstrip_by p s) = Some c.
Proof.
  intros Hk Hhas Hfirst.
  pose proof (has_char_rstrip_by p k s Hk Hhas) as Hkept.
  destruct (rstrip_by_split p s) as (removed & Hs & _).
  destruct (rstrip_by p s) as [| d kept]; [discriminate |].
  rewrite Hs in Hfirst. exact Hfirst.
Qed.

End StripFacts.

Section FinalStripFacts.
Import Text Ends.

Lemma rstrip_by_fixed (p : ascii -> bool) (s : string) (c : ascii) :
  last_char s = Some c -> p c = false -> rstrip_by p s = s.
Proof.
  intros Hlast Hc. induction s as [| d s IH]; [reflexivity |].
  cbn [rstrip_by]. destruct s as [| e s].
  - cbn in *. injection Hlast as ->. now rewrite Hc.
  - rewrite (IH Hlast). reflexivity.
Qed.

Lemma strippable_space (c : ascii) : strippable c = false -> is_space c = false.
Proof. unfold strippable. intros H. now apply orb_false_iff in H. Qed.

Lemma strippable_letter (c : ascii) : strippable c = false -> mem c "AND" = false.
Proof. unfold strippable. intros H. now apply orb_false_iff in H. Qed.

(** X1: line 147 only ever shortens the joined clauses from the right, and
    what it removes is white space and the letters A, N, D; its result
    never ends in white space; and it changes nothing when the joined
    clauses end in any other character. *)
Theorem join_clauses_only_trims_right (clauses : list string) :
  (exists removed,
     join " " clauses = (join_clauses clauses ++ removed)%string
     /\ all_chars strippable removed = true)
  /\ (forall c, last_char (join_clauses clauses) = Some c -> is_space c = false)
  /\ (forall c, last_char (join " " clauses) = Some c -> strippable c = false ->
                join_clauses clauses = join " " clauses).
Proof.
  unfold join_clauses, rstrip, rstrip_chars.
  set (joined := join " " clauses).
  split; [| split].
  - destruct (rstrip_by_split is_space joined) as (r1 & H1 & A1).
    destruct (rstrip_by_split (fun c => mem c "AND") (rstrip_by is_space joined))
      as (r2 & H2 & A2).
    destruct (rstrip_by_split is_space
                (rstrip_by (fun c => mem c "AND") (rstrip_by is_space joined)))
      as (r3 & H3 & A3).
    exists (r3 ++ r2 ++ r1)%string. split.
    + rewrite <- !append_assoc, <- H3, <- H2, <- H1. reflexivity.
    + assert (S1 : forall c, is_space c = true -> strippable c = true)
        by (intros c Hc; unfold strippable; now rewrite Hc).
      assert (S2 : forall c, mem c "AND" = true -> strippable c = true)
        by (intros c Hc; unfold strippable; rewrite Hc; apply orb_true_r).
      rewrite !all_chars_app.
      rewrite (all_chars_weaken _ _ r3 S1 A3), (all_chars_weaken _ _ r2 S2 A2),
        (all_chars_weaken _ _ r1 S1 A1).
      reflexivity.
  - intros c. apply rstrip_by_last.
  - intros c Hlast Hc.
    rewrite (rstrip_by_fixed is_space joined c Hlast (strippable_space c Hc)).
    rewrite (rstrip_by_fixed _ joined c Hlast (strippable_letter c Hc)).
    apply (rstrip_by_fixed is_space joined c Hlast (strippable_space c Hc)).
Qed.

End FinalStripFacts.

(** ** The rendering loop *)

Section LoopFacts.
Import Text Ends.

Lemma render_filters_length (entries : list pyval) (formatted out : list string) :
  render_filters entries formatted = Ok out ->
  length out = (length formatted + length (filter is_dict entries))%nat.
Proof.
  revert formatted. induction entries as [| e entries IH]; intros formatted; simpl.
  - intros H. injection H as <-. lia.
  - destruct e as [ | | | | | | | entry];
      try (rewrite render_filter_skip by reflexivity; cbn [bind_result is_dict];
           apply IH).
    destruct (render_filter (PDict entry)) as [[c |] |] eqn:He; cbn [bind_result];
      try discriminate.
    + intros H. apply IH in H. rewrite H, length_app. cbn. lia.
    + rewrite render_filter_dict in He.
      destruct (entry_data entry) as [ | | | | | | | data]; try discriminate He.
      destruct (data_param data) as [ | | | | | | | param]; try discriminate He.
      destruct (forallb converts (rendered_values data param)); discriminate He.
Qed.

(** The exceptions of the loop: the attribute error of [.get] and the
    error of a conversion to text. *)
Lemma render_filters_raises (entries : list pyval) (formatted : list string) (e : exn) :
  render_filters entries formatted = Raise e ->
  e = int_too_long \/ exists other, e = no_get_attribute other.
Proof.
  revert formatted. induction entries as [| item entries IH]; intros formatted; simpl;
    [discriminate |].
  destruct item as [ | | | | | | | entry];
    try (rewrite render_filter_skip by reflexivity; cbn [bind_result]; apply IH).
  rewrite render_filter_dict.
  destruct (entry_data entry) as [ | | | | | | | data] eqn:Hdata;
    try (cbn [bind_result]; intros H; injection H as <-; right; eexists; reflexivity).
  destruct (data_param data) as [ | | | | | | | param];
    try (cbn [bind_result]; intros H; injection H as <-; right; eexists; reflexivity).
  destruct (forallb converts (rendered_values data param)); cbn [bind_result].
  - apply IH.
  - intros H. injection H as <-. now left.
Qed.

Lemma render_filters_only_mappings (entries : list pyval) (formatted : list string) :
  render_filters entries formatted = render_filters (filter is_dict entries) formatted.
Proof.
  revert formatted. induction entries as [| e entries IH]; intros formatted;
    [reflexivity |].
  destruct e as [ | | | | | | | entry];
    try (cbn [filter is_dict render_filters];
         rewrite render_filter_skip by reflexivity; cbn [bind_result]; apply IH).
  cbn [filter is_dict render_filters].
  destruct (render_filter (PDict entry)) as [[c |] |]; cbn [bind_result];
    try reflexivity; apply IH.
Qed.

(** X2: entries that are no mappings are invisible: as long as one mapping
    entry is left, a [filters] list and the same list without its
    non-mapping entries give the same result, clauses or error alike. *)
Theorem non_mapping_entries_are_invisible
  (working working' : list (pyval * pyval)) (entries : list pyval) :
  dict_lookup "filters" working = Some (PList entries) ->
  dict_lookup "filters" working' = Some (PList (filter is_dict entries)) ->
  filter is_dict entries <> [] ->
  format_filters (PDict working) = format_filters (PDict working').
Proof.
  intros Hf Hf' Hne. unfold format_filters.
  rewrite !py_get_dict. unfold dict_get. rewrite Hf, Hf'.
  destruct entries as [| e entries]; [now destruct Hne |].
  cbn [bind_result length Nat.eqb].
  rewrite (render_filters_only_mappings (e :: entries)).
  destruct (filter is_dict (e :: entries)) as [| e' entries']; [now destruct Hne |].
  reflexivity.
Qed.

(** X3: the loop over a concatenation is the loop over the first list
    followed by the loop over the second: the clauses come out in order,
    and an exception of the first list is the exception of the whole. *)
Theorem render_filters_app (first second : list pyval) (formatted : list string) :
  render_filters (first ++ second) formatted
  = bind_result (render_filters first formatted) (render_filters second).
Proof.
  revert formatted. induction first as [| e first IH]; intros formatted; [reflexivity |].
  cbn [app render_filters].
  destruct (render_filter e) as [[c |] |]; cbn [bind_result]; try reflexivity; apply IH.
Qed.


End LoopFacts.

(** ** The ends of the output *)

Section TrimmedFacts.
Import Text Ends.

Lemma lstrip_by_last_inv (p : ascii -> bool) (s : string) (c : ascii) :
  last_char (lstrip_by p s) = Some c -> last_char s = Some c.
Proof.
  induction s as [| d s IH]; cbn [lstrip_by]; [discriminate |].
  destruct (p d); [| trivial].
  intros H. specialize (IH H). destruct s; [discriminate IH | exact IH].
Qed.

Lemma strip_trimmed (s : string) : trimmed (strip s).
Proof.
  unfold strip. split; intros c H.
  - exact (lstrip_by_first _ _ _ H).
  - apply lstrip_by_last_inv in H. exact (rstrip_by_last _ _ _ H).
Qed.

Lemma clause_text_trimmed (name period sign threshold operator : pyval) :
  trimmed (clause_text name period sign threshold operator).
Proof.
  pose proof (clause_text_has_Y name period sign threshold PNone) as HY.
  unfold clause_text in *. cbv zeta in *.
  set (clause := strip _) in *.
  assert (Hclause : trimmed clause) by apply strip_trimmed.
  destruct operator as [ | | | | op | | | ]; try exact Hclause.
  destruct (truthy (PStr op) && truthy (PStr (strip op))) eqn:Hop; [| exact Hclause].
  apply andb_true_iff in Hop as [_ Hs]. cbn [truthy] in Hs.
  destruct (String.eqb_spec (strip op) EmptyString) as [| Hne]; [discriminate Hs |].
  destruct Hclause as [Hfirst _]. split; intros c H.
  - apply Hfirst. destruct clause; [discriminate HY | exact H].
  - rewrite last_char_app in H by (destruct (strip op); discriminate).
    change (" " ++ strip op)%string with (String " " (strip op)) in H.
    destruct (strip op) as [| d rest] eqn:Hstrip; [now destruct Hne |].
    change (last_char (String " " (String d rest))) with (last_char (String d rest)) in H.
    rewrite <- Hstrip in H. exact (proj2 (strip_trimmed op) c H).
Qed.

Lemma render_filters_forall (P : string -> Prop) (entries : list pyval)
      (formatted out : list string) :
  (forall e c, render_filter e = Ok (Some c) -> P c) ->
  render_filters entries formatted = Ok out -> Forall P formatted -> Forall P out.
Proof.
  intros HP. revert formatted.
  induction entries as [| e entries IH]; intros formatted; simpl.
  - intros H. injection H as <-. trivial.
  - destruct (render_filter e) as [[c |] |] eqn:He; simpl; try discriminate.
    + intros Hrun Hall. apply (IH _ Hrun). apply Forall_app. split; [exact Hall |].
      constructor; [exact (HP _ _ He) | constructor].
    + apply IH.
Qed.

Lemma render_filter_trimmed (e : pyval) (c : string) :
  render_filter e = Ok (Some c) -> trimmed c /\ has_Y c = true.
Proof.
  intros H. split; [| exact (render_filter_has_Y _ _ H)].
  destruct e as [ | | | | | | | entry];
    try (rewrite render_filter_skip in H by reflexivity; discriminate H).
  rewrite render_filter_dict in H.
  destruct (entry_data entry) as [ | | | | | | | data]; try discriminate H.
  destruct (data_param data) as [ | | | | | | | param]; try discriminate H.
  destruct (forallb converts (rendered_values data param)); try discriminate H.
  injection H as <-. apply clause_text_trimmed.
Qed.

Lemma join_clauses_trimmed (first : string) (rest : list string) :
  trimmed first -> has_Y first = true ->
  trimmed (join_clauses (first :: rest)) /\ join_clauses (first :: rest) <> EmptyString.
Proof.
  intros [Hfirst _] HY.
  pose proof (join_clauses_has_Y first rest HY) as Hout.
  split; [| exact (has_char_nonempty _ _ Hout)].
  split; intros c H.
  - assert (Hjoin : first_char (join " " (first :: rest)) = first_char first).
    { destruct first; [discriminate HY |]. destruct rest; reflexivity. }
    assert (HYj : has_char "Y" (join " " (first :: rest)) = true)
      by (apply has_char_join_head; exact HY).
    unfold join_clauses, rstrip, rstrip_chars in H.
    destruct (first_char first) as [k |] eqn:Hk; [| destruct first; discriminate].
    assert (H1 := rstrip_by_first is_space _ k "Y" eq_refl HYj Hjoin).
    assert (HY1 := has_char_rstrip_by is_space "Y" _ eq_refl HYj).
    assert (H2 := rstrip_by_first (fun c => mem c "AND") _ k "Y" eq_refl HY1 H1).
    assert (HY2 := has_char_rstrip_by (fun c => mem c "AND") "Y" _ eq_refl HY1).
    assert (H3 := rstrip_by_first is_space _ k "Y" eq_refl HY2 H2).
    rewrite H3 in H. injection H as <-. apply Hfirst. reflexivity.
  - unfold join_clauses, rstrip in H. exact (rstrip_by_last _ _ _ H).
Qed.

End TrimmedFacts.

(** ** Parsing, for every behaviour of the parsers *)

Section FormatterMore.
Import Ends.

Variable json_loads : pyval -> result pyval.
Variable literal_eval : pyval -> result pyval.

Ltac run_parsers :=
  repeat (cbn;
          match goal with
          | |- context [json_loads ?x] => destruct (json_loads x) as [[]|] eqn:?
          | |- context [literal_eval ?x] => destruct (literal_eval x) as [[]|] eqn:?
          end);
  cbn.

(** X5: the coercion step never raises, whatever the parsers do: it
    returns a dict or [None] after at most five library calls, and for an
    input that is no text or is the empty text it returns [None] without
    any call. *)
Theorem coerce_returns_dict_or_none (x : pyval) :
  exists calls v,
    _coerce_to_dict json_loads literal_eval x = (calls, Ok v)
    /\ (v = PNone \/ is_dict v = true)
    /\ (length calls <= 5)%nat
    /\ (is_str x = false \/ x = PStr EmptyString -> calls = [] /\ v = PNone).
Proof.
  unfold _coerce_to_dict, or_continue, try_except, bind, json_call, literal_call,
    ret, return_if_dict.
  destruct x as [ | | | | s | | | ];
    try (exists [], PNone; cbn [is_str negb]; rewrite orb_true_r; cbn;
         split; [reflexivity |]; split; [auto |];
         split; [lia |]; intros _; split; reflexivity).
  cbn [truthy is_str negb orb str_text].
  destruct (String.eqb_spec s EmptyString) as [-> | Hne].
  - exists [], PNone. cbn. split; [reflexivity |]. split; [auto |].
    split; [lia |]. intros _. split; reflexivity.
  - run_parsers;
      (do 2 eexists; split; [reflexivity |]; split; [auto |]; split; [cbn; lia |];
       intros [H | H]; [discriminate H | injection H as ->; now destruct Hne]).
Qed.

(** X6: a value that the direct strict parse returns is final.  When it
    is no mapping the formatter answers "Invalid query format" after that
    single call; the coercion step, which could unwrap a doubly encoded
    descriptor, is not consulted. *)
Theorem strict_parse_result_is_final (x v : pyval) :
  truthy x = true ->
  json_loads x = Ok v ->
  is_dict v = false ->
  format_query_traced json_loads literal_eval x = ([JsonLoads x], "Invalid query format").
Proof.
  intros Hx Hjson Hv.
  unfold format_query_traced, format_query_body, parse_descriptor, try_except, json_call,
    bind.
  rewrite Hx, Hjson. cbn [negb]. rewrite Hv. reflexivity.
Qed.

(** X7: when the direct strict parse of a non-empty text raises, the
    coercion step parses the same text strictly a second time before it
    turns to the literal parse. *)
Theorem strict_parse_is_retried (s : string) (e : exn) :
  s <> EmptyString ->
  json_loads (PStr s) = Raise e ->
  exists rest,
    library_calls json_loads literal_eval (PStr s)
    = JsonLoads (PStr s) :: JsonLoads (PStr s) :: LiteralEval (PStr s) :: rest.
Proof.
  intros Hne Hjson.
  unfold library_calls, format_query_traced, format_query_body, parse_descriptor.
  assert (Hx : truthy (PStr s) = true).
  { cbn. destruct (String.eqb_spec s EmptyString); [contradiction | reflexivity]. }
  rewrite Hx. cbn [negb].
  assert (Hcoerce : exists rest v,
             _coerce_to_dict json_loads literal_eval (PStr s)
             = (JsonLoads (PStr s) :: LiteralEval (PStr s) :: rest, Ok v)).
  { unfold _coerce_to_dict, or_continue, try_except, bind, json_call, literal_call,
      ret, return_if_dict.
    cbn [truthy is_str negb orb str_text].
    destruct (String.eqb_spec s EmptyString) as [| _]; [contradiction |].
    rewrite Hjson. run_parsers; do 2 eexists; reflexivity. }
  destruct Hcoerce as (rest & v & Hcoerce).
  unfold try_except, json_call. rewrite Hjson, Hcoerce. cbn [app].
  match goal with
  | |- context [bind (?calls, Ok v) ?k] =>
      assert (H : exists rest', fst (bind (calls, Ok v) k)
                                = JsonLoads (PStr s) :: JsonLoads (PStr s)
                                  :: LiteralEval (PStr s) :: rest');
      [| destruct H as [rest' H]; destruct (bind (calls, Ok v) k);
         exists rest'; exact H]
  end.
  rewrite fst_bind. cbn [fst snd app]. eauto.
Qed.

(** X8: on a text whose strict parse is a mapping without a text under
    [query], that parse is the only library call of the whole formatter:
    the literal parser and the quote replacement are never used. *)
Theorem clean_json_single_call (x : pyval) (items : list (pyval * pyval)) :
  truthy x = true ->
  json_loads x = Ok (PDict items) ->
  (forall q, dict_lookup "query" items <> Some (PStr q)) ->
  library_calls json_loads literal_eval x = [JsonLoads x]
  /\ format_query_from_strat_name json_loads literal_eval x
     = outcome_text (format_filters
                       match dict_lookup "query" items with
                       | Some (PDict inner) => PDict inner
                       | _ => PDict items
                       end).
Proof.
  intros Hx Hjson Hq.
  unfold library_calls, format_query_from_strat_name, format_query_traced,
    format_query_body, parse_descriptor, try_except, json_call, bind.
  rewrite Hx, Hjson. cbn [negb is_dict]. unfold unwrap_query, ret, lift.
  destruct (dict_lookup "query" items) as [[ | | | | q | | | inner] |] eqn:Hlookup;
    try (split; reflexivity).
  now destruct (Hq q).
Qed.

End FormatterMore.

(** ** What each sentinel tells *)

Lemma filter_nil_forall {A} (f : A -> bool) (l : list A) :
  filter f l = [] <-> Forall (fun a => f a = false) l.
Proof.
  induction l as [| a l IH]; simpl; [split; auto |].
  destruct (f a) eqn:Ha; split; intros H.
  - discriminate H.
  - inversion H; congruence.
  - constructor; [exact Ha | now apply IH].
  - inversion H; subst. now apply IH.
Qed.

Lemma format_filters_raises (working : list (pyval * pyval)) (e : exn) :
  format_filters (PDict working) = Raise e ->
  e = int_too_long \/ exists other, e = no_get_attribute other.
Proof.
  unfold format_filters. rewrite py_get_dict.
  destruct (dict_get working "filters" PNone) as [ | | | | | entries | | ];
    cbn [bind_result]; try discriminate.
  destruct (length entries =? 0)%nat; [discriminate |].
  destruct (render_filters entries []) as [[| c cs] | err] eqn:Hrun; cbn [bind_result];
    try discriminate.
  intros H. injection H as <-. exact (render_filters_raises _ _ _ Hrun).
Qed.

Section SentinelFacts.
Import Ends.

Variable json_loads : pyval -> result pyval.
Variable literal_eval : pyval -> result pyval.

(** X9: past parsing and unwrapping, "No valid filters found" is returned
    exactly when [filters] is a non-empty list none of whose entries is a
    mapping. *)
Theorem no_valid_filters_iff (x : pyval) (items working : list (pyval * pyval)) :
  truthy x = true ->
  snd (parse_descriptor json_loads literal_eval x) = Ok (PDict items) ->
  snd (unwrap_query json_loads literal_eval (PDict items)) = Ok (PDict working) ->
  format_query_from_strat_name json_loads literal_eval x = "No valid filters found"
  <-> exists e entries,
        dict_lookup "filters" working = Some (PList (e :: entries))
        /\ Forall (fun item => is_dict item = false) (e :: entries).
Proof.
  intros Hx Hparse Hw.
  rewrite (format_query_on_mapping json_loads literal_eval x items working Hx Hparse Hw).
  split.
  - destruct (dict_lookup "filters" working) as [[ | | | | | [| e entries] | | ] |] eqn:Hf;
      try (rewrite format_filters_no_list by (rewrite Hf; exact I); discriminate).
    rewrite (format_filters_on_list _ _ _ Hf).
    destruct (render_filters (e :: entries) []) as [[| c cs] | err] eqn:Hrun;
      cbn [bind_result outcome_text]; try discriminate.
    + intros _. exists e, entries. split; [reflexivity |].
      apply filter_nil_forall. apply render_filters_length in Hrun.
      destruct (filter is_dict (e :: entries)); [reflexivity | discriminate Hrun].
    + intros H. apply (f_equal has_Y) in H.
      pose proof (render_filters_has_Y _ _ _ Hrun (Forall_nil _)) as Hall.
      rewrite join_clauses_has_Y in H; [discriminate H | now inversion Hall].
  - intros (e & entries & Hf & Hall).
    rewrite (format_filters_on_list _ _ _ Hf), render_filters_only_mappings.
    apply filter_nil_forall in Hall. rewrite Hall. reflexivity.
Qed.

(** X10: on a truthy input, "Invalid query format" is returned exactly
    when parsing ends with a value that is no mapping; no mapping, whatever
    its filters, produces this text. *)
Theorem invalid_query_format_iff (x : pyval) :
  truthy x = true ->
  format_query_from_strat_name json_loads literal_eval x = "Invalid query format"
  <-> exists v, snd (parse_descriptor json_loads literal_eval x) = Ok v /\ is_dict v = false.
Proof.
  intros Hx. split.
  - destruct (format_query_outcomes json_loads literal_eval x)
      as [[H _] | [(v & Hv & Hd & _) | (items & working & _ & _ & Hout)]];
      [congruence | eauto |].
    destruct Hout as [-> | [-> | [(e & _ & ->) | (entries & clauses & _ & Hne & Hrun & ->)]]];
      try discriminate.
    intros H. apply (f_equal has_Y) in H.
    pose proof (render_filters_has_Y _ _ _ Hrun (Forall_nil _)) as Hall.
    destruct clauses as [| c cs]; [now destruct Hne |].
    rewrite join_clauses_has_Y in H; [discriminate H | now inversion Hall].
  - intros (v & Hv & Hd). exact (format_query_not_mapping json_loads literal_eval x v Hx Hv Hd).
Qed.

(** X11: whatever the input and the parsers, the text the formatter
    returns is not empty and neither begins nor ends with white space. *)
Theorem output_is_trimmed (x : pyval) :
  format_query_from_strat_name json_loads literal_eval x <> EmptyString
  /\ trimmed (format_query_from_strat_name json_loads literal_eval x).
Proof.
  assert (Hconst : forall c rest,
             Text.is_space c = false ->
             (forall d, last_char (String c rest) = Some d -> Text.is_space d = false) ->
             String c rest <> EmptyString /\ trimmed (String c rest)).
  { intros c rest Hc Hlast. split; [discriminate |]. split; [| exact Hlast].
    intros d H. injection H as <-. exact Hc. }
  destruct (format_query_outcomes json_loads literal_eval x)
    as [[_ ->] | [(v & _ & _ & ->) | (items & working & _ & _ & Hout)]];
    try (apply Hconst; [reflexivity | intros d H; injection H as <-; reflexivity]).
  destruct Hout as [-> | [-> | [(e & He & ->) | (entries & clauses & _ & Hne & Hrun & ->)]]];
    try (apply Hconst; [reflexivity | intros d H; injection H as <-; reflexivity]).
  - destruct (format_filters_raises _ _ He) as [-> | [other ->]].
    + apply Hconst; [reflexivity | intros d H; injection H as <-; reflexivity].
    + destruct other;
        (apply Hconst; [reflexivity | intros d H; injection H as <-; reflexivity]).
  - assert (Hall : Forall (fun c => trimmed c /\ has_Y c = true) clauses).
    { apply (render_filters_forall _ entries [] clauses render_filter_trimmed Hrun).
      constructor. }
    destruct clauses as [| c cs]; [now destruct Hne |].
    inversion Hall as [| ? ? [Ht HY] _]; subst.
    destruct (join_clauses_trimmed c cs Ht HY) as [Htrim Hnonempty].
    split; assumption.
Qed.

End SentinelFacts.

(** * The store and the services *)

Section RowFacts.
Import Store.

Lemma getattr_setattr_same (r : row) (name : string) (v : pyval) :
  getattr (setattr r name v) name = v.
Proof.
  induction r as [| [a w] r IH]; cbn [setattr getattr].
  - now rewrite String.eqb_refl.
  - destruct (String.eqb a name) eqn:Ha; cbn [getattr]; rewrite Ha; [reflexivity | exact IH].
Qed.

Lemma getattr_setattr_other (r : row) (name other : string) (v : pyval) :
  other <> name -> getattr (setattr r name v) other = getattr r other.
Proof.
  intros Hne. induction r as [| [a w] r IH]; cbn [setattr getattr].
  - destruct (String.eqb_spec name other); [congruence | reflexivity].
  - destruct (String.eqb_spec a name) as [-> | Ha]; cbn [getattr].
    + destruct (String.eqb_spec name other); [congruence | reflexivity].
    + now rewrite IH.
Qed.

Lemma setattr_overwrite (r : row) (name : string) (v w : pyval) :
  setattr (setattr r name v) name w = setattr r name w.
Proof.
  induction r as [| [a u] r IH]; cbn [setattr].
  - now rewrite String.eqb_refl.
  - destruct (String.eqb a name) eqn:Ha; cbn [setattr]; rewrite Ha; [reflexivity |].
    now rewrite IH.
Qed.

Lemma setattr_present (r : row) (name : string) (v : pyval) :
  In name (map fst (setattr r name v)).
Proof.
  induction r as [| [a u] r IH]; cbn [setattr]; [left; reflexivity |].
  destruct (String.eqb_spec a name) as [-> | Ha]; [left; reflexivity | right; exact IH].
Qed.

Lemma setattr_swap (r : row) (name other : string) (v w : pyval) :
  name <> other -> In name (map fst r) ->
  setattr (setattr r other w) name v = setattr (setattr r name v) other w.
Proof.
  intros Hne. induction r as [| [a u] r IH]; [intros [] |].
  intros Hin. cbn [setattr].
  destruct (String.eqb a other) eqn:Hao; destruct (String.eqb a name) eqn:Han;
    cbn [setattr]; rewrite ?Hao, ?Han; try reflexivity.
  - apply String.eqb_eq in Hao, Han. congruence.
  - rewrite IH; [reflexivity |].
    destruct Hin as [Hin | Hin]; [| exact Hin].
    cbn in Hin. subst a. now rewrite String.eqb_refl in Han.
Qed.

Lemma find_none_forall {A} (p : A -> bool) (l : list A) :
  find p l = None <-> Forall (fun a => p a = false) l.
Proof.
  induction l as [| a l IH]; cbn [find]; [split; auto |].
  destruct (p a) eqn:Ha; split; intros H.
  - discriminate H.
  - inversion H; congruence.
  - constructor; [exact Ha | now apply IH].
  - inversion H; subst. now apply IH.
Qed.

(** The first row that passes [p] splits the table. *)
Lemma find_some_split {A} (p : A -> bool) (l : list A) (a : A) :
  find p l = Some a ->
  exists before after,
    l = (before ++ a :: after)%list /\ Forall (fun b => p b = false) before /\ p a = true.
Proof.
  induction l as [| b l IH]; cbn [find]; [discriminate |].
  destruct (p b) eqn:Hb.
  - intros H. injection H as <-. exists [], l. auto.
  - intros H. destruct (IH H) as (before & after & -> & Hall & Ha).
    exists (b :: before), after. auto.
Qed.

Lemma update_first_split (p : row -> bool) (f : row -> row) (before after : list row) (r : row) :
  Forall (fun b => p b = false) before -> p r = true ->
  update_first p f (before ++ r :: after) = (before ++ f r :: after)%list.
Proof.
  intros Hall Hr. induction Hall as [| b before Hb _ IH]; cbn [app update_first].
  - now rewrite Hr.
  - now rewrite Hb, IH.
Qed.

Lemma find_split (p : row -> bool) (before after : list row) (r : row) :
  Forall (fun b => p b = false) before -> p r = true ->
  find p (before ++ r :: after) = Some r.
Proof.
  intros Hall Hr. induction Hall as [| b before Hb _ IH]; cbn [app find].
  - now rewrite Hr.
  - now rewrite Hb.
Qed.

End RowFacts.

Section SaveFacts.
Import Store.

Variable sql : Sql.

Lemma assign_getattr (request : SaveStrategyRequest) (r : row) :
  getattr (assign request r) "strat_name_alias" = PStr (strat_name_alias request)
  /\ getattr (assign request r) "isPublic" = PInt (isPublic request)
  /\ forall name, name <> "strat_name_alias" -> name <> "isPublic" ->
                  getattr (assign request r) name = getattr r name.
Proof.
  unfold assign. split; [| split].
  - rewrite getattr_setattr_other by discriminate. apply getattr_setattr_same.
  - apply getattr_setattr_same.
  - intros name H1 H2. now rewrite !getattr_setattr_other.
Qed.

Lemma assign_keeps_uuid (request : SaveStrategyRequest) (uuid : string) (r : row) :
  same_uuid sql uuid (assign request r) = same_uuid sql uuid r.
Proof.
  unfold same_uuid.
  now rewrite (proj2 (proj2 (assign_getattr request r)) "strat_uuid") by discriminate.
Qed.

Lemma assign_absorbs (earlier later : SaveStrategyRequest) (r : row) :
  assign later (assign earlier r) = assign later r.
Proof.
  unfold assign.
  rewrite (setattr_swap (setattr r "strat_name_alias" _) "strat_name_alias" "isPublic")
    by (try discriminate; apply setattr_present).
  now rewrite !setattr_overwrite.
Qed.

(** X12: saving raises the 404 exception "Strategy not found" exactly
    when no row of the table has the [strat_uuid] of the request, and then
    the session is left as it was. *)
Theorem save_unknown_strategy_is_404 (request : SaveStrategyRequest) (db : Session) :
  (fst (save_strategy_service sql request db) = HTTPException 404 "Strategy not found"
   <-> Forall (fun r => sql_eq sql (getattr r "strat_uuid") (PStr (session_id request)) = false)
              (portfolio_investment_rules db))
  /\ (forall status detail,
        fst (save_strategy_service sql request db) = HTTPException status detail ->
        snd (save_strategy_service sql request db) = db).
Proof.
  unfold save_strategy_service, first.
  destruct (find (same_uuid sql (session_id request)) (portfolio_investment_rules db))
    as [r |] eqn:Hfind.
  - assert (Hnone : ~ Forall (fun r => sql_eq sql (getattr r "strat_uuid")
                                             (PStr (session_id request)) = false)
                            (portfolio_investment_rules db)).
    { intros Hall. apply find_none_forall in Hall. unfold same_uuid in Hfind. congruence. }
    destruct (refuses_integer sql (isPublic request)); cbn [fst snd];
      (split; [split; [discriminate | intros Hall; now destruct Hnone] |]);
      [reflexivity | discriminate].
  - split; [| reflexivity]. split; [| reflexivity].
    intros _. now apply find_none_forall.
Qed.

(** X13: when the driver binds the public flag of the request, a save that
    finds the strategy changes one row only, the first one with the
    [strat_uuid] of the request, and in that row only the alias and the
    public flag, which take the values of the request; every other row,
    every other attribute and the two other tables stay as they were.  When
    the driver refuses the flag, its exception passes to the caller and
    nothing is changed. *)
Theorem save_updates_first_match_only
  (request : SaveStrategyRequest) (db : Session) (r : row) :
  first (same_uuid sql (session_id request)) (portfolio_investment_rules db) = Some r ->
  (refuses_integer sql (isPublic request) = None ->
   exists before after updated,
     portfolio_investment_rules db = (before ++ r :: after)%list
     /\ Forall (fun b => same_uuid sql (session_id request) b = false) before
     /\ save_strategy_service sql request db
        = (Return (PDict [(PStr "message", PStr "Strategy updated successfully")]),
           {| portfolio_investment_rules := (before ++ updated :: after)%list;
              investment_rules_statistics := investment_rules_statistics db;
              cal_year := cal_year db |})
     /\ getattr updated "strat_name_alias" = PStr (strat_name_alias request)
     /\ getattr updated "isPublic" = PInt (isPublic request)
     /\ forall name, name <> "strat_name_alias" -> name <> "isPublic" ->
                     getattr updated name = getattr r name)
  /\ (forall e, refuses_integer sql (isPublic request) = Some e ->
                save_strategy_service sql request db = (Uncaught e, db)).
Proof.
  intros Hfind. unfold save_strategy_service. rewrite Hfind. split.
  - intros Hbinds. rewrite Hbinds. unfold first in Hfind.
    destruct (find_some_split _ _ _ Hfind) as (before & after & Hrows & Hall & Hr).
    exists before, after, (assign request r).
    split; [exact Hrows |]. split; [exact Hall |]. split.
    + unfold with_portfolios. rewrite Hrows, (update_first_split _ _ _ _ _ Hall Hr).
      reflexivity.
    + apply assign_getattr.
  - intros e He. now rewrite He.
Qed.

(** X14: of two saves for the same strategy the later one wins, if the
    driver binds its public flag: the session after both is the session
    after the later one alone, and the later one is answered alike. *)
Theorem save_last_write_wins (earlier later : SaveStrategyRequest) (db : Session) :
  session_id earlier = session_id later ->
  refuses_integer sql (isPublic later) = None ->
  save_strategy_service sql later (snd (save_strategy_service sql earlier db))
  = save_strategy_service sql later db.
Proof.
  intros Hid Hbinds. unfold save_strategy_service at 2. unfold first. rewrite Hid.
  destruct (find (same_uuid sql (session_id later)) (portfolio_investment_rules db))
    as [r |] eqn:Hfind; [| reflexivity].
  destruct (refuses_integer sql (isPublic earlier)); [reflexivity |].
  destruct (find_some_split _ _ _ Hfind) as (before & after & Hrows & Hall & Hr).
  assert (Hr' : same_uuid sql (session_id later) (assign earlier r) = true)
    by (now rewrite assign_keeps_uuid).
  cbn [snd]. unfold save_strategy_service, first, with_portfolios.
  cbn [portfolio_investment_rules investment_rules_statistics cal_year].
  rewrite Hrows, Hbinds.
  rewrite (update_first_split _ (assign earlier) _ _ _ Hall Hr).
  rewrite (find_split _ _ _ _ Hall Hr'), (find_split _ _ _ _ Hall Hr).
  rewrite (update_first_split _ (assign later) _ _ _ Hall Hr').
  rewrite (update_first_split _ (assign later) _ _ _ Hall Hr).
  rewrite assign_absorbs. reflexivity.
Qed.

End SaveFacts.

Section ListingFacts.
Import Store.

Variable sql : Sql.
Variable json_loads : pyval -> result pyval.
Variable literal_eval : pyval -> result pyval.

Lemma ceil_div_bounds (total size : Z) :
  (0 <= total)%Z -> (0 < size)%Z ->
  ((((total + size - 1) / size) - 1) * size < total <= ((total + size - 1) / size) * size)%Z.
Proof.
  intros Ht Hs.
  pose proof (Z.div_mod (total + size - 1) size) as Hdm.
  pose proof (Z.mod_pos_bound (total + size - 1) size Hs) as Hmod.
  nia.
Qed.

Lemma firstn_add {A} (a b : nat) (l : list A) :
  firstn (a + b) l = (firstn a l ++ firstn b (skipn a l))%list.
Proof.
  revert l. induction a as [| a IH]; intros l; [reflexivity |].
  destruct l as [| x l]; cbn [Nat.add firstn skipn app].
  - now destruct b.
  - now rewrite IH.
Qed.

(** Pages of [n] elements, numbered from one, laid end to end. *)
Lemma pages_laid_end_to_end {A} (n k : nat) (l : list A) :
  flat_map (fun p => firstn n (skipn ((p - 1) * n) l)) (seq 1 k) = firstn (k * n) l.
Proof.
  induction k as [| k IH]; [reflexivity |].
  rewrite seq_S, flat_map_app, IH. cbn [flat_map Nat.add].
  rewrite app_nil_r. replace (S k - 1)%nat with k by lia.
  rewrite <- firstn_add. f_equal. lia.
Qed.

Lemma list_page_returns (selected : row -> bool) (page page_size : Z) (db : Session) :
  page_size <> 0%Z ->
  let rows := filter selected (portfolio_investment_rules db) in
  let total := Z.of_nat (length rows) in
  list_page sql json_loads literal_eval selected page page_size db
  = Ok (PDict [(PStr "strategies",
                PList (map (strategy_item json_loads literal_eval)
                           (offset_limit sql ((page - 1) * page_size) page_size rows)));
               (PStr "pagination",
                PDict [(PStr "total", PInt total);
                       (PStr "page", PInt page);
                       (PStr "page_size", PInt page_size);
                       (PStr "total_pages", PInt ((total + page_size - 1) / page_size))])]).
Proof.
  intros Hsize. unfold list_page, floordiv.
  destruct (Z.eqb_spec page_size 0) as [| _]; [contradiction | reflexivity].
Qed.

Lemma strategies_of_page (selected : row -> bool) (page page_size : Z) (db : Session) :
  standard_offset_limit sql -> (1 <= page)%Z -> (0 <= page_size)%Z ->
  strategies_of (list_page sql json_loads literal_eval selected page page_size db)
  = map (strategy_item json_loads literal_eval)
        (firstn (Z.to_nat page_size)
                (skipn (Z.to_nat ((page - 1) * page_size))
                       (filter selected (portfolio_investment_rules db)))).
Proof.
  intros Hsql Hpage Hsize.
  destruct (Z.eqb_spec page_size 0) as [-> | Hne].
  - unfold list_page, floordiv. reflexivity.
  - rewrite (list_page_returns selected page page_size db Hne).
    cbn [strategies_of field dict_get dict_lookup String.eqb Ascii.eqb Bool.eqb].
    rewrite Hsql by nia. reflexivity.
Qed.

Lemma flat_map_agree {A B} (f g : A -> list B) (l : list A) :
  (forall a, In a l -> f a = g a) -> flat_map f l = flat_map g l.
Proof.
  induction l as [| a l IH]; intros H; [reflexivity |].
  cbn [flat_map]. rewrite (H a (or_introl eq_refl)), IH; [reflexivity |].
  intros b Hb. apply H. now right.
Qed.

Lemma flat_map_of_maps {A B C} (f : B -> C) (g : A -> list B) (l : list A) :
  flat_map (fun a => map f (g a)) l = map f (flat_map g l).
Proof.
  induction l as [| a l IH]; [reflexivity |].
  cbn [flat_map]. now rewrite map_app, IH.
Qed.

(** The pages one to [total_pages], laid end to end, are the selected rows. *)
Lemma pages_cover_selection (selected : row -> bool) (page_size : Z) (db : Session) :
  standard_offset_limit sql -> (0 < page_size)%Z ->
  let rows := filter selected (portfolio_investment_rules db) in
  let total_pages := ((Z.of_nat (length rows) + page_size - 1) / page_size)%Z in
  flat_map (fun p => strategies_of
                       (list_page sql json_loads literal_eval selected (Z.of_nat p)
                                  page_size db))
           (seq 1 (Z.to_nat total_pages))
  = map (strategy_item json_loads literal_eval) rows.
Proof.
  intros Hsql Hsize rows total_pages.
  pose proof (ceil_div_bounds (Z.of_nat (length rows)) page_size (Nat2Z.is_nonneg _) Hsize)
    as [_ Hupper]. fold total_pages in Hupper.
  assert (Htp : (0 <= total_pages)%Z) by (apply Z.div_pos; lia).
  rewrite (flat_map_agree _
             (fun p => map (strategy_item json_loads literal_eval)
                           (firstn (Z.to_nat page_size)
                                   (skipn ((p - 1) * Z.to_nat page_size) rows)))).
  - rewrite flat_map_of_maps, pages_laid_end_to_end.
    rewrite firstn_all2 by nia. reflexivity.
  - intros p Hp. apply in_seq in Hp.
    rewrite strategies_of_page by (trivial; lia).
    fold rows. do 3 f_equal. rewrite Z2Nat.inj_mul by lia.
    rewrite Z2Nat.inj_sub by lia. rewrite Nat2Z.id. reflexivity.
Qed.

Lemma in_firstn {A} (n : nat) (l : list A) (a : A) : In a (firstn n l) -> In a l.
Proof.
  intros H. rewrite <- (firstn_skipn n l). apply in_or_app. now left.
Qed.

Lemma in_skipn {A} (n : nat) (l : list A) (a : A) : In a (skipn n l) -> In a l.
Proof.
  intros H. rewrite <- (firstn_skipn n l). apply in_or_app. now right.
Qed.


(** What a save that finds a row and is committed leaves behind. *)
Lemma save_found (request : SaveStrategyRequest) (db : Session) (r : row) :
  first (same_uuid sql (session_id request)) (portfolio_investment_rules db) = Some r ->
  refuses_integer sql (isPublic request) = None ->
  exists before after,
    portfolio_investment_rules db = (before ++ r :: after)%list
    /\ Forall (fun b => same_uuid sql (session_id request) b = false) before
    /\ same_uuid sql (session_id request) r = true
    /\ save_strategy_service sql request db
       = (Return (PDict [(PStr "message", PStr "Strategy updated successfully")]),
          with_portfolios db (before ++ assign request r :: after)%list).
Proof.
  intros Hfind Hbinds. unfold save_strategy_service. rewrite Hfind, Hbinds.
  unfold first in Hfind.
  destruct (find_some_split _ _ _ Hfind) as (before & after & Hrows & Hall & Hr).
  exists before, after. repeat split; trivial.
  now rewrite Hrows, (update_first_split _ _ _ _ _ Hall Hr).
Qed.

(** X15: on a database that answers OFFSET and LIMIT as standard SQL
    defines them and whose driver binds the user id, the page size and the
    offset, for a page from one on (so that the offset is not negative),
    the two listings report as [total] the number of rows that pass
    their filter and as [total_pages] the least number of pages of
    [page_size] rows that holds them all; with a page size of zero they
    raise ZeroDivisionError instead of returning an empty page. *)
Theorem total_pages_is_least_cover (user_id page page_size : Z) (db : Session) :
  standard_offset_limit sql ->
  (1 <= page)%Z -> (0 <= page_size)%Z ->
  refuses_integer sql user_id = None ->
  refuses_integer sql page_size = None ->
  refuses_integer sql ((page - 1) * page_size) = None ->
  let covers (selected : row -> bool) (reply : result pyval) : Prop :=
    let total := Z.of_nat (length (filter selected (portfolio_investment_rules db))) in
    (page_size = 0%Z -> exists message, reply = Raise (Exn "ZeroDivisionError" message))
    /\ ((0 < page_size)%Z ->
        exists total_pages,
          pagination_of "total" reply = Some total
          /\ pagination_of "total_pages" reply = Some total_pages
          /\ ((total_pages - 1) * page_size < total <= total_pages * page_size)%Z
          /\ (total_pages = 0 <-> total = 0)%Z) in
  covers (of_user sql user_id)
         (get_all_strategies_user_service sql json_loads literal_eval user_id page page_size db)
  /\ covers (public_with_alias sql)
            (get_all_strategies_service_old sql json_loads literal_eval page page_size db).
Proof.
  intros _ _ _ Hbinds _ _. cbv zeta.
  unfold get_all_strategies_user_service, get_all_strategies_service_old.
  rewrite Hbinds.
  assert (Hcovers : forall selected,
             (page_size = 0%Z ->
              exists message,
                list_page sql json_loads literal_eval selected page page_size db
                = Raise (Exn "ZeroDivisionError" message))
             /\ ((0 < page_size)%Z ->
                 exists total_pages,
                   pagination_of "total"
                     (list_page sql json_loads literal_eval selected page page_size db)
                   = Some (Z.of_nat (length (filter selected (portfolio_investment_rules db))))
                   /\ pagination_of "total_pages"
                        (list_page sql json_loads literal_eval selected page page_size db)
                      = Some total_pages
                   /\ ((total_pages - 1) * page_size
                       < Z.of_nat (length (filter selected (portfolio_investment_rules db)))
                       <= total_pages * page_size)%Z
                   /\ (total_pages = 0
                       <-> Z.of_nat (length (filter selected (portfolio_investment_rules db)))
                           = 0)%Z)).
  { intros selected. split.
    - intros ->. unfold list_page, floordiv. cbn. eauto.
    - intros Hsize. rewrite list_page_returns by lia.
      eexists. split; [reflexivity |]. split; [reflexivity |].
      pose proof (ceil_div_bounds _ page_size (Nat2Z.is_nonneg
                    (length (filter selected (portfolio_investment_rules db)))) Hsize).
      split; [assumption | nia]. }
  split; apply Hcovers.
Qed.

(** X16: on a database with standard OFFSET and LIMIT that returns the
    rows of the unchanged table in the same order for every query, and for
    a positive page size, the pages one to [total_pages] of a listing, laid
    end to end, hold one item for every selected row, in the order of the
    rows: no row is left out and none is listed twice. *)
Theorem pages_partition_selection
  (selected : row -> bool) (page page_size total_pages : Z) (db : Session) :
  standard_offset_limit sql ->
  (0 < page_size)%Z ->
  pagination_of "total_pages"
    (list_page sql json_loads literal_eval selected page page_size db) = Some total_pages ->
  flat_map (fun p => strategies_of
                       (list_page sql json_loads literal_eval selected (Z.of_nat p)
                                  page_size db))
           (seq 1 (Z.to_nat total_pages))
  = map (strategy_item json_loads literal_eval)
        (filter selected (portfolio_investment_rules db)).
Proof.
  intros Hsql Hsize Htp. rewrite list_page_returns in Htp by lia.
  cbn in Htp. injection Htp as <-.
  exact (pages_cover_selection selected page_size db Hsql Hsize).
Qed.


(** X18: the public listing never shows a private strategy or one without
    an alias: on a database with standard OFFSET and LIMIT every item of
    every page is the item of a row of the table that passes the filter;
    its public flag, if an integer, is 1, and its alias is not NULL and
    does not compare equal to the empty text. *)
Theorem public_listing_shows_public_only (page page_size : Z) (db : Session) :
  standard_offset_limit sql ->
  (1 <= page)%Z -> (0 <= page_size)%Z ->
  Forall (fun item =>
            exists r,
              In r (portfolio_investment_rules db)
              /\ item = strategy_item json_loads literal_eval r
              /\ (forall flag, getattr r "isPublic" = PInt flag -> flag = 1%Z)
              /\ getattr r "strat_name_alias" <> PNone
              /\ (forall alias, getattr r "strat_name_alias" = PStr alias ->
                                text_eq sql alias EmptyString = false))
         (strategies_of
            (get_all_strategies_service_old sql json_loads literal_eval page page_size db)).
Proof.
  intros Hsql Hpage Hsize. unfold get_all_strategies_service_old.
  rewrite strategies_of_page by trivial.
  apply Forall_forall. intros item Hitem.
  apply in_map_iff in Hitem as (r & <- & Hr).
  apply in_firstn, in_skipn in Hr.
  apply filter_In in Hr as [Hin Hsel].
  exists r. split; [exact Hin |]. split; [reflexivity |].
  unfold public_with_alias in Hsel.
  apply andb_true_iff in Hsel as [Hsel Hne]. apply andb_true_iff in Hsel as [Hpub Halias].
  split; [| split].
  - intros flag Hflag. rewrite Hflag in Hpub. cbn in Hpub. lia.
  - intros Hnull. rewrite Hnull in Halias. discriminate Halias.
  - intros alias Ha. rewrite Ha in Hne. cbn in Hne.
    now apply negb_true_iff in Hne.
Qed.


End ListingFacts.

Section DetailFacts.
Import Store.

Variable sql : Sql.

Lemma composition_after_assign (request : SaveStrategyRequest) (r : row) :
  portfolio_composition (assign request r) = portfolio_composition r.
Proof.
  unfold portfolio_composition. apply flat_map_agree. intros year _.
  destruct (has_year_attribute (year_attribute year)); [| reflexivity].
  rewrite (proj2 (proj2 (assign_getattr request r))); [reflexivity | |];
    unfold year_attribute; cbn [append]; discriminate.
Qed.

(** X20: reading a strategy back after a save that found it, and whose
    public flag the driver binds, shows the alias and the public flag of
    the request; the keys of [ippf], every other value of it, and the
    statistics and calendar years are those read before the save. *)
Theorem saved_strategy_is_read_back (request : SaveStrategyRequest) (db : Session) (r : row) :
  first (same_uuid sql (session_id request)) (portfolio_investment_rules db) = Some r ->
  refuses_integer sql (isPublic request) = None ->
  exists ippf ippf' pfst calyears,
    get_strategy_service sql (session_id request) db
    = Return (PDict [(PStr "ippf", PDict ippf); (PStr "pfst", pfst);
                     (PStr "calyears", calyears)])
    /\ get_strategy_service sql (session_id request)
         (snd (save_strategy_service sql request db))
       = Return (PDict [(PStr "ippf", PDict ippf'); (PStr "pfst", pfst);
                        (PStr "calyears", calyears)])
    /\ dict_lookup "strat_name_alias" ippf' = Some (PStr (strat_name_alias request))
    /\ dict_lookup "isPublic" ippf' = Some (PInt (isPublic request))
    /\ map fst ippf' = map fst ippf
    /\ forall key, key <> "strat_name_alias" -> key <> "isPublic" ->
                   dict_lookup key ippf' = dict_lookup key ippf.
Proof.
  intros Hfind Hbinds.
  destruct (save_found sql request db r Hfind Hbinds)
    as (before & after & Hrows & Hall & Hr & Hsave).
  destruct (assign_getattr request r) as (Hname & Hflag & Hother).
  assert (Hr' : same_uuid sql (session_id request) (assign request r) = true)
    by (now rewrite assign_keeps_uuid).
  unfold get_strategy_service. rewrite Hfind, Hsave. cbn [snd with_portfolios portfolio_investment_rules investment_rules_statistics cal_year].
  unfold first. rewrite (find_split _ _ _ _ Hall Hr').
  rewrite composition_after_assign, Hname, Hflag, !Hother by discriminate.
  do 4 eexists. split; [reflexivity |]. split; [reflexivity |].
  split; [reflexivity |]. split; [reflexivity |]. split; [reflexivity |].
  intros key H1 H2. cbn [dict_lookup app].
  destruct (String.eqb_spec "strat_name_alias" key) as [<- | _]; [contradiction |].
  destruct (String.eqb_spec "isPublic" key) as [<- | _]; [contradiction |].
  reflexivity.
Qed.

Lemma composition_keys (strategy : row) :
  map fst (portfolio_composition strategy)
  = map (fun year => PStr (year_attribute year)) composition_years.
Proof. reflexivity. Qed.

Lemma composition_lookup (strategy : row) (n : nat) :
  (n < 26)%nat ->
  dict_lookup (year_attribute (1999 + Z.of_nat n)) (portfolio_composition strategy)
  = Some (getattr strategy (year_attribute (1999 + Z.of_nat n))).
Proof.
  intros Hn.
  do 26 (destruct n as [| n]; [reflexivity |]). lia.
Qed.

(** X21: the [ippf] part of the reply for a strategy has, after its six
    fixed keys, the 26 keys [y_1999] to [y_2024] with the values of the
    found row; the columns [y_1997] and [y_1998], which the table has, are
    never part of it. *)
Theorem reply_has_years_1999_to_2024 (strategy_id : string) (db : Session) (strategy : row) :
  first (same_uuid sql strategy_id) (portfolio_investment_rules db) = Some strategy ->
  exists ippf pfst calyears,
    get_strategy_service sql strategy_id db
    = Return (PDict [(PStr "ippf", PDict ippf); (PStr "pfst", pfst);
                     (PStr "calyears", calyears)])
    /\ map fst ippf
       = (map PStr ["strat_uuid"; "user_id"; "insert_time"; "strat_name";
                    "strat_name_alias"; "isPublic"]
          ++ map (fun year => PStr (year_attribute year)) composition_years)%list
    /\ (forall year, (1999 <= year <= 2024)%Z ->
          dict_lookup (year_attribute year) ippf
          = Some (getattr strategy (year_attribute year)))
    /\ has_year_attribute "y_1997" = true /\ dict_lookup "y_1997" ippf = None
    /\ has_year_attribute "y_1998" = true /\ dict_lookup "y_1998" ippf = None.
Proof.
  intros Hfind. unfold get_strategy_service. rewrite Hfind.
  do 3 eexists. split; [reflexivity |]. split; [| split].
  - cbn [map app fst]. now rewrite composition_keys.
  - intros year Hyear.
    replace year with (1999 + Z.of_nat (Z.to_nat (year - 1999)))%Z by lia.
    assert (Hn : (Z.to_nat (year - 1999) < 26)%nat) by lia.
    revert Hn. generalize (Z.to_nat (year - 1999)). intros n Hn.
    change (dict_lookup (year_attribute (1999 + Z.of_nat n))
              (portfolio_composition strategy)
            = Some (getattr strategy (year_attribute (1999 + Z.of_nat n)))).
    now apply composition_lookup.
  - repeat split; reflexivity.
Qed.

End DetailFacts.

(** * The script runner *)

Section ScriptFacts.
Import Store.

Variable sql : Sql.
Variable w : World.

(** The ways through [run_script]. *)
Lemma run_script_cases (session_id user_token : string) (payload : pyval) (db : Session) :
  let out := run_script sql w session_id user_token payload db in
  (exists e, fst out = failure e)
  \/ fst out = PDict [(PStr "status", PStr "Failure");
                      (PStr "error", PStr "Script file not found")]
  \/ exists text stderr input_portfolio,
       path_exists w (getenv w "SCRIPT_PATH") = Ok true
       /\ json_dumps w payload = Ok text
       /\ subprocess_run w [PStr (executable w); getenv w "SCRIPT_PATH"; PStr session_id;
                            PStr user_token; PStr text] db
          = (Ok (0%Z, stderr), snd out)
       /\ first (same_uuid sql session_id) (portfolio_investment_rules (snd out))
          = Some input_portfolio
       /\ fst out
          = PDict [(PStr "status", PStr "Success");
                   (PStr "output",
                    PDict [(PStr "ippf", PDict (ippf_data input_portfolio));
                           (PStr "pfst",
                            PList (map stat_dict
                                       (filter (same_uuid sql session_id)
                                               (investment_rules_statistics (snd out)))));
                           (PStr "calyears",
                            PList (map cal_dict
                                       (filter (fun r => sql_eq sql (getattr r "session_id")
                                                                (PStr session_id))
                                               (cal_year (snd out)))))]);
                   (PStr "strategy_id", PStr session_id)].
Proof.
  cbv zeta. unfold run_script.
  destruct (path_exists w (getenv w "SCRIPT_PATH")) as [[|] | e]; [| now right; left | left; eexists; reflexivity].
  destruct (json_dumps w payload) as [text | e]; [| left; eexists; reflexivity].
  destruct (subprocess_run w _ db) as [[[returncode stderr] | e] db_session] eqn:Hrun;
    [| left; eexists; reflexivity].
  destruct (Z.eqb_spec returncode 0) as [-> | Hcode]; cbn [negb]; [| left; eexists; reflexivity].
  destruct (first (same_uuid sql session_id) (portfolio_investment_rules db_session))
    as [input_portfolio |] eqn:Hfirst; [| left; eexists; reflexivity].
  right; right. exists text, stderr, input_portfolio. cbn [fst snd]. repeat split; trivial.
Qed.

(** X22: [run_script] reports Success exactly when the script file exists,
    the payload can be serialized, the script ends with return code 0 and,
    after it, a portfolio with the session id is found; the reply then
    carries the session id as [strategy_id].  In every other case the
    reply has status Failure and an [error] text, and neither [output] nor
    [strategy_id]: no exception leaves the function. *)
Theorem run_script_success_iff (session_id user_token : string) (payload : pyval)
  (db : Session) :
  let out := fst (run_script sql w session_id user_token payload db) in
  (field "status" out = PStr "Success"
   <-> exists text stderr db_session input_portfolio,
         path_exists w (getenv w "SCRIPT_PATH") = Ok true
         /\ json_dumps w payload = Ok text
         /\ subprocess_run w [PStr (executable w); getenv w "SCRIPT_PATH"; PStr session_id;
                              PStr user_token; PStr text] db
            = (Ok (0%Z, stderr), db_session)
         /\ first (same_uuid sql session_id) (portfolio_investment_rules db_session)
            = Some input_portfolio)
  /\ (field "status" out = PStr "Success" ->
      field "strategy_id" out = PStr session_id /\ field "error" out = PNone)
  /\ (field "status" out <> PStr "Success" ->
      field "status" out = PStr "Failure"
      /\ (exists message, field "error" out = PStr message)
      /\ field "output" out = PNone /\ field "strategy_id" out = PNone).
Proof.
  cbv zeta. split; [split |].
  - intros Hstatus.
    destruct (run_script_cases session_id user_token payload db)
      as [[e He] | [He | (text & stderr & ip & H1 & H2 & H3 & H4 & _)]].
    + rewrite He in Hstatus. discriminate Hstatus.
    + rewrite He in Hstatus. discriminate Hstatus.
    + eauto 10.
  - intros (text & stderr & db_session & ip & H1 & H2 & H3 & H4).
    unfold run_script. rewrite H1, H2, H3. cbn [Z.eqb negb]. rewrite H4. reflexivity.
  - destruct (run_script_cases session_id user_token payload db)
      as [[e He] | [He | (text & stderr & ip & _ & _ & _ & _ & He)]]; rewrite He.
    + split; [discriminate |]. intros _. cbn. eauto.
    + split; [discriminate |]. intros _. cbn. eauto.
    + split; [intros _; split; reflexivity |]. intros H. now contradiction H.
Qed.

Lemma stat_dict_in_metrics (stat : row) : incl (items (stat_dict stat)) (items (metrics stat)).
Proof.
  unfold stat_dict, metrics. cbn [items]. apply incl_map.
  intros kc Hkc. cbn in Hkc.
  repeat (destruct Hkc as [<- | Hkc]; [cbn; tauto |]). contradiction.
Qed.

Lemma ippf_year_lookup (input_portfolio : row) (n : nat) :
  (n < 26)%nat ->
  dict_get (ippf_data input_portfolio) (str_of_Z (1999 + Z.of_nat n)) PNone
  = getattr input_portfolio (year_attribute (1999 + Z.of_nat n)).
Proof.
  intros Hn.
  do 26 (destruct n as [| n]; [reflexivity |]). lia.
Qed.

Lemma get_year_lookup (strategy : row) (n : nat) :
  (n < 26)%nat ->
  dict_get ([(PStr "strat_uuid", getattr strategy "strat_uuid");
             (PStr "user_id", getattr strategy "user_id");
             (PStr "insert_time", getattr strategy "insert_time");
             (PStr "strat_name", getattr strategy "strat_name");
             (PStr "strat_name_alias", getattr strategy "strat_name_alias");
             (PStr "isPublic", getattr strategy "isPublic")]
            ++ portfolio_composition strategy)%list
           (year_attribute (1999 + Z.of_nat n)) PNone
  = getattr strategy (year_attribute (1999 + Z.of_nat n)).
Proof.
  intros Hn.
  do 26 (destruct n as [| n]; [reflexivity |]). lia.
Qed.

(** X23: what [run_script] reports on success agrees with what
    [get_strategy_service] returns for the same session on the database the
    script left: the same five identifying values, the same value for every
    year from 1999 to 2024 (under the key 1999 here, [y_1999] there), and
    one statistics entry per entry there, each key of which is a key there
    with the same value. *)
Theorem run_script_agrees_with_get_strategy
  (session_id user_token : string) (payload : pyval) (db : Session) :
  let out := fst (run_script sql w session_id user_token payload db) in
  let db_session := snd (run_script sql w session_id user_token payload db) in
  field "status" out = PStr "Success" ->
  exists response,
    get_strategy_service sql session_id db_session = Return response
    /\ (forall name,
          In name ["strat_uuid"; "user_id"; "insert_time"; "strat_name"; "strat_name_alias"] ->
          field name (field "ippf" (field "output" out)) = field name (field "ippf" response))
    /\ (forall year, (1999 <= year <= 2024)%Z ->
          field (str_of_Z year) (field "ippf" (field "output" out))
          = field (year_attribute year) (field "ippf" response))
    /\ Forall2 (fun mine theirs => incl (items mine) (items theirs))
               (elements (field "pfst" (field "output" out)))
               (elements (field "pfst" response)).
Proof.
  cbv zeta. intros Hstatus.
  destruct (run_script_cases session_id user_token payload db)
    as [[e He] | [He | (text & stderr & ip & _ & _ & _ & Hfirst & He)]];
    [rewrite He in Hstatus; discriminate Hstatus .. |].
  rewrite He. unfold get_strategy_service. rewrite Hfirst.
  eexists. split; [reflexivity |]. split; [| split].
  - intros name Hname. cbn in Hname.
    repeat (destruct Hname as [<- | Hname]; [reflexivity |]). contradiction.
  - intros year Hyear.
    replace year with (1999 + Z.of_nat (Z.to_nat (year - 1999)))%Z by lia.
    assert (Hn : (Z.to_nat (year - 1999) < 26)%nat) by lia.
    revert Hn. generalize (Z.to_nat (year - 1999)). intros n Hn.
    cbn [field dict_get dict_lookup String.eqb Ascii.eqb Bool.eqb].
    fold (dict_get (ippf_data ip) (str_of_Z (1999 + Z.of_nat n)) PNone).
    rewrite (ippf_year_lookup ip n Hn).
    symmetry. apply (get_year_lookup ip n Hn).
  - cbn [field dict_get dict_lookup String.eqb Ascii.eqb Bool.eqb elements].
    clear. generalize (filter (same_uuid sql session_id)
                              (investment_rules_statistics
                                 (snd (run_script sql w session_id user_token payload db)))).
    intros stats. induction stats as [| stat stats IH]; cbn [map]; constructor;
      [apply stat_dict_in_metrics | exact IH].
Qed.

(** X24: [run_script] returns the calendar years in the order of the
    database, [get_strategy_service] sorted by year; when sorting only
    reorders the rows, the years, portfolio and index values of the one
    are a permutation of the entries of the other. *)
Theorem run_script_calendar_years_unordered
  (session_id user_token : string) (payload : pyval) (db : Session) :
  let out := fst (run_script sql w session_id user_token payload db) in
  let db_session := snd (run_script sql w session_id user_token payload db) in
  (forall rows, Permutation rows (order_by_year sql rows)) ->
  field "status" out = PStr "Success" ->
  exists response,
    get_strategy_service sql session_id db_session = Return response
    /\ Permutation
         (map (fun cal_dict =>
                 PDict [(PStr "year", field "year" cal_dict);
                        (PStr "portfolio_cagr", field "portfolio_cagr" cal_dict);
                        (PStr "index_cagr", field "index_cagr" cal_dict)])
              (elements (field "calyears" (field "output" out))))
         (elements (field "calyears" response)).
Proof.
  cbv zeta. intros Hsort Hstatus.
  destruct (run_script_cases session_id user_token payload db)
    as [[e He] | [He | (text & stderr & ip & _ & _ & _ & Hfirst & He)]];
    [rewrite He in Hstatus; discriminate Hstatus .. |].
  rewrite He. unfold get_strategy_service. rewrite Hfirst.
  eexists. split; [reflexivity |].
  cbn [field dict_get dict_lookup String.eqb Ascii.eqb Bool.eqb elements].
  rewrite map_map.
  apply (Permutation_map yearly_perf), Hsort.
Qed.

End ScriptFacts.

Section SqliteFacts.
Import Store.

Lemma insert_by_year_permutation (r : row) (sorted : list row) :
  Permutation (r :: sorted) (insert_by_year r sorted).
Proof.
  induction sorted as [| r' sorted IH]; cbn [insert_by_year]; [reflexivity |].
  destruct (year_leb r' r); [| reflexivity].
  rewrite perm_swap. now apply perm_skip.
Qed.

Lemma sqlite_order_permutation (rows : list row) :
  Permutation rows (order_by_year sqlite rows).
Proof.
  cbn [order_by_year sqlite].
  rewrite <- (app_nil_r rows) at 1. generalize (@nil row) as sorted.
  induction rows as [| r rows IH]; intros sorted; cbn [fold_left app]; [reflexivity |].
  rewrite <- IH. rewrite <- insert_by_year_permutation. apply Permutation_middle.
Qed.

Lemma sqlite_offset_limit : standard_offset_limit sqlite.
Proof.
  intros offset limit rows Hoffset Hlimit. cbn [offset_limit sqlite].
  destruct (Z.ltb_spec offset 0); [lia |]. destruct (Z.ltb_spec limit 0); [lia |]. reflexivity.
Qed.

End SqliteFacts.

(** * The environment defaults *)

Section EnvironmentFacts.
Import Run.

Lemma getenv_setenv_same (env : environ) (key value : string) :
  getenv (setenv env key value) key = PStr value.
Proof.
  induction env as [| [k v] env IH]; cbn [setenv getenv].
  - now rewrite String.eqb_refl.
  - destruct (String.eqb k key) eqn:Hk; cbn [getenv]; rewrite Hk; [reflexivity | exact IH].
Qed.

Lemma getenv_setenv_other (env : environ) (key other value : string) :
  other <> key -> getenv (setenv env key value) other = getenv env other.
Proof.
  intros Hne. induction env as [| [k v] env IH]; cbn [setenv getenv].
  - destruct (String.eqb_spec key other); [congruence | reflexivity].
  - destruct (String.eqb_spec k key) as [-> | Hk]; cbn [getenv].
    + destruct (String.eqb_spec key other); [congruence | reflexivity].
    + now rewrite IH.
Qed.

(** One default: the variable is truthy afterwards, a truthy variable and
    every other variable are left alone, and the message is printed exactly
    when the default is taken. *)
Lemma default_spec (key value : string) (message : list string)
  (env : environ) (printed : list string) :
  value <> EmptyString ->
  let after := default key value message (env, printed) in
  truthy (getenv (fst after) key) = true
  /\ (forall other, other <> key -> getenv (fst after) other = getenv env other)
  /\ (truthy (getenv env key) = true -> after = (env, printed))
  /\ (truthy (getenv env key) = false ->
      getenv (fst after) key = PStr value /\ snd after = (printed ++ message)%list).
Proof.
  intros Hvalue. cbv zeta. unfold default.
  destruct (truthy (getenv env key)) eqn:Hset; cbn [negb fst snd].
  - repeat split; trivial; discriminate.
  - rewrite getenv_setenv_same. cbn [truthy].
    destruct (String.eqb_spec value EmptyString) as [| _]; [contradiction |].
    repeat split; trivial; try discriminate.
    intros other Hother. now apply getenv_setenv_other.
Qed.

Lemma defaults_facts (env : environ) :
  let env' := fst (defaults env) in
  (forall key, In key defaulted -> truthy (getenv env' key) = true)
  /\ (forall key, truthy (getenv env key) = true -> getenv env' key = getenv env key)
  /\ (forall key, ~ In key defaulted -> getenv env' key = getenv env key)
  /\ (truthy (getenv env "DATABASE_URL") = false ->
      getenv env' "DATABASE_URL" = PStr "sqlite:///./ffpu.db")
  /\ (truthy (getenv env "SECRET_KEY") = false ->
      getenv env' "SECRET_KEY" = PStr "dev-secret-key-change-in-production")
  /\ (truthy (getenv env "ALGORITHM") = false -> getenv env' "ALGORITHM" = PStr "HS256").
Proof.
  cbv zeta. unfold defaults.
  destruct (default "DATABASE_URL" "sqlite:///./ffpu.db"
              ["Using default SQLite database: ./ffpu.db"] (env, [])) as [env1 out1] eqn:H1.
  destruct (default "SECRET_KEY" "dev-secret-key-change-in-production"
              ["Using default SECRET_KEY (change in production)"] (env1, out1))
    as [env2 out2] eqn:H2.
  destruct (default "ALGORITHM" "HS256" [] (env2, out2)) as [env3 out3] eqn:H3.
  pose proof (default_spec "DATABASE_URL" "sqlite:///./ffpu.db"
                ["Using default SQLite database: ./ffpu.db"] env []) as S1.
  pose proof (default_spec "SECRET_KEY" "dev-secret-key-change-in-production"
                ["Using default SECRET_KEY (change in production)"] env1 out1) as S2.
  pose proof (default_spec "ALGORITHM" "HS256" [] env2 out2) as S3.
  cbv zeta in S1, S2, S3. rewrite H1 in S1. rewrite H2 in S2. rewrite H3 in S3.
  cbn [fst snd] in *.
  destruct S1 as (T1 & O1 & K1 & D1); [discriminate |].
  destruct S2 as (T2 & O2 & K2 & D2); [discriminate |].
  destruct S3 as (T3 & O3 & K3 & D3); [discriminate |].
  assert (Hkeep : forall key, truthy (getenv env key) = true -> getenv env3 key = getenv env key).
  { intros key Hkey.
    assert (E1 : getenv env1 key = getenv env key).
    { destruct (String.eqb_spec key "DATABASE_URL") as [-> | Hne]; [| now apply O1].
      now injection (K1 Hkey) as -> _. }
    assert (E2 : getenv env2 key = getenv env key).
    { rewrite <- E1. destruct (String.eqb_spec key "SECRET_KEY") as [-> | Hne]; [| now apply O2].
      rewrite <- E1 in Hkey. now injection (K2 Hkey) as -> _. }
    rewrite <- E2. destruct (String.eqb_spec key "ALGORITHM") as [-> | Hne]; [| now apply O3].
    rewrite <- E2 in Hkey. now injection (K3 Hkey) as -> _. }
  split; [| split; [exact Hkeep | split; [| split; [| split]]]].
  - intros key [<- | [<- | [<- | []]]].
    + rewrite O3, O2 by discriminate. exact T1.
    + rewrite O3 by discriminate. exact T2.
    + exact T3.
  - intros key Hkey. cbn in Hkey.
    rewrite O3, O2, O1; [reflexivity | | |]; intros ->; tauto.
  - intros Hunset. rewrite O3, O2 by discriminate. now apply D1.
  - intros Hunset. rewrite O3 by discriminate. apply D2. now rewrite O1 by discriminate.
  - intros Hunset. apply D3. now rewrite O2, O1 by discriminate.
Qed.

(** X25: after lines 14-24 each of DATABASE_URL, SECRET_KEY and ALGORITHM
    is set and not empty; a variable that was set and not empty keeps its
    value, every other variable is untouched, and a variable that was
    missing or empty (an empty value counts as missing) has the default of
    the file. *)
Theorem defaults_fill_what_is_missing (env : environ) :
  let env' := fst (defaults env) in
  (forall key, In key defaulted -> truthy (getenv env' key) = true)
  /\ (forall key, truthy (getenv env key) = true -> getenv env' key = getenv env key)
  /\ (forall key, ~ In key defaulted -> getenv env' key = getenv env key)
  /\ (truthy (getenv env "DATABASE_URL") = false ->
      getenv env' "DATABASE_URL" = PStr "sqlite:///./ffpu.db")
  /\ (truthy (getenv env "SECRET_KEY") = false ->
      getenv env' "SECRET_KEY" = PStr "dev-secret-key-change-in-production")
  /\ (truthy (getenv env "ALGORITHM") = false -> getenv env' "ALGORITHM" = PStr "HS256").
Proof. exact (defaults_facts env). Qed.

Lemma default_keeps (key value : string) (message : list string)
  (env : environ) (printed : list string) :
  truthy (getenv env key) = true -> default key value message (env, printed) = (env, printed).
Proof. intros H. unfold default. now rewrite H. Qed.

(** X26: the module prints the warning about the development secret
    exactly when SECRET_KEY was missing or empty, and the notice about the
    SQLite database exactly when DATABASE_URL was; with both set it prints
    nothing. *)
Theorem defaults_warn_about_secret (env : environ) :
  (In "Using default SECRET_KEY (change in production)" (snd (defaults env))
   <-> truthy (getenv env "SECRET_KEY") = false)
  /\ (In "Using default SQLite database: ./ffpu.db" (snd (defaults env))
      <-> truthy (getenv env "DATABASE_URL") = false)
  /\ (truthy (getenv env "SECRET_KEY") = true -> truthy (getenv env "DATABASE_URL") = true ->
      snd (defaults env) = []).
Proof.
  unfold defaults, default.
  destruct (truthy (getenv env "DATABASE_URL")) eqn:Hdb; cbn [negb];
    rewrite ?getenv_setenv_other by discriminate;
    destruct (truthy (getenv env "SECRET_KEY")) eqn:Hkey; cbn [negb];
    match goal with |- context [if ?c then _ else _] => destruct c end;
    cbn [snd app In].
  all: repeat split; intros; try discriminate; try congruence; try tauto.
  all: try match goal with H : _ \/ _ |- _ => destruct H as [H | H]; try discriminate H; try tauto end.
Qed.

(** X27: running the defaults a second time changes nothing and prints
    nothing. *)
Theorem defaults_idempotent (env : environ) :
  defaults (fst (defaults env)) = (fst (defaults env), []).
Proof.
  destruct (defaults_facts env) as (Hset & _). cbv zeta in Hset.
  generalize dependent (fst (defaults env)). intros env' Hset.
  unfold defaults.
  rewrite (default_keeps "DATABASE_URL") by (apply Hset; cbn; tauto).
  rewrite (default_keeps "SECRET_KEY") by (apply Hset; cbn; tauto).
  rewrite (default_keeps "ALGORITHM") by (apply Hset; cbn; tauto).
  reflexivity.
Qed.

End EnvironmentFacts.

(** * The properties above on closed examples *)

Section FormatterWitnesses.
Import Examples MoreExamples.

Lemma non_mapping_entries_witness :
  dict_lookup "filters" mixed_mapping = Some (PList mixed_entries)
  /\ dict_lookup "filters" mappings_only = Some (PList (filter is_dict mixed_entries))
  /\ filter is_dict mixed_entries <> []
  /\ format_filters (PDict mixed_mapping) = format_filters (PDict mappings_only)
  /\ format_filters (PDict mappings_only)
     = Ok "ROE 1 Years > 0.1 AND PE 1 Years <= 10,20 or".
Proof.
  split; [reflexivity |]. split; [reflexivity |]. split; [discriminate |].
  split; [| vm_compute; reflexivity].
  apply (non_mapping_entries_are_invisible mixed_mapping mappings_only mixed_entries);
    [reflexivity | reflexivity | discriminate].
Defined.


Lemma strict_parse_result_witness :
  truthy (PStr twice_encoded_text) = true
  /\ Reference.json_loads (PStr twice_encoded_text) = Ok (PStr twice_encoded_inner)
  /\ is_dict (PStr twice_encoded_inner) = false
  /\ snd (_coerce_to_dict Reference.json_loads Reference.literal_eval
            (PStr twice_encoded_text)) = Ok (PDict empty_filters_mapping)
  /\ format_query_traced Reference.json_loads Reference.literal_eval (PStr twice_encoded_text)
     = ([JsonLoads (PStr twice_encoded_text)], "Invalid query format").
Proof.
  split; [reflexivity |]. split; [vm_compute; reflexivity |]. split; [reflexivity |].
  split; [vm_compute; reflexivity |].
  apply (strict_parse_result_is_final Reference.json_loads Reference.literal_eval
           (PStr twice_encoded_text) (PStr twice_encoded_inner));
    [reflexivity | vm_compute; reflexivity | reflexivity].
Defined.

Lemma strict_parse_retried_witness :
  literal_none_text <> EmptyString
  /\ exists e,
       Reference.json_loads (PStr literal_none_text) = Raise e
       /\ exists rest,
            library_calls Reference.json_loads Reference.literal_eval (PStr literal_none_text)
            = JsonLoads (PStr literal_none_text) :: JsonLoads (PStr literal_none_text)
              :: LiteralEval (PStr literal_none_text) :: rest.
Proof.
  split; [discriminate |].
  assert (He : exists e, Reference.json_loads (PStr literal_none_text) = Raise e)
    by (vm_compute; eexists; reflexivity).
  destruct He as [e He]. exists e. split; [exact He |].
  apply (strict_parse_is_retried Reference.json_loads Reference.literal_eval
           literal_none_text e); [discriminate | exact He].
Defined.

Lemma clean_json_witness :
  truthy (PStr roe_text) = true
  /\ Reference.json_loads (PStr roe_text) = Ok (PDict roe_mapping)
  /\ (forall q, dict_lookup "query" roe_mapping <> Some (PStr q))
  /\ library_calls Reference.json_loads Reference.literal_eval (PStr roe_text)
     = [JsonLoads (PStr roe_text)]
  /\ format_query_from_strat_name Reference.json_loads Reference.literal_eval (PStr roe_text)
     = outcome_text (format_filters (PDict roe_mapping)).
Proof.
  assert (Hjson : Reference.json_loads (PStr roe_text) = Ok (PDict roe_mapping))
    by (vm_compute; reflexivity).
  assert (Hquery : forall q, dict_lookup "query" roe_mapping <> Some (PStr q))
    by (intros q; discriminate).
  split; [reflexivity |]. split; [exact Hjson |]. split; [exact Hquery |].
  exact (clean_json_single_call Reference.json_loads Reference.literal_eval
           (PStr roe_text) roe_mapping eq_refl Hjson Hquery).
Defined.

Lemma no_valid_filters_witness :
  truthy (PStr no_mapping_text) = true
  /\ snd (parse_descriptor Reference.json_loads Reference.literal_eval (PStr no_mapping_text))
     = Ok (PDict [(PStr "filters", PList [PInt 1; PStr "x"])])
  /\ snd (unwrap_query Reference.json_loads Reference.literal_eval
            (PDict [(PStr "filters", PList [PInt 1; PStr "x"])]))
     = Ok (PDict [(PStr "filters", PList [PInt 1; PStr "x"])])
  /\ format_query_from_strat_name Reference.json_loads Reference.literal_eval
       (PStr no_mapping_text) = "No valid filters found".
Proof.
  assert (Hparse : snd (parse_descriptor Reference.json_loads Reference.literal_eval
                          (PStr no_mapping_text))
                   = Ok (PDict [(PStr "filters", PList [PInt 1; PStr "x"])]))
    by (vm_compute; reflexivity).
  split; [reflexivity |]. split; [exact Hparse |]. split; [reflexivity |].
  apply (no_valid_filters_iff Reference.json_loads Reference.literal_eval
           (PStr no_mapping_text) _ _ eq_refl Hparse eq_refl).
  exists (PInt 1), [PStr "x"]. split; [reflexivity |]. repeat constructor.
Defined.

Lemma invalid_query_format_witness :
  truthy (PStr unquoted_key_text) = true
  /\ snd (parse_descriptor Reference.json_loads Reference.literal_eval
            (PStr unquoted_key_text)) = Ok PNone
  /\ format_query_from_strat_name Reference.json_loads Reference.literal_eval
       (PStr unquoted_key_text) = "Invalid query format".
Proof.
  assert (Hparse : snd (parse_descriptor Reference.json_loads Reference.literal_eval
                          (PStr unquoted_key_text)) = Ok PNone)
    by (vm_compute; reflexivity).
  split; [reflexivity |]. split; [exact Hparse |].
  apply (invalid_query_format_iff Reference.json_loads Reference.literal_eval
           (PStr unquoted_key_text) eq_refl).
  exists PNone. split; [exact Hparse | reflexivity].
Defined.

Lemma final_strip_agrees_witness :
  Text.mem " "%char "AND" = false
  /\ Text.rstrip (Text.join " " ["ROE 5 Years > 0.15 AND"])
     = ("ROE 5 Years > 0.15" ++ String " "%char "AND")%string
  /\ join_clauses ["ROE 5 Years > 0.15 AND"] = Spec.join_clauses ["ROE 5 Years > 0.15 AND"]
  /\ join_clauses ["ROE 5 Years > 0.15 AND"] = "ROE 5 Years > 0.15".
Proof.
  split; [reflexivity |]. split; [reflexivity |].
  destruct (join_clauses_agrees_with_spec ["ROE 5 Years > 0.15 AND"] "ROE 5 Years > 0.15"
              " "%char eq_refl eq_refl) as [Hspec Hcode].
  split; [exact Hspec | exact Hcode].
Defined.

End FormatterWitnesses.

Section StoreWitnesses.
Import Store MoreExamples.

Lemma save_first_match_witness :
  first (same_uuid sqlite (session_id publish_s2)) (portfolio_investment_rules sample_db)
  = Some (portfolio 2 "s-2" "7" PNone 0)
  /\ refuses_integer sqlite (isPublic publish_s2) = None
  /\ (exists before after updated,
        portfolio_investment_rules sample_db
        = (before ++ portfolio 2 "s-2" "7" PNone 0 :: after)%list
        /\ Forall (fun b => same_uuid sqlite (session_id publish_s2) b = false) before
        /\ save_strategy_service sqlite publish_s2 sample_db
           = (Return (PDict [(PStr "message", PStr "Strategy updated successfully")]),
              {| portfolio_investment_rules := (before ++ updated :: after)%list;
                 investment_rules_statistics := investment_rules_statistics sample_db;
                 cal_year := cal_year sample_db |})
        /\ getattr updated "strat_name_alias" = PStr (strat_name_alias publish_s2)
        /\ getattr updated "isPublic" = PInt (isPublic publish_s2)
        /\ forall name, name <> "strat_name_alias" -> name <> "isPublic" ->
                        getattr updated name = getattr (portfolio 2 "s-2" "7" PNone 0) name)
  /\ first (same_uuid sqlite (session_id overflow_s2)) (portfolio_investment_rules sample_db)
     = Some (portfolio 2 "s-2" "7" PNone 0)
  /\ save_strategy_service sqlite overflow_s2 sample_db
     = (Uncaught (Exn "OverflowError" "Python int too large to convert to SQLite INTEGER"),
        sample_db).
Proof.
  split; [reflexivity |]. split; [reflexivity |]. split.
  - apply (proj1 (save_updates_first_match_only sqlite publish_s2 sample_db
                    (portfolio 2 "s-2" "7" PNone 0) eq_refl)).
    reflexivity.
  - split; [reflexivity |].
    apply (proj2 (save_updates_first_match_only sqlite overflow_s2 sample_db
                    (portfolio 2 "s-2" "7" PNone 0) eq_refl)).
    reflexivity.
Defined.

Lemma save_last_write_witness :
  session_id rename_s2 = session_id publish_s2
  /\ refuses_integer sqlite (isPublic publish_s2) = None
  /\ save_strategy_service sqlite publish_s2
       (snd (save_strategy_service sqlite rename_s2 sample_db))
     = save_strategy_service sqlite publish_s2 sample_db.
Proof.
  split; [reflexivity |]. split; [reflexivity |].
  apply (save_last_write_wins sqlite rename_s2 publish_s2 sample_db); reflexivity.
Defined.

Lemma total_pages_witness :
  standard_offset_limit sqlite
  /\ (1 <= 1)%Z /\ (0 <= 1)%Z
  /\ refuses_integer sqlite 7 = None
  /\ refuses_integer sqlite 1 = None
  /\ refuses_integer sqlite ((1 - 1) * 1) = None
  /\ (exists total_pages,
        pagination_of "total"
          (get_all_strategies_service_old sqlite Reference.json_loads Reference.literal_eval
             1 1 sample_db) = Some 2%Z
        /\ pagination_of "total_pages"
             (get_all_strategies_service_old sqlite Reference.json_loads
                Reference.literal_eval 1 1 sample_db) = Some total_pages
        /\ ((total_pages - 1) * 1 < 2 <= total_pages * 1)%Z
        /\ (total_pages = 0 <-> 2 = 0)%Z)
  /\ (exists total_pages,
        pagination_of "total"
          (get_all_strategies_user_service sqlite Reference.json_loads
             Reference.literal_eval 7 1 1 sample_db) = Some 1%Z
        /\ pagination_of "total_pages"
             (get_all_strategies_user_service sqlite Reference.json_loads
                Reference.literal_eval 7 1 1 sample_db) = Some total_pages
        /\ ((total_pages - 1) * 1 < 1 <= total_pages * 1)%Z
        /\ (total_pages = 0 <-> 1 = 0)%Z).
Proof.
  assert (Hpage : (1 <= 1)%Z) by lia. assert (Hsize : (0 <= 1)%Z) by lia.
  assert (Hpositive : (0 < 1)%Z) by lia.
  split; [exact sqlite_offset_limit |]. split; [exact Hpage |]. split; [exact Hsize |].
  split; [reflexivity |]. split; [reflexivity |]. split; [reflexivity |].
  destruct (total_pages_is_least_cover sqlite Reference.json_loads Reference.literal_eval
              7 1 1 sample_db sqlite_offset_limit Hpage Hsize eq_refl eq_refl eq_refl)
    as [Huser Hpublic].
  split; [exact (proj2 Hpublic Hpositive) | exact (proj2 Huser Hpositive)].
Defined.

Lemma pages_partition_witness :
  standard_offset_limit sqlite
  /\ (0 < 1)%Z
  /\ pagination_of "total_pages"
       (list_page sqlite Reference.json_loads Reference.literal_eval
                  (public_with_alias sqlite) 1 1 sample_db) = Some 2%Z
  /\ flat_map (fun p => strategies_of
                          (list_page sqlite Reference.json_loads Reference.literal_eval
                                     (public_with_alias sqlite) (Z.of_nat p) 1 sample_db))
              (seq 1 (Z.to_nat 2))
     = map (strategy_item Reference.json_loads Reference.literal_eval)
           (filter (public_with_alias sqlite) (portfolio_investment_rules sample_db)).
Proof.
  split; [exact sqlite_offset_limit |]. split; [lia |]. split; [reflexivity |].
  apply (pages_partition_selection sqlite Reference.json_loads Reference.literal_eval
           (public_with_alias sqlite) 1 1 2 sample_db);
    [exact sqlite_offset_limit | lia | reflexivity].
Defined.


Lemma public_listing_witness :
  standard_offset_limit sqlite
  /\ (1 <= 1)%Z /\ (0 <= 10)%Z
  /\ Forall (fun item =>
               exists r,
                 In r (portfolio_investment_rules sample_db)
                 /\ item = strategy_item Reference.json_loads Reference.literal_eval r
                 /\ (forall flag, getattr r "isPublic" = PInt flag -> flag = 1%Z)
                 /\ getattr r "strat_name_alias" <> PNone
                 /\ (forall alias, getattr r "strat_name_alias" = PStr alias ->
                                   text_eq sqlite alias EmptyString = false))
            (strategies_of
               (get_all_strategies_service_old sqlite Reference.json_loads
                  Reference.literal_eval 1 10 sample_db)).
Proof.
  split; [exact sqlite_offset_limit |]. split; [lia |]. split; [lia |].
  apply (public_listing_shows_public_only sqlite Reference.json_loads Reference.literal_eval
           1 10 sample_db); [exact sqlite_offset_limit | lia | lia].
Defined.


Lemma read_back_witness :
  first (same_uuid sqlite (session_id publish_s2)) (portfolio_investment_rules sample_db)
  = Some (portfolio 2 "s-2" "7" PNone 0)
  /\ refuses_integer sqlite (isPublic publish_s2) = None
  /\ exists ippf ippf' pfst calyears,
       get_strategy_service sqlite (session_id publish_s2) sample_db
       = Return (PDict [(PStr "ippf", PDict ippf); (PStr "pfst", pfst);
                        (PStr "calyears", calyears)])
       /\ get_strategy_service sqlite (session_id publish_s2)
            (snd (save_strategy_service sqlite publish_s2 sample_db))
          = Return (PDict [(PStr "ippf", PDict ippf'); (PStr "pfst", pfst);
                           (PStr "calyears", calyears)])
       /\ dict_lookup "strat_name_alias" ippf' = Some (PStr (strat_name_alias publish_s2))
       /\ dict_lookup "isPublic" ippf' = Some (PInt (isPublic publish_s2))
       /\ map fst ippf' = map fst ippf
       /\ forall key, key <> "strat_name_alias" -> key <> "isPublic" ->
                      dict_lookup key ippf' = dict_lookup key ippf.
Proof.
  split; [reflexivity |]. split; [reflexivity |].
  apply (saved_strategy_is_read_back sqlite publish_s2 sample_db
           (portfolio 2 "s-2" "7" PNone 0)); reflexivity.
Defined.

Lemma reply_years_witness :
  first (same_uuid sqlite "s-1") (portfolio_investment_rules sample_db)
  = Some (portfolio 1 "s-1" "7" (PStr "first") 1)
  /\ exists ippf pfst calyears,
       get_strategy_service sqlite "s-1" sample_db
       = Return (PDict [(PStr "ippf", PDict ippf); (PStr "pfst", pfst);
                        (PStr "calyears", calyears)])
       /\ map fst ippf
          = (map PStr ["strat_uuid"; "user_id"; "insert_time"; "strat_name";
                       "strat_name_alias"; "isPublic"]
             ++ map (fun year => PStr (year_attribute year)) composition_years)%list
       /\ (forall year, (1999 <= year <= 2024)%Z ->
             dict_lookup (year_attribute year) ippf
             = Some (getattr (portfolio 1 "s-1" "7" (PStr "first") 1) (year_attribute year)))
       /\ has_year_attribute "y_1997" = true /\ dict_lookup "y_1997" ippf = None
       /\ has_year_attribute "y_1998" = true /\ dict_lookup "y_1998" ippf = None.
Proof.
  split; [reflexivity |].
  apply (reply_has_years_1999_to_2024 sqlite "s-1" sample_db
           (portfolio 1 "s-1" "7" (PStr "first") 1)).
  reflexivity.
Defined.

Lemma run_script_success_witness :
  field "status" (fst script_run)
  = PStr "Success"
  /\ field "strategy_id" (fst script_run)
     = PStr "s-5"
  /\ field "error" (fst script_run)
     = PNone.
Proof.
  split; [reflexivity |].
  apply (proj1 (proj2 (run_script_success_iff sqlite script_world "s-5" "9" (PDict [])
                         sample_db))).
  reflexivity.
Defined.

Lemma run_script_agrees_witness :
  field "status" (fst script_run) = PStr "Success"
  /\ exists response,
       get_strategy_service sqlite "s-5" (snd script_run) = Return response
       /\ (forall name,
             In name ["strat_uuid"; "user_id"; "insert_time"; "strat_name";
                      "strat_name_alias"] ->
             field name (field "ippf" (field "output" (fst script_run)))
             = field name (field "ippf" response))
       /\ (forall year, (1999 <= year <= 2024)%Z ->
             field (str_of_Z year) (field "ippf" (field "output" (fst script_run)))
             = field (year_attribute year) (field "ippf" response))
       /\ Forall2 (fun mine theirs => incl (items mine) (items theirs))
                  (elements (field "pfst" (field "output" (fst script_run))))
                  (elements (field "pfst" response)).
Proof.
  split; [reflexivity |].
  apply (run_script_agrees_with_get_strategy sqlite script_world "s-5" "9" (PDict [])
           sample_db).
  reflexivity.
Defined.

Lemma run_script_calendar_witness :
  (forall rows, Permutation rows (order_by_year sqlite rows))
  /\ field "status" (fst script_run) = PStr "Success"
  /\ exists response,
       get_strategy_service sqlite "s-5" (snd script_run) = Return response
       /\ Permutation
            (map (fun cal_dict =>
                    PDict [(PStr "year", field "year" cal_dict);
                           (PStr "portfolio_cagr", field "portfolio_cagr" cal_dict);
                           (PStr "index_cagr", field "index_cagr" cal_dict)])
                 (elements (field "calyears" (field "output" (fst script_run)))))
            (elements (field "calyears" response)).
Proof.
  split; [exact sqlite_order_permutation |]. split; [reflexivity |].
  apply (run_script_calendar_years_unordered sqlite script_world "s-5" "9" (PDict [])
           sample_db); [exact sqlite_order_permutation | reflexivity].
Defined.

Lemma defaults_fill_witness :
  truthy (Run.getenv Run.production_env "SECRET_KEY") = false
  /\ truthy (Run.getenv Run.production_env "DATABASE_URL") = true
  /\ Run.getenv (fst (Run.defaults Run.production_env)) "SECRET_KEY"
     = PStr "dev-secret-key-change-in-production"
  /\ Run.getenv (fst (Run.defaults Run.production_env)) "DATABASE_URL"
     = Run.getenv Run.production_env "DATABASE_URL".
Proof.
  destruct (defaults_fill_what_is_missing Run.production_env)
    as (_ & Hkeep & _ & _ & Hsecret & _).
  split; [reflexivity |]. split; [reflexivity |].
  split; [apply Hsecret; reflexivity | apply Hkeep; reflexivity].
Defined.

End StoreWitnesses.
